(** * CB-Tumblebug: MCI orchestration core, embedded and checked

    A shallow embedding of the parts of the Go sources that the
    specification talks about: the provisioning history and risk
    analyzer, the MCIS status derivation, the VM status reconciler, the
    MCIS deletion gate, the Kubernetes version recommendation and the
    store effects of the dynamic-request review; and, beside them, the
    maintenance of the stored logs, the VM record updates and the checks
    of dynamic requests.

    Conventions.
    - Go [string] is [string]; Go [int] is [Z] with the 64-bit wrap-around
      of [+] written out ([int_add]); [len] is a [nat] turned into [Z].
    - [float64] quotients of counters are exact rationals [Q]: for counters
      of magnitude below 2^53 the comparisons against 0.8, 0.5 and 0 made
      by the code agree with the exact quotient.
    - A function that returns [(T, error)] and touches the key-value store
      is a state passing function [S -> Result T * S]; the state survives
      an error, as it does in Go.
    - JSON texts in the store are represented by what [json.Unmarshal]
      makes of them.
    - Goroutines that a [WaitGroup] waits for are run one after the other;
      where they write a shared variable without a lock (the [Vm] list of
      [GetMcisStatus]), the outcome of the race is decided by the
      environment. *)

From Stdlib Require Import ZArith QArith Qround Strings.String Strings.Ascii List Bool Lia.
From Stdlib Require Import Numbers.DecimalString.
From stdpp Require Import gmap strings list.

Open Scope Z_scope.
Open Scope string_scope.

(** ** Results and state passing *)

Inductive Result (A : Type) : Type :=
| Ok (a : A)
| Err (msg : string).
Arguments Ok {A} a.
Arguments Err {A} msg.

Definition M (S A : Type) : Type := S -> Result A * S.

Definition ret {S A : Type} (a : A) : M S A := fun s => (Ok a, s).

Definition fail {S A : Type} (msg : string) : M S A := fun s => (Err msg, s).

Definition bind {S A B : Type} (m : M S A) (f : A -> M S B) : M S B :=
  fun s => match m s with
           | (Ok a, s') => f a s'
           | (Err e, s') => (Err e, s')
           end.

(** [catch m h k]: Go's [x, err := m; if err != nil { h err } ; k x]. *)
Definition catch {S A B : Type} (m : M S A) (h : string -> M S B) (k : A -> M S B) : M S B :=
  fun s => match m s with
           | (Ok a, s') => k a s'
           | (Err e, s') => h e s'
           end.

Declare Scope go_scope.
Delimit Scope go_scope with go.
Notation "x <- m ;; k" := (bind m (fun x => k))
  (at level 100, m at next level, right associativity) : go_scope.
Notation "m ;;; k" := (bind m (fun _ => k))
  (at level 100, right associativity) : go_scope.

Definition isOk {A : Type} (r : Result A) : bool :=
  match r with Ok _ => true | Err _ => false end.

(** How a call ends: it returns, or it panics (a run-time error such as a
    slice bound out of range). *)
Inductive Outcome (A : Type) : Type :=
| Returned (r : Result A)
| Panicked.
Arguments Returned {A} r.
Arguments Panicked {A}.

(** ** Go library functions on strings *)

Module Strings.

(** [strings.HasPrefix]. *)
Definition HasPrefix (s p : string) : bool := String.prefix p s.

(** [strings.Contains]: [substr] occurs in [s] at some position. *)
Fixpoint Contains (s substr : string) : bool :=
  HasPrefix s substr ||
  match s with
  | EmptyString => false
  | String _ s' => Contains s' substr
  end.

Definition isUpper (c : ascii) : bool :=
  let n := nat_of_ascii c in (65 <=? n)%nat && (n <=? 90)%nat.

Definition toLowerChar (c : ascii) : ascii :=
  if isUpper c then ascii_of_nat (nat_of_ascii c + 32) else c.

(** [strings.ToLower] on ASCII text. *)
Fixpoint ToLower (s : string) : string :=
  match s with
  | EmptyString => EmptyString
  | String c s' => String (toLowerChar c) (ToLower s')
  end.

(** [strings.EqualFold] on ASCII text: equality up to letter case. *)
Definition EqualFold (s t : string) : bool := String.eqb (ToLower s) (ToLower t).

(** [strconv.Itoa] on a non-negative count. *)
Definition Itoa (n : nat) : string := NilZero.string_of_uint (Nat.to_uint n).

(** [%d] of an [int]. *)
Definition ItoaZ (z : Z) : string := NilZero.string_of_int (Z.to_int z).

(** [strings.Join]. *)
Fixpoint Join (l : list string) (sep : string) : string :=
  match l with
  | [] => ""
  | [x] => x
  | x :: rest => x +:+ sep +:+ Join rest sep
  end.

Definition isUnreserved (c : ascii) : bool :=
  let n := nat_of_ascii c in
  ((48 <=? n)%nat && (n <=? 57)%nat) || ((65 <=? n)%nat && (n <=? 90)%nat) ||
  ((97 <=? n)%nat && (n <=? 122)%nat) ||
  Ascii.eqb c "-" || Ascii.eqb c "_" || Ascii.eqb c "." || Ascii.eqb c "~".

Definition hexDigit (n : nat) : ascii :=
  if (n <? 10)%nat then ascii_of_nat (48 + n) else ascii_of_nat (55 + n).

(** [url.QueryEscape]: unreserved bytes stay, a space becomes [+], every
    other byte becomes [%XX] in upper-case hexadecimal. *)
Fixpoint QueryEscape (s : string) : string :=
  match s with
  | EmptyString => EmptyString
  | String c s' =>
      if isUnreserved c then String c (QueryEscape s')
      else if Ascii.eqb c " " then String "+" (QueryEscape s')
      else let n := nat_of_ascii c in
           String "%" (String (hexDigit (n / 16)) (String (hexDigit (n mod 16)) (QueryEscape s')))
  end.

End Strings.

(** ** Go [int] *)

Definition int_wrap (z : Z) : Z := (z + 2 ^ 63) mod 2 ^ 64 - 2 ^ 63.
Definition int_add (a b : Z) : Z := int_wrap (a + b).
Definition len {A : Type} (l : list A) : Z := Z.of_nat (length l).

(** ** Provisioning history: data model (package [model])

    The struct declarations are not part of the sources at hand; the
    fields are the ones the functions below read and write. *)

Definition Time := Z.

Module ProvisioningLog.
Record t := mk {
  SpecId : string;
  ConnectionName : string;
  ProviderName : string;
  RegionName : string;
  FailureCount : Z;
  SuccessCount : Z;
  FailureTimestamps : list Time;
  SuccessTimestamps : list Time;
  FailureMessages : list string;
  FailureImages : list string;
  SuccessImages : list string;
  LastUpdated : Time;
  AdditionalInfo : gmap string string
}.
End ProvisioningLog.

Module ProvisioningEvent.
Record t := mk {
  SpecId : string;
  CspImageName : string;
  IsSuccess : bool;
  ErrorMessage : string;
  Timestamp : Time;
  VmName : string;
  MciId : string
}.
End ProvisioningEvent.

Module TbSpecInfo.
Record t := mk {
  Id : string;
  ConnectionName : string;
  ProviderName : string;
  RegionName : string;
  CspSpecName : string;
  CostPerHour : Q
}.
End TbSpecInfo.

Module SpecRiskInfo.
Record t := mk {
  Level : string;
  Message : string;
  FailedImageCount : Z;
  SucceededImageCount : Z;
  TotalFailures : Z;
  TotalSuccesses : Z;
  FailureRate : Q
}.
End SpecRiskInfo.

Module ImageRiskInfo.
Record t := mk {
  Level : string;
  Message : string;
  HasFailedWithSpec : bool;
  HasSucceededWithSpec : bool;
  IsNewCombination : bool
}.
End ImageRiskInfo.

Module OverallRiskInfo.
Record t := mk {
  Level : string;
  Message : string;
  PrimaryRiskFactor : string
}.
End OverallRiskInfo.

Module RiskAnalysis.
Record t := mk {
  SpecRisk : SpecRiskInfo.t;
  ImageRisk : ImageRiskInfo.t;
  OverallRisk : OverallRiskInfo.t;
  Recommendations : list string
}.
End RiskAnalysis.

(** ** The key-value store as the history functions see it

    A stored text is classified by what [GetProvisioningLog] makes of it:
    the empty text, a text that is not JSON, JSON that does not decode
    into a [ProvisioningLog], or the encoding of a log.  [GetKv] of a
    missing key fails with ["key not found"]; the store itself is
    reliable (no transport errors). *)

Inductive Stored : Type :=
| Blank
| Garbage (raw : string)
| Misfit (raw : string)
| Encoded (l : ProvisioningLog.t).

Abbreviation kvstore := (gmap string Stored).

Module kv.
Definition GetKv (key : string) : M kvstore Stored :=
  fun st => match st !! key with
            | Some v => (Ok v, st)
            | None => (Err "key not found", st)
            end.
Definition Put (key : string) (v : Stored) : M kvstore unit :=
  fun st => (Ok tt, <[key := v]> st).
Definition Delete (key : string) : M kvstore unit :=
  fun st => (Ok tt, delete key st).
(** [GetKvList]: the keys that start with [keyPrefix], with their values. *)
Definition GetKvList (keyPrefix : string) : M kvstore (list (string * Stored)) :=
  fun st => (Ok (List.filter (fun kv => Strings.HasPrefix (fst kv) keyPrefix) (map_to_list st)), st).
End kv.

(** Collaborators of package [infra] that live in other packages:
    the spec catalog ([resource.GetSpec]) and the name of the system
    namespace.  [GetSpec] reads the store and cannot write it. *)
Class Catalog := {
  SystemCommonNs : string;
  GetSpec : kvstore -> string -> string -> Result TbSpecInfo.t
}.

(** Rounding to the nearest integer, ties to even: the rounding of the
    [%f] verbs. *)
Definition roundHalfEven (q : Q) : Z :=
  let f := Qfloor q in
  match Qcompare (q - inject_Z f) (1 # 2) with
  | Lt => f
  | Eq => if Z.even f then f else (f + 1)%Z
  | Gt => (f + 1)%Z
  end.

(** [%.1f] of a percentage: one fractional digit, the exact value rounded
    as [fmt] rounds the binary one; the two texts are the same whenever
    the [float64] value is the exact one (a negative zero has no
    counterpart here).  Only message texts use it. *)
Definition fmtPct (q : Q) : string :=
  let a := Z.abs (roundHalfEven (q * inject_Z 10)) in
  (if Qle_bool 0 q then "" else "-") +:+
  Strings.ItoaZ (a / 10)%Z +:+ "." +:+ Strings.ItoaZ (a mod 10)%Z.

(** ** Package [model]: MCI and VM records used by the history recorder *)

Module model.

(** Modelled from the spec: the constant block of package [model] is not
    among the sources; section 3 names the VM states and scenario S1
    shows the text of [Running]. *)
Definition StatusRunning : string := "Running".

Module TbVmInfo.
Record t := mk {
  Id : string;
  Status : string;
  SpecId : string;
  CspImageName : string
}.
End TbVmInfo.

Module VmCreationError.
Record t := mk {
  VmName : string;
  Error : string;
  Phase : string;
  Timestamp : string
}.
End VmCreationError.

Module MciCreationErrors.
Record t := mk {
  VmObjectCreationErrors : list VmCreationError.t;
  VmCreationErrors : list VmCreationError.t;
  TotalVmCount : Z;
  SuccessfulVmCount : Z;
  FailedVmCount : Z;
  FailureHandlingStrategy : string
}.
End MciCreationErrors.

Module TbMciInfo.
Record t := mk {
  Id : string;
  Vm : list TbVmInfo.t;
  CreationErrors : option MciCreationErrors.t
}.
End TbMciInfo.

End model.

(** ** Package [infra]: provisioning history *)

Module infra.

Import Strings.
Local Open Scope list_scope.

(** [contains]: membership in a string slice. *)
Fixpoint contains (slice : list string) (item : string) : bool :=
  match slice with
  | [] => false
  | s :: rest => if String.eqb s item then true else contains rest item
  end.

Definition generateProvisioningLogKey (specId : string) : string :=
  "/log/provision/" +:+ QueryEscape specId.

Definition GetProvisioningLog (specId : string) : M kvstore (option ProvisioningLog.t) :=
  let key := generateProvisioningLogKey specId in
  catch (kv.GetKv key)
    (fun e => if String.eqb e "key not found" then ret None
              else fail ("failed to get provisioning log: " +:+ e))
    (fun keyValue =>
       match keyValue with
       | Blank => ret None
       | Garbage _ => catch (kv.Delete key) (fun _ => ret None) (fun _ => ret None)
       | Misfit _ => catch (kv.Delete key) (fun _ => ret None) (fun _ => ret None)
       | Encoded provisioningLog => ret (Some provisioningLog)
       end).

Definition setLastUpdated (now : Time) (l : ProvisioningLog.t) : ProvisioningLog.t :=
  let 'ProvisioningLog.mk a b c d e f g h i j k _ m := l in
  ProvisioningLog.mk a b c d e f g h i j k now m.

(** [now] is the reading of [time.Now()]. *)
Definition SaveProvisioningLog (now : Time) (provisioningLog : ProvisioningLog.t) : M kvstore unit :=
  let provisioningLog := setLastUpdated now provisioningLog in
  let key := generateProvisioningLogKey (ProvisioningLog.SpecId provisioningLog) in
  catch (kv.Put key (Encoded provisioningLog))
    (fun e => fail ("failed to save provisioning log: " +:+ e))
    (fun _ => ret tt).

Definition DeleteProvisioningLog (specId : string) : M kvstore unit :=
  let key := generateProvisioningLogKey specId in
  catch (kv.Delete key)
    (fun e => fail ("failed to delete provisioning log: " +:+ e))
    (fun _ => ret tt).

(** *** Risk analysis *)

(** [getRiskValue]: the numeric rank of a risk level. *)
Definition getRiskValue (riskLevel : string) : Z :=
  if String.eqb riskLevel "high" then 3
  else if String.eqb riskLevel "medium" then 2
  else if String.eqb riskLevel "low" then 1
  else 0.

Definition analyzeSpecRisk (failedImageCount succeededImageCount totalFailures totalSuccesses : Z)
    (failureRate : Q) : SpecRiskInfo.t :=
  let pct := fmtPct (failureRate * inject_Z 100)%Q in
  let '(level, message) :=
    if (10 <=? failedImageCount)%Z then
      ("high", "Spec-level issue detected: " +:+ ItoaZ failedImageCount +:+
               " different images have failed with this spec (" +:+ pct +:+
               "% failure rate). This suggests the spec itself may be problematic")
    else if (5 <=? failedImageCount)%Z then
      ("medium", "Possible spec-level issue: " +:+ ItoaZ failedImageCount +:+
                 " different images have failed with this spec (" +:+ pct +:+
                 "% failure rate). Consider checking spec compatibility")
    else if (3 <=? failedImageCount)%Z && (succeededImageCount =? 0)%Z then
      ("medium", "Potential spec-level issue: " +:+ ItoaZ failedImageCount +:+
                 " different images have failed with this spec and none have succeeded (" +:+ pct +:+
                 "% failure rate)")
    else if Qle_bool (8 # 10) failureRate then
      ("high", "Very high failure rate (" +:+ pct +:+
               "%) for this spec, even with some successful images")
    else if Qle_bool (5 # 10) failureRate then
      ("medium", "Moderate failure rate (" +:+ pct +:+
                 "%) for this spec across different images")
    else if negb (Qle_bool failureRate 0) then
      ("low", "Low failure rate (" +:+ pct +:+
              "%) for this spec, mostly successful with various images")
    else
      ("low", "No failures recorded for this spec, appears stable") in
  {| SpecRiskInfo.Level := level;
     SpecRiskInfo.Message := message;
     SpecRiskInfo.FailedImageCount := failedImageCount;
     SpecRiskInfo.SucceededImageCount := succeededImageCount;
     SpecRiskInfo.TotalFailures := totalFailures;
     SpecRiskInfo.TotalSuccesses := totalSuccesses;
     SpecRiskInfo.FailureRate := failureRate |}.

Definition analyzeImageRisk (imageHasFailed imageHasSucceeded isNewCombination : bool)
    (cspImageName : string) : ImageRiskInfo.t :=
  let '(level, message) :=
    if imageHasFailed then
      if negb imageHasSucceeded then
        ("high", "CRITICAL: This exact spec+image combination (" +:+ cspImageName +:+
                 ") has failed before and never succeeded")
      else
        ("high", "HIGH RISK: This exact spec+image combination (" +:+ cspImageName +:+
                 ") has failed at least once before, despite some successes")
    else if imageHasSucceeded && negb imageHasFailed then
      ("low", "SAFE: This exact spec+image combination (" +:+ cspImageName +:+
              ") has previously succeeded and never failed")
    else if isNewCombination then
      ("low", "NEW: This exact spec+image combination (" +:+ cspImageName +:+
              ") has never been tried before")
    else
      ("low", "No specific image risk identified") in
  {| ImageRiskInfo.Level := level;
     ImageRiskInfo.Message := message;
     ImageRiskInfo.HasFailedWithSpec := imageHasFailed;
     ImageRiskInfo.HasSucceededWithSpec := imageHasSucceeded;
     ImageRiskInfo.IsNewCombination := isNewCombination |}.

Definition determineOverallRisk (specRisk : SpecRiskInfo.t) (imageRisk : ImageRiskInfo.t)
    : OverallRiskInfo.t :=
  let specRiskValue := getRiskValue (SpecRiskInfo.Level specRisk) in
  let imageRiskValue := getRiskValue (ImageRiskInfo.Level imageRisk) in
  let '(level, message, primaryRiskFactor) :=
    if (imageRiskValue <=? specRiskValue)%Z then
      (SpecRiskInfo.Level specRisk,
       if (imageRiskValue <? specRiskValue)%Z
       then "Primary risk is spec-related: " +:+ SpecRiskInfo.Message specRisk
       else "Both spec and image have similar risk levels. Spec: " +:+ SpecRiskInfo.Message specRisk,
       "spec")
    else
      (ImageRiskInfo.Level imageRisk,
       "Primary risk is image-related: " +:+ ImageRiskInfo.Message imageRisk,
       "image") in
  let '(message, primaryRiskFactor) :=
    if String.eqb (SpecRiskInfo.Level specRisk) "low" && String.eqb (ImageRiskInfo.Level imageRisk) "low" then
      ("Both spec and image appear safe based on historical data", "none")
    else if ImageRiskInfo.IsNewCombination imageRisk && negb (String.eqb (SpecRiskInfo.Level specRisk) "low") then
      ("New image combination with a spec that has shown issues: " +:+ SpecRiskInfo.Message specRisk,
       "combination")
    else (message, primaryRiskFactor) in
  {| OverallRiskInfo.Level := level;
     OverallRiskInfo.Message := message;
     OverallRiskInfo.PrimaryRiskFactor := primaryRiskFactor |}.

Definition generateRecommendations (specRisk : SpecRiskInfo.t) (imageRisk : ImageRiskInfo.t)
    (overallRisk : OverallRiskInfo.t) : list string :=
  let factor := OverallRiskInfo.PrimaryRiskFactor overallRisk in
  let recommendations : list string :=
    if String.eqb factor "spec" then
      if String.eqb (SpecRiskInfo.Level specRisk) "high" then
        ["Consider changing to a different VM specification";
         "Check if this spec is available and properly configured in the target region"] ++
        (if (5 <=? SpecRiskInfo.FailedImageCount specRisk)%Z
         then ["Multiple images have failed with this spec - likely a spec-level compatibility issue"]
         else [])
      else if String.eqb (SpecRiskInfo.Level specRisk) "medium" then
        ["Monitor deployment closely - this spec has shown some issues";
         "Consider having a backup spec ready"]
      else []
    else if String.eqb factor "image" then
      if String.eqb (ImageRiskInfo.Level imageRisk) "high" then
        if ImageRiskInfo.HasFailedWithSpec imageRisk && negb (ImageRiskInfo.HasSucceededWithSpec imageRisk) then
          ["CRITICAL: This exact spec+image combination has failed before and NEVER succeeded";
           "STRONGLY RECOMMEND: Use a different image immediately";
           "Find alternative images with same OS/application requirements"]
        else if ImageRiskInfo.HasFailedWithSpec imageRisk && ImageRiskInfo.HasSucceededWithSpec imageRisk then
          ["HIGH RISK: This exact combination has failed at least once before";
           "CAUTION: Even though it succeeded sometimes, failure history indicates instability";
           "Consider using a more reliable image or test extensively before production"]
        else []
      else if String.eqb (ImageRiskInfo.Level imageRisk) "medium" then
        ["This image has mixed results with this spec - proceed with caution"]
      else []
    else if String.eqb factor "combination" then
      ["This is a new spec+image combination";
       "Monitor closely as there's no historical data for this combination"] ++
      (if negb (String.eqb (SpecRiskInfo.Level specRisk) "low")
       then ["Consider that this spec has shown issues with other images"]
       else [])
    else if String.eqb factor "none" then
      ["Both spec and image appear safe based on historical data";
       "Continue with standard monitoring"]
    else
      ["Monitor deployment and record results for future analysis"] in
  let recommendations :=
    if ImageRiskInfo.HasFailedWithSpec imageRisk
    then recommendations ++
         ["IMPORTANT: This exact spec+image combination has failure history - high caution advised"]
    else recommendations in
  if String.eqb (OverallRiskInfo.Level overallRisk) "high" then
    recommendations ++
    ["HIGH RISK DEPLOYMENT - Consider testing in development environment first";
     "Ensure robust rollback plans and monitoring are in place"]
  else if String.eqb (OverallRiskInfo.Level overallRisk) "medium" then
    recommendations ++
    ["Medium risk - ensure proper monitoring and rollback plans are in place"]
  else recommendations.

Definition AnalyzeProvisioningRiskDetailed (specId cspImageName : string) : M kvstore RiskAnalysis.t :=
  catch (GetProvisioningLog specId)
    (fun _ => ret
       {| RiskAnalysis.SpecRisk :=
            SpecRiskInfo.mk "low" "Unable to analyze spec history, assuming low risk" 0 0 0 0 0;
          RiskAnalysis.ImageRisk :=
            ImageRiskInfo.mk "low" "Unable to analyze image history, assuming low risk" false false true;
          RiskAnalysis.OverallRisk :=
            OverallRiskInfo.mk "low" "Unable to analyze provisioning history, assuming low risk" "none";
          RiskAnalysis.Recommendations := ["Monitor this deployment for any issues"] |})
    (fun provisioningLog =>
       match provisioningLog with
       | None => ret
           {| RiskAnalysis.SpecRisk :=
                SpecRiskInfo.mk "low" "No previous provisioning history available for this spec" 0 0 0 0 0;
              RiskAnalysis.ImageRisk :=
                ImageRiskInfo.mk "low" "No previous history for this image with this spec" false false true;
              RiskAnalysis.OverallRisk :=
                OverallRiskInfo.mk "low" "No previous provisioning history available" "none";
              RiskAnalysis.Recommendations := ["This is a new spec, monitor deployment closely"] |}
       | Some provisioningLog =>
           let totalAttempts :=
             int_add (ProvisioningLog.FailureCount provisioningLog)
                     (ProvisioningLog.SuccessCount provisioningLog) in
           if (totalAttempts =? 0)%Z then ret
             {| RiskAnalysis.SpecRisk :=
                  SpecRiskInfo.mk "low" "No provisioning attempts recorded for this spec" 0 0 0 0 0;
                RiskAnalysis.ImageRisk :=
                  ImageRiskInfo.mk "low" "No attempts with this image on this spec" false false true;
                RiskAnalysis.OverallRisk :=
                  OverallRiskInfo.mk "low" "No provisioning attempts recorded" "none";
                RiskAnalysis.Recommendations :=
                  ["First deployment with this configuration, proceed with monitoring"] |}
           else
             let failureRate :=
               (inject_Z (ProvisioningLog.FailureCount provisioningLog) / inject_Z totalAttempts)%Q in
             let imageHasFailed := contains (ProvisioningLog.FailureImages provisioningLog) cspImageName in
             let imageHasSucceeded := contains (ProvisioningLog.SuccessImages provisioningLog) cspImageName in
             let isNewCombination := negb imageHasFailed && negb imageHasSucceeded in
             let failedImageCount := len (ProvisioningLog.FailureImages provisioningLog) in
             let succeededImageCount := len (ProvisioningLog.SuccessImages provisioningLog) in
             let specRisk :=
               analyzeSpecRisk failedImageCount succeededImageCount
                 (ProvisioningLog.FailureCount provisioningLog)
                 (ProvisioningLog.SuccessCount provisioningLog) failureRate in
             let imageRisk := analyzeImageRisk imageHasFailed imageHasSucceeded isNewCombination cspImageName in
             let overallRisk := determineOverallRisk specRisk imageRisk in
             let recommendations := generateRecommendations specRisk imageRisk overallRisk in
             ret {| RiskAnalysis.SpecRisk := specRisk;
                    RiskAnalysis.ImageRisk := imageRisk;
                    RiskAnalysis.OverallRisk := overallRisk;
                    RiskAnalysis.Recommendations := recommendations |}
       end).

(** Returns [(riskLevel, riskMessage)]. *)
Definition AnalyzeProvisioningRisk (specId cspImageName : string) : M kvstore (string * string) :=
  catch (AnalyzeProvisioningRiskDetailed specId cspImageName)
    (fun e => fail e)
    (fun riskAnalysis =>
       ret (OverallRiskInfo.Level (RiskAnalysis.OverallRisk riskAnalysis),
            OverallRiskInfo.Message (RiskAnalysis.OverallRisk riskAnalysis))).

Section WithCatalog.
Context `{Catalog}.

Definition newLog (event : ProvisioningEvent.t) (specInfo : TbSpecInfo.t) : ProvisioningLog.t :=
  {| ProvisioningLog.SpecId := ProvisioningEvent.SpecId event;
     ProvisioningLog.ConnectionName := TbSpecInfo.ConnectionName specInfo;
     ProvisioningLog.ProviderName := TbSpecInfo.ProviderName specInfo;
     ProvisioningLog.RegionName := TbSpecInfo.RegionName specInfo;
     ProvisioningLog.FailureCount := 0;
     ProvisioningLog.SuccessCount := 0;
     ProvisioningLog.FailureTimestamps := [];
     ProvisioningLog.SuccessTimestamps := [];
     ProvisioningLog.FailureMessages := [];
     ProvisioningLog.FailureImages := [];
     ProvisioningLog.SuccessImages := [];
     ProvisioningLog.LastUpdated := 0;
     ProvisioningLog.AdditionalInfo := ∅ |}.

(** The branch [if event.IsSuccess { ... }] with a positive failure count. *)
Definition recordSuccess (event : ProvisioningEvent.t) (l : ProvisioningLog.t) : ProvisioningLog.t :=
  let image := ProvisioningEvent.CspImageName event in
  let 'ProvisioningLog.mk a b c d fc sc fts sts fms fis sis lu ai := l in
  ProvisioningLog.mk a b c d fc (int_add sc 1) fts (sts ++ [ProvisioningEvent.Timestamp event]) fms fis
    (if negb (String.eqb image "") && negb (contains sis image) then sis ++ [image] else sis)
    lu ai.

(** The branch [else { ... }]: a failure. *)
Definition recordFailure (event : ProvisioningEvent.t) (l : ProvisioningLog.t) : ProvisioningLog.t :=
  let image := ProvisioningEvent.CspImageName event in
  let msg := ProvisioningEvent.ErrorMessage event in
  let 'ProvisioningLog.mk a b c d fc sc fts sts fms fis sis lu ai := l in
  ProvisioningLog.mk a b c d (int_add fc 1) sc (fts ++ [ProvisioningEvent.Timestamp event]) sts
    (if negb (String.eqb msg "") then fms ++ [msg] else fms)
    (if negb (String.eqb image "") && negb (contains fis image) then fis ++ [image] else fis)
    sis lu ai.

Definition addContext (event : ProvisioningEvent.t) (l : ProvisioningLog.t) : ProvisioningLog.t :=
  if negb (String.eqb (ProvisioningEvent.MciId event) "") then
    let 'ProvisioningLog.mk a b c d fc sc fts sts fms fis sis lu ai := l in
    ProvisioningLog.mk a b c d fc sc fts sts fms fis sis lu
      (<["lastMciId" := ProvisioningEvent.MciId event]> ai)
  else l.

Definition RecordProvisioningEvent (now : Time) (event : ProvisioningEvent.t) : M kvstore unit :=
  catch (GetProvisioningLog (ProvisioningEvent.SpecId event))
    (fun e => fail ("failed to get existing provisioning log: " +:+ e))
    (fun existingLog =>
       catch (match existingLog with
              | None => fun st =>
                  match GetSpec st SystemCommonNs (ProvisioningEvent.SpecId event) with
                  | Err e => (Err ("failed to get spec info: " +:+ e), st)
                  | Ok specInfo => (Ok (newLog event specInfo), st)
                  end
              | Some l => ret l
              end)
         (fun e => fail e)
         (fun provisioningLog =>
            if ProvisioningEvent.IsSuccess event then
              if (0 <? ProvisioningLog.FailureCount provisioningLog)%Z then
                catch (SaveProvisioningLog now (addContext event (recordSuccess event provisioningLog)))
                  (fun e => fail ("failed to save provisioning log: " +:+ e))
                  (fun _ => ret tt)
              else ret tt
            else
              catch (SaveProvisioningLog now (addContext event (recordFailure event provisioningLog)))
                (fun e => fail ("failed to save provisioning log: " +:+ e))
                (fun _ => ret tt))).

(** [RecordProvisioningEventsFromMci]: the error message looked up for
    a VM that is not running. *)
Fixpoint findError (errs : list model.VmCreationError.t) (vmId : string) : option string :=
  match errs with
  | [] => None
  | vmError :: rest =>
      if String.eqb (model.VmCreationError.VmName vmError) vmId
         || Contains (model.VmCreationError.VmName vmError) vmId
      then Some (model.VmCreationError.Error vmError)
      else findError rest vmId
  end.

Definition lookupErrorMessage (mciInfo : model.TbMciInfo.t) (vm : model.TbVmInfo.t) : string :=
  let errorMessage := "" in
  let errorMessage :=
    match model.TbMciInfo.CreationErrors mciInfo with
    | Some creationErrors =>
        let errorMessage :=
          match findError (model.MciCreationErrors.VmCreationErrors creationErrors) (model.TbVmInfo.Id vm) with
          | Some e => e
          | None => errorMessage
          end in
        match findError (model.MciCreationErrors.VmObjectCreationErrors creationErrors) (model.TbVmInfo.Id vm) with
        | Some e => e
        | None => errorMessage
        end
    | None => errorMessage
    end in
  if String.eqb errorMessage ""
  then "VM creation failed with status: " +:+ model.TbVmInfo.Status vm
  else errorMessage.

(** The event built for one VM; [now] is the reading of [time.Now()]. *)
Definition eventOfVm (mciInfo : model.TbMciInfo.t) (vm : model.TbVmInfo.t) (now : Time)
    : ProvisioningEvent.t :=
  let isSuccess := String.eqb (model.TbVmInfo.Status vm) model.StatusRunning in
  let errorMessage := if negb isSuccess then lookupErrorMessage mciInfo vm else "" in
  {| ProvisioningEvent.SpecId := model.TbVmInfo.SpecId vm;
     ProvisioningEvent.CspImageName := model.TbVmInfo.CspImageName vm;
     ProvisioningEvent.IsSuccess := isSuccess;
     ProvisioningEvent.ErrorMessage := errorMessage;
     ProvisioningEvent.Timestamp := now;
     ProvisioningEvent.VmName := model.TbVmInfo.Id vm;
     ProvisioningEvent.MciId := model.TbMciInfo.Id mciInfo |}.

(** The loop over [mciInfo.Vm].  [clock i] gives the two clock readings
    taken for the [i]-th VM (event time, save time).  Returns
    [eventCount]; the Go function always returns [nil]. *)
Fixpoint recordEvents (clock : nat -> Time * Time) (mciInfo : model.TbMciInfo.t)
    (i : nat) (vms : list model.TbVmInfo.t) (eventCount : Z) : M kvstore Z :=
  match vms with
  | [] => ret eventCount
  | vm :: rest =>
      let event := eventOfVm mciInfo vm (fst (clock i)) in
      catch (RecordProvisioningEvent (snd (clock i)) event)
        (fun _ => recordEvents clock mciInfo (S i) rest eventCount)
        (fun _ => recordEvents clock mciInfo (S i) rest (int_add eventCount 1))
  end.

Definition RecordProvisioningEventsFromMci (clock : nat -> Time * Time) (nsId : string)
    (mciInfo : model.TbMciInfo.t) : M kvstore Z :=
  recordEvents clock mciInfo 0%nat (model.TbMciInfo.Vm mciInfo) 0.

End WithCatalog.

(** *** Maintenance of the stored logs *)

(** The loop of [CleanupCorruptedProvisioningLogs] over the listed keys;
    it returns [cleanupCount], which the Go function only logs. *)
Fixpoint cleanupKeys (keys : list (string * Stored)) (cleanupCount : Z) : M kvstore Z :=
  match keys with
  | [] => ret cleanupCount
  | key :: rest =>
      catch (kv.GetKv (fst key))
        (fun _ => cleanupKeys rest cleanupCount)
        (fun keyValue =>
           match keyValue with
           | Blank =>
               catch (kv.Delete (fst key))
                 (fun _ => cleanupKeys rest cleanupCount)
                 (fun _ => cleanupKeys rest (int_add cleanupCount 1))
           | Garbage _ | Misfit _ =>
               catch (kv.Delete (fst key))
                 (fun _ => cleanupKeys rest cleanupCount)
                 (fun _ => cleanupKeys rest (int_add cleanupCount 1))
           | Encoded _ => cleanupKeys rest cleanupCount
           end)
  end.

Definition CleanupCorruptedProvisioningLogs : M kvstore unit :=
  let keyPattern := "/log/provision/" in
  catch (kv.GetKvList keyPattern)
    (fun e => fail ("failed to list provisioning log keys: " +:+ e))
    (fun keys => catch (cleanupKeys keys 0) (fun e => fail e) (fun _ => ret tt)).

(** A Go slice expression [s[:n]]: it panics ([None]) when [n] is
    negative or beyond the slice. *)
Definition sliceTo {A : Type} (s : list A) (n : Z) : option (list A) :=
  if (0 <=? n)%Z && (n <=? len s)%Z then Some (take (Z.to_nat n) s) else None.

Definition setTimestamps (failures successes : list Time) (l : ProvisioningLog.t) : ProvisioningLog.t :=
  let 'ProvisioningLog.mk a b c d fc sc _ _ fms fis sis lu ai := l in
  ProvisioningLog.mk a b c d fc sc failures successes fms fis sis lu ai.

(** [ValidateProvisioningLogIntegrity]; [now] is the reading of
    [time.Now()] taken by the save of a repaired log. *)
Definition ValidateProvisioningLogIntegrity (now : Time) (specId : string) (st : kvstore)
    : Outcome unit * kvstore :=
  let key := generateProvisioningLogKey specId in
  let delete (st : kvstore) : Outcome unit * kvstore :=
    let '(r, st) := kv.Delete key st in (Returned r, st) in
  match kv.GetKv key st with
  | (Err e, st) =>
      if String.eqb e "key not found" then (Returned (Ok tt), st)
      else (Returned (Err ("failed to get provisioning log: " +:+ e)), st)
  | (Ok Blank, st) => delete st
  | (Ok (Garbage _), st) => delete st
  | (Ok (Misfit _), st) => delete st
  | (Ok (Encoded testLog), st) =>
      let failureTimestamps := ProvisioningLog.FailureTimestamps testLog in
      let successTimestamps := ProvisioningLog.SuccessTimestamps testLog in
      let totalAttempts :=
        int_add (ProvisioningLog.FailureCount testLog) (ProvisioningLog.SuccessCount testLog) in
      if negb (totalAttempts =? int_add (len failureTimestamps) (len successTimestamps))%Z then
        match (if (ProvisioningLog.FailureCount testLog <? len failureTimestamps)%Z
               then sliceTo failureTimestamps (ProvisioningLog.FailureCount testLog)
               else Some failureTimestamps) with
        | None => (Panicked, st)
        | Some failureTimestamps =>
            match (if (ProvisioningLog.SuccessCount testLog <? len successTimestamps)%Z
                   then sliceTo successTimestamps (ProvisioningLog.SuccessCount testLog)
                   else Some successTimestamps) with
            | None => (Panicked, st)
            | Some successTimestamps =>
                let testLog := setTimestamps failureTimestamps successTimestamps testLog in
                let '(r, st) := SaveProvisioningLog now testLog st in
                (Returned r, st)
            end
        end
      else (Returned (Ok tt), st)
  end.

(** *** Kubernetes version recommendation *)

Module K8sClusterVersionDetailAvailable.
Record t := mk { Name : string; Id : string }.
End K8sClusterVersionDetailAvailable.

(** Modelled from the spec: [common.FilterDigitsAndDots] is not among the
    sources; the spec calls its result the digits-and-dots-filtered
    form: the digits and dots of the text, in order. *)
Definition isDigitOrDot (c : ascii) : bool :=
  let n := nat_of_ascii c in ((48 <=? n)%nat && (n <=? 57)%nat) || Ascii.eqb c ".".
Fixpoint FilterDigitsAndDots (s : string) : string :=
  match s with
  | EmptyString => EmptyString
  | String c s' => if isDigitOrDot c then String c (FilterDigitsAndDots s') else FilterDigitsAndDots s'
  end.

(** The rest of package [common] that the recommendation uses: the
    capability table read from [k8sclusterinfo.yaml], the version
    comparison and the placeholder text [model.StrEmpty]. *)
Class K8sCommon := {
  GetAvailableK8sVersion : string -> string -> Result (list K8sClusterVersionDetailAvailable.t);
  CompareVersions : string -> string -> Z;
  StrEmpty : string
}.

Section WithK8sCommon.
Context `{K8sCommon}.

(** The loop taken when no version is requested. *)
Fixpoint pickHighest (availableVersion : list K8sClusterVersionDetailAvailable.t)
    (recVersion : string) (versionIdList : list string) : string * list string :=
  match availableVersion with
  | [] => (recVersion, versionIdList)
  | verDetail :: rest =>
      let id := K8sClusterVersionDetailAvailable.Id verDetail in
      let versionIdList := versionIdList ++ [id] in
      let filteredRecVersion := FilterDigitsAndDots recVersion in
      let filteredAvailVersion := FilterDigitsAndDots id in
      if (CompareVersions filteredRecVersion filteredAvailVersion <? 0)%Z
      then pickHighest rest id versionIdList
      else pickHighest rest recVersion versionIdList
  end.

(** The loop taken for a requested version; it stops at the first match. *)
Fixpoint pickRequested (reqVersion : string) (availableVersion : list K8sClusterVersionDetailAvailable.t)
    (recVersion : string) (versionIdList : list string) : string * list string :=
  match availableVersion with
  | [] => (recVersion, versionIdList)
  | verDetail :: rest =>
      let id := K8sClusterVersionDetailAvailable.Id verDetail in
      let versionIdList := versionIdList ++ [id] in
      if EqualFold reqVersion id then (id, versionIdList)
      else
        let availVersion := FilterDigitsAndDots id in
        let filteredReqVersion := FilterDigitsAndDots reqVersion in
        if HasPrefix availVersion filteredReqVersion then (availVersion, versionIdList)
        else pickRequested reqVersion rest recVersion versionIdList
  end.

Definition getK8sRecommendVersion (providerName regionName reqVersion : string) : Result string :=
  match GetAvailableK8sVersion providerName regionName with
  | Err _ => Err "No available K8sCluster version."
  | Ok availableVersion =>
      let '(recVersion, versionIdList) :=
        if String.eqb reqVersion "" then pickHighest availableVersion StrEmpty []
        else pickRequested reqVersion availableVersion StrEmpty [] in
      if EqualFold recVersion StrEmpty then
        Err ("Available K8sCluster Version(k8sclusterinfo.yaml) for Provider/Region(" +:+
             providerName +:+ "/" +:+ regionName +:+ "): " +:+ Join versionIdList ", ")
      else Ok recVersion
  end.

End WithK8sCommon.

(** *** Review of a dynamic MCI request *)

Module TbVmDynamicReq.
Record t := mk {
  Name : string;
  SubGroupSize : string;
  CommonSpec : string;
  CommonImage : string;
  ConnectionName : string;
  RootDiskType : string;
  RootDiskSize : string
}.
End TbVmDynamicReq.

Module TbMciDynamicReq.
Record t := mk {
  Name : string;
  Vm : list TbVmDynamicReq.t;
  PolicyOnPartialFailure : string
}.
End TbMciDynamicReq.

Module ReviewResourceValidation.
Record t := mk {
  ResourceId : string;
  ResourceName : string;
  IsAvailable : bool;
  Status : string;
  Message : string;
  CspResourceId : string
}.
Definition zero : t := mk "" "" false "" "" "".
End ReviewResourceValidation.

Module ReviewVmDynamicReqInfo.
Record t := mk {
  VmName : string;
  SubGroupSize : string;
  CanCreate : bool;
  Status : string;
  Message : string;
  Info : list string;
  Warnings : list string;
  Errors : list string;
  ConnectionName : string;
  ProviderName : string;
  RegionName : string;
  SpecValidation : ReviewResourceValidation.t;
  ImageValidation : ReviewResourceValidation.t;
  EstimatedCost : string
}.
End ReviewVmDynamicReqInfo.

(** The name lists of the summary are filled by ranging over Go maps, so
    their order is not fixed; they are sets here. *)
Module ReviewResourceSummary.
Record t := mk {
  UniqueSpecs : gset string;
  UniqueImages : gset string;
  ConnectionNames : gset string;
  ProviderNames : gset string;
  RegionNames : gset string;
  TotalProviders : Z;
  TotalRegions : Z;
  AvailableSpecs : Z;
  UnavailableSpecs : Z;
  AvailableImages : Z;
  UnavailableImages : Z
}.
Definition zero : t := mk ∅ ∅ ∅ ∅ ∅ 0 0 0 0 0 0.
End ReviewResourceSummary.

(** [OverallMessage] is kept without its trailing
    ["(Providers: %v, Regions: %v)"], which prints the unordered lists. *)
Module ReviewMciDynamicReqInfo.
Record t := mk {
  MciName : string;
  TotalVmCount : Z;
  VmReviews : list ReviewVmDynamicReqInfo.t;
  ResourceSummary : ReviewResourceSummary.t;
  Recommendations : list string;
  PolicyOnPartialFailure : string;
  OverallStatus : string;
  OverallMessage : string;
  CreationViable : bool;
  EstimatedCost : string;
  PolicyDescription : string;
  PolicyRecommendation : string
}.
End ReviewMciDynamicReqInfo.

(** Modelled from the spec: the policy names of package [model] are not
    among the sources; the table of section 4.F gives them. *)
Definition PolicyContinue : string := "continue".
Definition PolicyRollback : string := "rollback".
Definition PolicyRefine : string := "refine".

Definition isDigit (c : ascii) : bool :=
  let n := nat_of_ascii c in (48 <=? n)%nat && (n <=? 57)%nat.

Fixpoint digitsToZ (s : string) (acc : Z) : option Z :=
  match s with
  | EmptyString => Some acc
  | String c s' =>
      if isDigit c then digitsToZ s' (10 * acc + Z.of_nat (nat_of_ascii c) - 48)%Z else None
  end.

(** [strconv.Atoi]: an optional sign, then one or more decimal digits;
    [None] stands for the error (syntax or range). *)
Definition Atoi (s : string) : option Z :=
  let body (sign : Z) (digits : string) : option Z :=
    match digits with
    | EmptyString => None
    | _ => match digitsToZ digits 0 with
           | Some v => let v := (sign * v)%Z in
                       if (- 2 ^ 63 <=? v)%Z && (v <? 2 ^ 63)%Z then Some v else None
           | None => None
           end
    end in
  match s with
  | EmptyString => None
  | String c s' =>
      if Ascii.eqb c "-" then body (-1)%Z s'
      else if Ascii.eqb c "+" then body 1%Z s'
      else body 1%Z s
  end.

Fixpoint zeroPad (width : nat) (s : string) : string :=
  match width with
  | O => s
  | S n => if (String.length s <? S n)%nat then zeroPad n ("0" +:+ s) else s
  end.

(** [%.4f] of a non-negative amount: four fractional digits, the exact
    value rounded as [fmt] rounds the binary one.  Only report texts use
    it. *)
Definition fmtCost (q : Q) : string :=
  let scaled := Z.abs (roundHalfEven (q * inject_Z 10000)) in
  ItoaZ (scaled / 10000)%Z +:+ "." +:+ zeroPad 4 (ItoaZ (scaled mod 10000)%Z).

(** Collaborators of the review that live in other packages.  All of them
    are lookups: they read the store or ask the CSP, and write nothing. *)
Class ReviewDeps := {
  CheckString : string -> option string;
  CheckMci : kvstore -> string -> string -> Result bool;
  LookupSpec : string -> string -> Result string;
  LookupImage : string -> string -> Result (string * string);
  GetConnConfig : kvstore -> string -> Result unit
}.

(** What a review worker sends back on [vmReviewChan]. *)
Module VmReviewResult.
Record t := mk {
  vmReview : ReviewVmDynamicReqInfo.t;
  specInfo : option TbSpecInfo.t;
  viable : bool;
  warning : bool;
  cost : Q
}.
End VmReviewResult.

Section WithReviewDeps.
Context `{Catalog} `{ReviewDeps}.

(** "Calculate total VM count considering SubGroupSize". *)
Fixpoint totalVmCountOf (vms : list TbVmDynamicReq.t) (totalVmCount : Z) : Z :=
  match vms with
  | [] => totalVmCount
  | vmReq :: rest =>
      let subGroupSize :=
        if negb (String.eqb (TbVmDynamicReq.SubGroupSize vmReq) "") then
          match Atoi (TbVmDynamicReq.SubGroupSize vmReq) with
          | Some size => if (0 <? size)%Z then size else 1%Z
          | None => 1%Z
          end
        else 1%Z in
      totalVmCountOf rest (int_add totalVmCount subGroupSize)
  end.

(** The body of one review worker (the goroutine of the loop over
    [req.Vm]).  Its only access to the store that can write is the
    risk analysis. *)
Definition reviewVm (vmRequest : TbVmDynamicReq.t) (st : kvstore) : VmReviewResult.t * kvstore :=
  let commonSpec := TbVmDynamicReq.CommonSpec vmRequest in
  let commonImage := TbVmDynamicReq.CommonImage vmRequest in
  let '(warnings, hasVmWarning) :=
    if String.eqb (TbVmDynamicReq.Name vmRequest) ""
    then (["VM SubGroup name not specified, will be auto-generated"], true)
    else ([], false) in
  let '(warnings, hasVmWarning) :=
    if String.eqb (TbVmDynamicReq.SubGroupSize vmRequest) ""
    then (warnings ++ ["SubGroupSize not specified, defaulting to 1"], true)
    else (warnings, hasVmWarning) in
  (* Validate CommonSpec *)
  let '(errors, specValidation, viable, specInfoPtr, (estimatedCost, vmCost)) :=
    match GetSpec st SystemCommonNs commonSpec with
    | Err e =>
        (["Failed to get spec '" +:+ commonSpec +:+ "': " +:+ e],
         ReviewResourceValidation.mk commonSpec "" false "Unavailable" e "",
         false, None, ("", 0%Q))
    | Ok specInfo =>
        match LookupSpec (TbSpecInfo.ConnectionName specInfo) (TbSpecInfo.CspSpecName specInfo) with
        | Err e =>
            (["Spec '" +:+ commonSpec +:+ "' not available in CSP: " +:+ e],
             ReviewResourceValidation.mk commonSpec (TbSpecInfo.CspSpecName specInfo) false
               "Unavailable" e (TbSpecInfo.CspSpecName specInfo),
             false, Some specInfo, ("", 0%Q))
        | Ok cspSpecName =>
            ([],
             ReviewResourceValidation.mk commonSpec (TbSpecInfo.CspSpecName specInfo) true
               "Available" "" cspSpecName,
             true, Some specInfo,
             if negb (Qle_bool (TbSpecInfo.CostPerHour specInfo) 0)
             then ("$" +:+ fmtCost (TbSpecInfo.CostPerHour specInfo) +:+ "/hour",
                   TbSpecInfo.CostPerHour specInfo)
             else ("Cost estimation unavailable", 0%Q))
        end
    end in
  let connectionName := match specInfoPtr with Some s => TbSpecInfo.ConnectionName s | None => "" end in
  let providerName := match specInfoPtr with Some s => TbSpecInfo.ProviderName s | None => "" end in
  let regionName := match specInfoPtr with Some s => TbSpecInfo.RegionName s | None => "" end in
  (* Validate CommonImage *)
  let '(errors, imageValidation, viable) :=
    match specInfoPtr with
    | Some specInfo =>
        match LookupImage (TbSpecInfo.ConnectionName specInfo) commonImage with
        | Err e =>
            (errors ++ ["Image '" +:+ commonImage +:+ "' not available in CSP: " +:+ e],
             ReviewResourceValidation.mk commonImage "" false "Unavailable" e commonImage,
             false)
        | Ok (imageName, systemId) =>
            (errors,
             ReviewResourceValidation.mk commonImage imageName true "Available" "" systemId,
             viable)
        end
    | None => (errors, ReviewResourceValidation.zero, viable)
    end in
  (* Validate ConnectionName if specified *)
  let '(warnings, hasVmWarning, connectionName) :=
    if negb (String.eqb (TbVmDynamicReq.ConnectionName vmRequest) "") then
      match GetConnConfig st (TbVmDynamicReq.ConnectionName vmRequest) with
      | Err _ =>
          (warnings ++ ["Specified connection '" +:+ TbVmDynamicReq.ConnectionName vmRequest +:+
                        "' not found, will use default from spec"], true, connectionName)
      | Ok _ => (warnings, hasVmWarning, TbVmDynamicReq.ConnectionName vmRequest)
      end
    else (warnings, hasVmWarning, connectionName) in
  (* Validate RootDisk settings *)
  let info : list string :=
    if negb (String.eqb (TbVmDynamicReq.RootDiskType vmRequest) "")
       && negb (String.eqb (TbVmDynamicReq.RootDiskType vmRequest) "default")
    then ["Root disk type configured: " +:+ TbVmDynamicReq.RootDiskType vmRequest +:+
          ", be sure it's supported by the provider"]
    else [] in
  let info :=
    if negb (String.eqb (TbVmDynamicReq.RootDiskSize vmRequest) "")
       && negb (String.eqb (TbVmDynamicReq.RootDiskSize vmRequest) "default")
    then info ++ ["Root disk size configured: " +:+ TbVmDynamicReq.RootDiskSize vmRequest +:+
                  " GB, be sure it meets minimum requirements"]
    else info in
  (* Check provisioning history and risk analysis *)
  let '((errors, warnings, info, viable, hasVmWarning), st) :=
    match specInfoPtr with
    | Some _ =>
        match AnalyzeProvisioningRisk commonSpec commonImage st with
        | (Err _, st) =>
            ((errors, warnings ++ ["Failed to analyze provisioning history"], info, viable, hasVmWarning), st)
        | (Ok (riskLevel, riskMessage), st) =>
            if String.eqb riskLevel "high" then
              ((errors ++ ["High provisioning failure risk: " +:+ riskMessage],
                warnings, info, false, hasVmWarning), st)
            else if String.eqb riskLevel "medium" then
              ((errors, warnings ++ ["Moderate provisioning failure risk: " +:+ riskMessage],
                info, viable, true), st)
            else if String.eqb riskLevel "low" then
              ((errors, warnings,
                (if negb (String.eqb riskMessage "No previous provisioning history available")
                    && negb (String.eqb riskMessage "No provisioning attempts recorded")
                 then info ++ ["Provisioning history: " +:+ riskMessage] else info),
                viable, hasVmWarning), st)
            else ((errors, warnings, info, viable, hasVmWarning), st)
        end
    | None => ((errors, warnings, info, viable, hasVmWarning), st)
    end in
  (* Set VM review status *)
  let '(status, message) :=
    if (0 <? length errors)%nat then
      ("Error", "VM has " +:+ Itoa (length errors) +:+ " error(s) that prevent creation")
    else if (0 <? length warnings)%nat then
      ("Warning", "VM can be created but has " +:+ Itoa (length warnings) +:+ " warning(s)")
    else ("Ready", "VM can be created successfully") in
  ({| VmReviewResult.vmReview :=
        {| ReviewVmDynamicReqInfo.VmName := TbVmDynamicReq.Name vmRequest;
           ReviewVmDynamicReqInfo.SubGroupSize := TbVmDynamicReq.SubGroupSize vmRequest;
           ReviewVmDynamicReqInfo.CanCreate := viable;
           ReviewVmDynamicReqInfo.Status := status;
           ReviewVmDynamicReqInfo.Message := message;
           ReviewVmDynamicReqInfo.Info := info;
           ReviewVmDynamicReqInfo.Warnings := warnings;
           ReviewVmDynamicReqInfo.Errors := errors;
           ReviewVmDynamicReqInfo.ConnectionName := connectionName;
           ReviewVmDynamicReqInfo.ProviderName := providerName;
           ReviewVmDynamicReqInfo.RegionName := regionName;
           ReviewVmDynamicReqInfo.SpecValidation := specValidation;
           ReviewVmDynamicReqInfo.ImageValidation := imageValidation;
           ReviewVmDynamicReqInfo.EstimatedCost := estimatedCost |};
      VmReviewResult.specInfo := specInfoPtr;
      VmReviewResult.viable := viable;
      VmReviewResult.warning := hasVmWarning;
      VmReviewResult.cost := vmCost |}, st).

(** The workers, run one after the other in the order of [req.Vm]. *)
Fixpoint reviewVms (vms : list TbVmDynamicReq.t) (st : kvstore) : list VmReviewResult.t * kvstore :=
  match vms with
  | [] => ([], st)
  | vmReq :: rest =>
      let '(r, st) := reviewVm vmReq st in
      let '(rs, st) := reviewVms rest st in
      (r :: rs, st)
  end.

(** "Process results from channel": the flags, the cost and the summary
    sets gathered from the workers' results. *)
Definition allViableOf (rs : list VmReviewResult.t) : bool := forallb VmReviewResult.viable rs.
Definition hasWarningsOf (rs : list VmReviewResult.t) : bool := existsb VmReviewResult.warning rs.

Definition totalCostOf (rs : list VmReviewResult.t) : Q :=
  fold_left (fun total r => if negb (Qle_bool (VmReviewResult.cost r) 0)
                            then (total + VmReviewResult.cost r)%Q else total) rs 0%Q.

Definition unknownCostOf (rs : list VmReviewResult.t) : Z :=
  fold_left (fun n r =>
               if negb (Qle_bool (VmReviewResult.cost r) 0) then n
               else if String.eqb (ReviewVmDynamicReqInfo.EstimatedCost (VmReviewResult.vmReview r))
                                  "Cost estimation unavailable"
                    then int_add n 1 else n) rs 0%Z.

Definition namesOf (f : TbSpecInfo.t -> string) (rs : list VmReviewResult.t) : gset string :=
  fold_left (fun s r => match VmReviewResult.specInfo r with
                        | Some i => {[ f i ]} ∪ s
                        | None => s
                        end) rs ∅.

Definition specsOf (vms : list TbVmDynamicReq.t) (rs : list VmReviewResult.t) : gset string :=
  fold_left (fun s p => match VmReviewResult.specInfo (snd p) with
                        | Some _ => {[ TbVmDynamicReq.CommonSpec (fst p) ]} ∪ s
                        | None => s
                        end) (combine vms rs) ∅.

Definition imagesOf (vms : list TbVmDynamicReq.t) : gset string :=
  fold_left (fun s v => if negb (String.eqb (TbVmDynamicReq.CommonImage v) "")
                        then {[ TbVmDynamicReq.CommonImage v ]} ∪ s else s) vms ∅.

Definition countIf {A : Type} (p : A -> bool) (l : list A) : Z :=
  fold_left (fun n x => if p x then int_add n 1 else n) l 0%Z.

Definition ReviewMciDynamicReq (reqID nsId : string) (req : TbMciDynamicReq.t) (deployOption : string)
    (st : kvstore) : Result ReviewMciDynamicReqInfo.t * kvstore :=
  let totalVmCount := totalVmCountOf (TbMciDynamicReq.Vm req) 0 in
  let early (status message : string) : ReviewMciDynamicReqInfo.t :=
    ReviewMciDynamicReqInfo.mk (TbMciDynamicReq.Name req) totalVmCount [] ReviewResourceSummary.zero []
      (TbMciDynamicReq.PolicyOnPartialFailure req) status message false "" "" "" in
  match CheckString nsId with
  | Some e => (Err ("invalid namespace: " +:+ e), st)
  | None =>
  match CheckMci st nsId (TbMciDynamicReq.Name req) with
  | Err e => (Err ("invalid mci name: " +:+ e), st)
  | Ok true =>
      (Ok (early "Error" ("MCI '" +:+ TbMciDynamicReq.Name req +:+ "' already exists in namespace '" +:+
                          nsId +:+ "'")), st)
  | Ok false =>
      if (length (TbMciDynamicReq.Vm req) =? 0)%nat
      then (Ok (early "Error" "No VM requests provided"), st)
      else
        let '(results, st) := reviewVms (TbMciDynamicReq.Vm req) st in
        let vmReviews := map VmReviewResult.vmReview results in
        let allViable := allViableOf results in
        let hasWarnings := hasWarningsOf results in
        let totalEstimatedCost := totalCostOf results in
        let vmWithUnknownCost := unknownCostOf results in
        let providerNames := namesOf TbSpecInfo.ProviderName results in
        let regionNames := namesOf TbSpecInfo.RegionName results in
        let summary :=
          {| ReviewResourceSummary.UniqueSpecs := specsOf (TbMciDynamicReq.Vm req) results;
             ReviewResourceSummary.UniqueImages := imagesOf (TbMciDynamicReq.Vm req);
             ReviewResourceSummary.ConnectionNames := namesOf TbSpecInfo.ConnectionName results;
             ReviewResourceSummary.ProviderNames := providerNames;
             ReviewResourceSummary.RegionNames := regionNames;
             ReviewResourceSummary.TotalProviders := Z.of_nat (size providerNames);
             ReviewResourceSummary.TotalRegions := Z.of_nat (size regionNames);
             ReviewResourceSummary.AvailableSpecs :=
               countIf (fun v => ReviewResourceValidation.IsAvailable
                                   (ReviewVmDynamicReqInfo.SpecValidation v)) vmReviews;
             ReviewResourceSummary.UnavailableSpecs :=
               countIf (fun v => negb (ReviewResourceValidation.IsAvailable
                                         (ReviewVmDynamicReqInfo.SpecValidation v))) vmReviews;
             ReviewResourceSummary.AvailableImages :=
               countIf (fun v => ReviewResourceValidation.IsAvailable
                                   (ReviewVmDynamicReqInfo.ImageValidation v)) vmReviews;
             ReviewResourceSummary.UnavailableImages :=
               countIf (fun v => negb (ReviewResourceValidation.IsAvailable
                                         (ReviewVmDynamicReqInfo.ImageValidation v))) vmReviews |} in
        let estimatedCost :=
          if negb (Qle_bool totalEstimatedCost 0) then
            if (0 <? vmWithUnknownCost)%Z
            then "$" +:+ fmtCost totalEstimatedCost +:+ "/hour (partial - " +:+ ItoaZ vmWithUnknownCost +:+
                 " VMs have unknown costs)"
            else "$" +:+ fmtCost totalEstimatedCost +:+ "/hour"
          else if (0 <? vmWithUnknownCost)%Z
               then "Cost estimation unavailable for all " +:+ ItoaZ vmWithUnknownCost +:+ " VMs"
               else "" in
        let '(overallStatus, overallMessage, recommendations) :=
          if negb allViable then
            ("Error", "MCI cannot be created due to critical errors in VM configurations",
             ["Fix all VM configuration errors before attempting to create MCI"])
          else if hasWarnings then
            ("Warning", "MCI can be created but has some configuration warnings",
             ["Review and address warnings for optimal configuration"])
          else ("Ready", "All VMs can be created successfully", []) in
        let recommendations :=
          recommendations ++
          (if (3 <? ReviewResourceSummary.TotalProviders summary)%Z
           then ["Consider consolidating to fewer cloud providers to simplify management"] else []) ++
          (if (5 <? ReviewResourceSummary.TotalRegions summary)%Z
           then ["Large number of regions may increase latency between VMs"] else []) ++
          (if negb (Qle_bool totalEstimatedCost 10)
           then ["High estimated cost - consider using smaller instance types if appropriate"] else []) ++
          (if (0 <? vmWithUnknownCost)%Z
           then ["Cost estimation unavailable for " +:+ ItoaZ vmWithUnknownCost +:+
                 " VMs - actual costs may be higher than shown"] else []) in
        let policy :=
          if String.eqb (TbMciDynamicReq.PolicyOnPartialFailure req) "" then PolicyContinue
          else TbMciDynamicReq.PolicyOnPartialFailure req in
        let '(policyDescription, policyRecommendation, recommendations) :=
          if String.eqb policy PolicyContinue then
            ("If some VMs fail during creation, MCI will be created with successfully provisioned VMs only. Failed VMs will remain in 'StatusFailed' state and can be fixed later using 'refine' action.",
             (if (1 <? totalVmCount)%Z
              then "With multiple VMs, consider 'rollback' policy for all-or-nothing deployment, or 'refine' policy for automatic cleanup"
              else ""),
             recommendations ++
             ["Failure Policy: 'continue' - Partial deployment allowed, failed VMs can be refined later"] ++
             (if (1 <? totalVmCount)%Z
              then ["With multiple VMs, partial failures are possible. Consider using 'rollback' policy if you need all-or-nothing deployment, or 'refine' policy for automatic cleanup of failed VMs."]
              else []))
          else if String.eqb policy PolicyRollback then
            ("If any VM fails during creation, the entire MCI will be deleted automatically. This ensures all-or-nothing deployment but may waste resources if only a few VMs fail.",
             (if (5 <? totalVmCount)%Z
              then "With many VMs, rollback policy increases risk of complete deployment failure. Consider 'continue' or 'refine' policy for better reliability"
              else ""),
             recommendations ++
             ["Failure Policy: 'rollback' - All-or-nothing deployment, entire MCI deleted on any failure"] ++
             (if (5 <? totalVmCount)%Z
              then ["WARNING: With many VMs, rollback policy increases risk of complete deployment failure. Consider 'continue' or 'refine' policy for better reliability."]
              else []) ++
             (if (2 <? ReviewResourceSummary.TotalProviders summary)%Z
              then ["WARNING: Multiple cloud providers increase failure probability. Rollback policy may cause complete deployment failure due to single provider issues."]
              else []))
          else if String.eqb policy PolicyRefine then
            ("If some VMs fail during creation, MCI will be created with successful VMs, and failed VMs will be automatically cleaned up using refine action. This provides the best balance between reliability and resource efficiency.",
             (if (10 <? totalVmCount)%Z
              then "With many VMs, 'refine' policy provides optimal balance between reliability and resource efficiency"
              else ""),
             recommendations ++
             ["Failure Policy: 'refine' - Automatic cleanup of failed VMs, optimal balance of reliability and efficiency"] ++
             (if (10 <? totalVmCount)%Z
              then ["RECOMMENDED: With many VMs, 'refine' policy provides optimal balance between reliability and resource efficiency."]
              else []))
          else
            ("Unknown failure policy '" +:+ policy +:+
             "'. Will default to 'continue'. Valid options: continue, rollback, refine",
             "Use one of the valid failure policies: continue, rollback, refine",
             recommendations ++
             ["WARNING: Unknown failure policy '" +:+ policy +:+
              "'. Will default to 'continue'. Valid options: continue, rollback, refine"]) in
        let recommendations :=
          recommendations ++
          (if String.eqb overallStatus "Warning" && String.eqb policy PolicyRollback
           then ["CAUTION: Configuration warnings detected with 'rollback' policy. Address warnings to prevent complete deployment failure."]
           else []) ++
          (if (1 <? size providerNames)%nat && String.eqb policy PolicyRollback
           then ["TIP: Multi-cloud deployment with 'rollback' policy is risky. Consider 'refine' policy for better fault tolerance across providers."]
           else []) ++
          (if String.eqb deployOption "hold"
           then ["DEPLOYMENT HOLD: MCI creation will be held for review. Failure policy '" +:+ policy +:+
                 "' will apply when deployment is resumed with control continue."]
           else []) in
        (Ok {| ReviewMciDynamicReqInfo.MciName := TbMciDynamicReq.Name req;
               ReviewMciDynamicReqInfo.TotalVmCount := totalVmCount;
               ReviewMciDynamicReqInfo.VmReviews := vmReviews;
               ReviewMciDynamicReqInfo.ResourceSummary := summary;
               ReviewMciDynamicReqInfo.Recommendations := recommendations;
               ReviewMciDynamicReqInfo.PolicyOnPartialFailure := policy;
               ReviewMciDynamicReqInfo.OverallStatus := overallStatus;
               ReviewMciDynamicReqInfo.OverallMessage := overallMessage;
               ReviewMciDynamicReqInfo.CreationViable := allViable;
               ReviewMciDynamicReqInfo.EstimatedCost := estimatedCost;
               ReviewMciDynamicReqInfo.PolicyDescription := policyDescription;
               ReviewMciDynamicReqInfo.PolicyRecommendation := policyRecommendation |}, st)
  end end.

(** [ValidateMciDynamicReq]. *)
Definition ValidateMciDynamicReq := ReviewMciDynamicReq.

End WithReviewDeps.

(** *** Checks of dynamic requests *)

Module TbImageInfo.
Record t := mk {
  Id : string;
  Name : string;
  InfraType : string
}.
End TbImageInfo.

(** A connection config; [RegionName] is [RegionDetail.RegionName]. *)
Module ConnConfig.
Record t := mk {
  ConfigName : string;
  ProviderName : string;
  RegionName : string
}.
End ConnConfig.

(** [model.CheckVmDynamicReqInfo]; [SpecInfo] and [RegionDetail] are the
    types of its [Spec] and [Region]. *)
Module CheckVmDynamicReqInfo.
Record t {SpecInfo RegionDetail : Type} := mk {
  ConnectionConfigCandidates : list string;
  Spec : SpecInfo;
  Image : list TbImageInfo.t;
  Region : RegionDetail;
  SystemMessage : string
}.
Arguments t : clear implicits.
End CheckVmDynamicReqInfo.

(** [model.CheckNodeDynamicReqInfo]. *)
Module CheckNodeDynamicReqInfo.
Record t {SpecInfo RegionDetail : Type} := mk {
  ConnectionConfigCandidates : list string;
  Spec : SpecInfo;
  Image : list TbImageInfo.t;
  Region : RegionDetail;
  SystemMessage : string
}.
Arguments t : clear implicits.
End CheckNodeDynamicReqInfo.

(** The checks read three fields of a spec; the lookups of the other
    packages return their value together with the error, as in Go, and
    the texts [StrK8s], [StrKubernetes] are constants of package
    [model]. *)
Section Checks.
Context {SpecInfo RegionDetail : Type}.
Context (ProviderName RegionName InfraType : SpecInfo -> string).
Context (SystemCommonNs DefaultCredentialHolder StrK8s StrKubernetes : string).
Context (GetConnConfigList : string -> bool -> bool -> Result (list ConnConfig.t)).
Context (GetSpec : string -> string -> SpecInfo * option string).
Context (GetRegion : string -> string -> RegionDetail * option string).
Context (GetImagesByRegion : string -> string -> string -> list TbImageInfo.t * option string).

(** The body of the loop of [CheckMciDynamicReq] for the spec [k]. *)
Definition checkCommonSpec (connectionConfigList : list ConnConfig.t) (k : string)
    : CheckVmDynamicReqInfo.t SpecInfo RegionDetail :=
  let errMessage := "" in
  let '(specInfo, err) := GetSpec SystemCommonNs k in
  let errMessage :=
    match err with
    | Some _ => errMessage +:+ "//Failed to get Spec (" +:+ k +:+ ")."
    | None => errMessage
    end in
  let '(regionInfo, err) := GetRegion (ProviderName specInfo) (RegionName specInfo) in
  let errMessage :=
    match err with
    | Some _ => errMessage +:+ "//Failed to get Region (" +:+ RegionName specInfo +:+
                ") for Spec (" +:+ k +:+ ") is not found."
    | None => errMessage
    end in
  let connectionConfigCandidates :=
    map ConnConfig.ConfigName
      (List.filter (fun connectionConfig =>
                      String.eqb (ConnConfig.ProviderName connectionConfig) (ProviderName specInfo)
                      && Contains (ConnConfig.RegionName connectionConfig) (RegionName specInfo))
         connectionConfigList) in
  let '(availableImageList, err) :=
    GetImagesByRegion SystemCommonNs (ProviderName specInfo) (RegionName specInfo) in
  let errMessage :=
    match err with
    | Some _ => errMessage +:+ "//Failed to search images for Spec (" +:+ k +:+ ")"
    | None => errMessage
    end in
  {| CheckVmDynamicReqInfo.ConnectionConfigCandidates := connectionConfigCandidates;
     CheckVmDynamicReqInfo.Spec := specInfo;
     CheckVmDynamicReqInfo.Image := availableImageList;
     CheckVmDynamicReqInfo.Region := regionInfo;
     CheckVmDynamicReqInfo.SystemMessage := errMessage |}.

(** [CheckMciDynamicReq]: [(ReqCheck, err)].  The [err] assigned in the
    loop body is a variable of the body's own scope, so the error
    returned at the end is the one of [GetConnConfigList]. *)
Definition CheckMciDynamicReq (commonSpecs : list string)
    : list (CheckVmDynamicReqInfo.t SpecInfo RegionDetail) * option string :=
  match GetConnConfigList DefaultCredentialHolder true true with
  | Err _ => ([], Some "cannot load ConnectionConfigList in MCI dynamic request check")
  | Ok connectionConfigList => (map (checkCommonSpec connectionConfigList) commonSpecs, None)
  end.

Definition isK8sInfra (infraType : string) : bool :=
  Contains infraType StrK8s || Contains infraType StrKubernetes.

Definition filterCheckMciDynamicReqInfoToCheckK8sClusterDynamicReqInfo
    (mciDReqInfo : option (list (CheckVmDynamicReqInfo.t SpecInfo RegionDetail)))
    : list (CheckNodeDynamicReqInfo.t SpecInfo RegionDetail) :=
  match mciDReqInfo with
  | None => []
  | Some reqCheck =>
      fold_left
        (fun acc k =>
           if isK8sInfra (InfraType (CheckVmDynamicReqInfo.Spec k)) then
             let imageListForK8s :=
               List.filter (fun i => isK8sInfra (TbImageInfo.InfraType i))
                 (CheckVmDynamicReqInfo.Image k) in
             acc ++
             [{| CheckNodeDynamicReqInfo.ConnectionConfigCandidates :=
                   CheckVmDynamicReqInfo.ConnectionConfigCandidates k;
                 CheckNodeDynamicReqInfo.Spec := CheckVmDynamicReqInfo.Spec k;
                 CheckNodeDynamicReqInfo.Image :=
                   if (0 <? length imageListForK8s)%nat then imageListForK8s
                   else [TbImageInfo.mk "default" "default" ""];
                 CheckNodeDynamicReqInfo.Region := CheckVmDynamicReqInfo.Region k;
                 CheckNodeDynamicReqInfo.SystemMessage := CheckVmDynamicReqInfo.SystemMessage k |}]
           else acc)
        reqCheck []
  end.

Definition CheckK8sClusterDynamicReq (commonSpecs : list string)
    : list (CheckNodeDynamicReqInfo.t SpecInfo RegionDetail) * option string :=
  if negb (length commonSpecs =? 1)%nat
  then ([], Some "Only one CommonSpec should be defined.")
  else
    let '(mciDReqInfo, err) := CheckMciDynamicReq commonSpecs in
    (filterCheckMciDynamicReqInfoToCheckK8sClusterDynamicReqInfo (Some mciDReqInfo), err).

End Checks.

End infra.

(** ** Package [mcis]: status derivation, reconciliation, deletion *)

Module mcis.

Import Strings.
Local Open Scope list_scope.

(** Modelled from the spec: the constant declarations of the package are
    not among the sources.  The state names are those of section 3 and
    of scenarios S1 and S2; [StatusComplete] and [ActionComplete] print
    as ["None"] (see the note in [FetchVmStatus] about records showing
    [targetStatus: None]); the resource kinds are those of section 4.C. *)
Definition StatusRunning : string := "Running".
Definition StatusSuspended : string := "Suspended".
Definition StatusFailed : string := "Failed".
Definition StatusTerminated : string := "Terminated".
Definition StatusCreating : string := "Creating".
Definition StatusSuspending : string := "Suspending".
Definition StatusResuming : string := "Resuming".
Definition StatusRebooting : string := "Rebooting".
Definition StatusTerminating : string := "Terminating".
Definition StatusUndefined : string := "Undefined".
Definition StatusComplete : string := "None".
Definition ActionCreate : string := "Create".
Definition ActionTerminate : string := "Terminate".
Definition ActionSuspend : string := "Suspend".
Definition ActionResume : string := "Resume".
Definition ActionReboot : string := "Reboot".
Definition ActionRefine : string := "Refine".
Definition ActionComplete : string := "None".
Definition StrImage : string := "image".
Definition StrCustomImage : string := "customImage".
Definition StrSSHKey : string := "sshKey".
Definition StrVNet : string := "vNet".
Definition StrSecurityGroup : string := "securityGroup".
Definition StrDataDisk : string := "dataDisk".
Definition StrDelete : string := "delete".

Module StatusCountInfo.
Record t := mk {
  CountTotal : nat;
  CountCreating : nat;
  CountRunning : nat;
  CountFailed : nat;
  CountSuspended : nat;
  CountRebooting : nat;
  CountTerminated : nat;
  CountSuspending : nat;
  CountResuming : nat;
  CountTerminating : nat;
  CountUndefined : nat
}.
Definition zero : t := mk 0 0 0 0 0 0 0 0 0 0 0.
End StatusCountInfo.

Module TbVmStatusInfo.
Record t := mk {
  Id : string;
  Name : string;
  CspVmId : string;
  Status : string;
  TargetStatus : string;
  TargetAction : string;
  NativeStatus : string;
  MonAgentStatus : string;
  SystemMessage : string;
  CreatedTime : string;
  PublicIp : string;
  PrivateIp : string;
  SSHPort : string;
  Location : string
}.
(** [TbVmStatusInfo{}]. *)
Definition zero : t := mk "" "" "" "" "" "" "" "" "" "" "" "" "" "".
Definition set_Status (x : string) (r : t) : t :=
  let 'mk a b c _ e f g h i j k l m n := r in mk a b c x e f g h i j k l m n.
Definition set_TargetStatus (x : string) (r : t) : t :=
  let 'mk a b c d _ f g h i j k l m n := r in mk a b c d x f g h i j k l m n.
Definition set_TargetAction (x : string) (r : t) : t :=
  let 'mk a b c d e _ g h i j k l m n := r in mk a b c d e x g h i j k l m n.
Definition set_SystemMessage (x : string) (r : t) : t :=
  let 'mk a b c d e f g h _ j k l m n := r in mk a b c d e f g h x j k l m n.
Definition set_PublicIp (x : string) (r : t) : t :=
  let 'mk a b c d e f g h i j _ l m n := r in mk a b c d e f g h i j x l m n.
Definition set_SSHPort (x : string) (r : t) : t :=
  let 'mk a b c d e f g h i j k l _ n := r in mk a b c d e f g h i j k l x n.
Definition eqb (a b : t) : bool :=
  String.eqb (Id a) (Id b) && String.eqb (Name a) (Name b) &&
  String.eqb (CspVmId a) (CspVmId b) && String.eqb (Status a) (Status b) &&
  String.eqb (TargetStatus a) (TargetStatus b) && String.eqb (TargetAction a) (TargetAction b) &&
  String.eqb (NativeStatus a) (NativeStatus b) && String.eqb (MonAgentStatus a) (MonAgentStatus b) &&
  String.eqb (SystemMessage a) (SystemMessage b) && String.eqb (CreatedTime a) (CreatedTime b) &&
  String.eqb (PublicIp a) (PublicIp b) && String.eqb (PrivateIp a) (PrivateIp b) &&
  String.eqb (SSHPort a) (SSHPort b) && String.eqb (Location a) (Location b).
End TbVmStatusInfo.

Module McisStatusInfo.
Record t := mk {
  Id : string;
  Name : string;
  Status : string;
  StatusCount : StatusCountInfo.t;
  TargetStatus : string;
  TargetAction : string;
  InstallMonAgent : string;
  MasterVmId : string;
  MasterIp : string;
  MasterSSHPort : string;
  Label : string;
  SystemLabel : string;
  Vm : list TbVmStatusInfo.t
}.
(** [McisStatusInfo{}]. *)
Definition zero : t := mk "" "" "" StatusCountInfo.zero "" "" "" "" "" "" "" "" [].
End McisStatusInfo.

(** The VM record; [CspVmNameId] is [CspViewVmDetail.IId.NameId]. *)
Module TbVmInfo.
Record t := mk {
  Id : string;
  Name : string;
  ConnectionName : string;
  CspVmNameId : string;
  PublicIP : string;
  SSHPort : string;
  PrivateIP : string;
  Status : string;
  TargetStatus : string;
  TargetAction : string;
  Location : string;
  MonAgentStatus : string;
  CreatedTime : string;
  SystemMessage : string;
  ImageId : string;
  SshKeyId : string;
  VNetId : string;
  SecurityGroupIds : list string;
  DataDiskIds : list string
}.
(** [TbVmInfo{}]. *)
Definition zero : t := mk "" "" "" "" "" "" "" "" "" "" "" "" "" "" "" "" "" [] [].
Definition set_PublicIP (x : string) (r : t) : t :=
  let 'mk a b c d _ f g h i j k l m n o p q u v := r in mk a b c d x f g h i j k l m n o p q u v.
Definition set_SSHPort (x : string) (r : t) : t :=
  let 'mk a b c d e _ g h i j k l m n o p q u v := r in mk a b c d e x g h i j k l m n o p q u v.
Definition set_Status (x : string) (r : t) : t :=
  let 'mk a b c d e f g _ i j k l m n o p q u v := r in mk a b c d e f g x i j k l m n o p q u v.
Definition set_TargetStatus (x : string) (r : t) : t :=
  let 'mk a b c d e f g h _ j k l m n o p q u v := r in mk a b c d e f g h x j k l m n o p q u v.
Definition set_TargetAction (x : string) (r : t) : t :=
  let 'mk a b c d e f g h i _ k l m n o p q u v := r in mk a b c d e f g h i x k l m n o p q u v.
Definition set_SystemMessage (x : string) (r : t) : t :=
  let 'mk a b c d e f g h i j k l m _ o p q u v := r in mk a b c d e f g h i j k l m x o p q u v.
#[global] Instance eq_dec : EqDecision t.
Proof. solve_decision. Defined.
End TbVmInfo.

(** The MCIS record as stored; [UpdateMcisInfo] clears the VM list before
    it writes, so a stored record carries none. *)
Module TbMcisInfo.
Record t := mk {
  Id : string;
  Name : string;
  Status : string;
  StatusCount : StatusCountInfo.t;
  TargetStatus : string;
  TargetAction : string;
  InstallMonAgent : string;
  Label : string;
  SystemLabel : string
}.
Definition zero : t := mk "" "" "" StatusCountInfo.zero "" "" "" "" "".
#[global] Instance count_eq_dec : EqDecision StatusCountInfo.t.
Proof. solve_decision. Defined.
#[global] Instance eq_dec : EqDecision t.
Proof. solve_decision. Defined.
End TbMcisInfo.

(** *** The world: the key-value store and the cloud behind Spider

    A cell of the store is the record its text decodes to; a text read at
    another type counts as a decoding failure.  [GetKv] of this package
    reports a missing key by an empty [KeyValue] or an error; the callers
    treat both alike, and the model returns [None]. *)
Inductive Cell : Type :=
| McisCell (m : TbMcisInfo.t)
| VmCell (v : TbVmInfo.t)
| JunkCell (raw : string).

Record World (C : Type) : Type := mkWorld {
  kvs : gmap string Cell;
  csp : C
}.
Arguments mkWorld {C} kvs csp.
Arguments kvs {C} w.
Arguments csp {C} w.

(** Collaborators that live in other files or packages.  The Spider calls
    and the passing of time act on the cloud only; the others may read and
    write the whole world. *)
Class Env (C : Type) := {
  CheckString : string -> option string;
  GenMcisKey : string -> string -> string -> string;
  GenMcisSubGroupKey : string -> string -> string -> string;
  ListVmId : string -> string -> World C -> Result (list string);
  ListSubGroupId : string -> string -> World C -> Result (list string);
  CheckMcis : string -> string -> World C -> bool;
  CheckMcisPolicy : string -> string -> World C -> bool;
  DelMcisPolicy : string -> string -> World C -> option string * World C;
  HandleMcisAction : string -> string -> string -> bool -> World C -> Result string * World C;
  UpdateAssociatedObjectList :
    string -> string -> string -> string -> string -> World C -> option string * World C;
  DelAllNLB : string -> string -> string -> string -> World C -> Result (list string) * World C;
  (** [GET /vmstatus/{cspVmId}]: the [Status] of the reply. *)
  SpiderVmStatus : string -> string -> C -> Result string * C;
  (** [GET /vm/{cspVmId}]: [PublicIP], [PrivateIP], [SSHAccessPoint]. *)
  SpiderVm : string -> string -> C -> Result (string * string * string) * C;
  TrimIP : string -> string;
  (** [time.Sleep] of so many seconds. *)
  Sleep : Z -> C -> C;
  (** The scheduler of the workers of [GetMcisStatus].  They append to
      the shared [Vm] list without a lock, so an append can be lost in
      the race; [AppendLands] tells whether the append of the worker
      that has just finished survives. *)
  AppendLands : C -> bool * C
}.

Section WithEnv.
Context {C : Type} `{Env C}.

Definition GoRes (A : Type) : Type := A * option string.

(** [GetVmObject]: a read; the world is not touched. *)
Definition GetVmObject (nsId mcisId vmId : string) (w : World C) : Result TbVmInfo.t :=
  let key := GenMcisKey nsId mcisId vmId in
  match kvs w !! key with
  | None => Err ("failed to get GetVmObject (ID: " +:+ key +:+ ")")
  | Some (VmCell vmTmp) => Ok vmTmp
  | Some _ => Err ("failed to get GetVmObject (ID: " +:+ key +:+ "), message: failed to unmarshal")
  end.

(** [UpdateVmInfo]: writes only when the key exists and the value differs. *)
Definition UpdateVmInfo (nsId mcisId : string) (vmInfoData : TbVmInfo.t) (w : World C) : World C :=
  let key := GenMcisKey nsId mcisId (TbVmInfo.Id vmInfoData) in
  match kvs w !! key with
  | None => w
  | Some cell =>
      let vmTmp := match cell with VmCell v => v | _ => TbVmInfo.zero end in
      if decide (vmTmp = vmInfoData) then w
      else mkWorld (<[key := VmCell vmInfoData]> (kvs w)) (csp w)
  end.

(** [UpdateMcisInfo]. *)
Definition UpdateMcisInfo (nsId : string) (mcisInfoData : TbMcisInfo.t) (w : World C) : World C :=
  let key := GenMcisKey nsId (TbMcisInfo.Id mcisInfoData) "" in
  match kvs w !! key with
  | None => w
  | Some cell =>
      let mcisTmp := match cell with McisCell m => m | _ => TbMcisInfo.zero end in
      if decide (mcisTmp = mcisInfoData) then w
      else mkWorld (<[key := McisCell mcisInfoData]> (kvs w)) (csp w)
  end.

(** [GetVmCurrentPublicIp]: asks Spider for the VM's addresses. *)
Definition GetVmCurrentPublicIp (nsId mcisId vmId : string) (w : World C)
    : Result TbVmStatusInfo.t * World C :=
  let key := GenMcisKey nsId mcisId vmId in
  match kvs w !! key with
  | None => (Err ("Not found: " +:+ key +:+ " keyValue is nil"), w)
  | Some (VmCell temp) =>
      let cspVmId := TbVmInfo.CspVmNameId temp in
      if String.eqb cspVmId "" then (Err ("cspVmId is empty (VmId: " +:+ vmId +:+ ")"), w)
      else
        match SpiderVm cspVmId (TbVmInfo.ConnectionName temp) (csp w) with
        | (Err e, c') => (Err e, mkWorld (kvs w) c')
        | (Ok (publicIP, privateIP, sshAccessPoint), c') =>
            (Ok (TbVmStatusInfo.mk "" "" "" "" "" "" "" "" "" "" publicIP privateIP
                   (TrimIP sshAccessPoint) ""),
             mkWorld (kvs w) c')
        end
  | Some _ => (Err "failed to unmarshal", w)
  end.

(** [GetVmIp]: [(PublicIP, PrivateIP, SSHPort)] of the stored record. *)
Definition GetVmIp (nsId mcisId vmId : string) (w : World C) : Result (string * string * string) :=
  match GetVmObject nsId mcisId vmId w with
  | Err e => Err e
  | Ok vmObject => Ok (TbVmInfo.PublicIP vmObject, TbVmInfo.PrivateIP vmObject, TbVmInfo.SSHPort vmObject)
  end.

(** [UpdateVmPublicIp]: asks Spider for the addresses of the VM and
    writes the caller's record back when they differ from its own. *)
Definition UpdateVmPublicIp (nsId mcisId : string) (vmInfoData : TbVmInfo.t) (w : World C)
    : option string * World C :=
  match GetVmCurrentPublicIp nsId mcisId (TbVmInfo.Id vmInfoData) w with
  | (Err e, w) => (Some e, w)
  | (Ok vmInfoTmp, w) =>
      if negb (String.eqb (TbVmInfo.PublicIP vmInfoData) (TbVmStatusInfo.PublicIp vmInfoTmp))
         || negb (String.eqb (TbVmInfo.SSHPort vmInfoData) (TbVmStatusInfo.SSHPort vmInfoTmp))
      then
        let vmInfoData := TbVmInfo.set_PublicIP (TbVmStatusInfo.PublicIp vmInfoTmp) vmInfoData in
        let vmInfoData := TbVmInfo.set_SSHPort (TbVmStatusInfo.SSHPort vmInfoTmp) vmInfoData in
        (None, UpdateVmInfo nsId mcisId vmInfoData w)
      else (None, w)
  end.

(** The whitelist [validStatuses] of native statuses. *)
Definition validStatuses (s : string) : bool :=
  existsb (String.eqb s)
    [StatusCreating; StatusRunning; StatusSuspending; StatusSuspended;
     StatusResuming; StatusRebooting; StatusTerminating; StatusTerminated].

(** The retry loop of [FetchVmStatus] ([retrycheck] rounds).  Returns
    [callResult.Status] and the [SystemMessage] of [errorInfo]. *)
Fixpoint pollVmStatus (retrycheck : nat) (cspVmId conn sysMsg : string) (c : C)
    : (string * string) * C :=
  match retrycheck with
  | O => (("", sysMsg), c)
  | S n =>
      match SpiderVmStatus cspVmId conn c with
      | (Err e, c') => ((StatusUndefined, e), c')
      | (Ok status, c') =>
          if negb (String.eqb status "") then ((status, sysMsg), c')
          else pollVmStatus n cspVmId conn sysMsg (Sleep 5 c')
      end
  end.

(** "Correct undefined status using TargetAction".  [tempStatus] is the
    stored status, [ownStatus] the [Status] field of [vmStatusTmp] at
    that point of the function. *)
Definition correctStatus (targetAction tempStatus ownStatus status : string) : string :=
  let status :=
    if String.eqb targetAction ActionCreate then
      let status := if String.eqb status StatusUndefined then StatusCreating else status in
      if String.eqb tempStatus StatusFailed then StatusFailed else status
    else status in
  let status :=
    if String.eqb targetAction ActionTerminate then
      let status := if String.eqb status StatusUndefined then StatusTerminated else status in
      if String.eqb status StatusSuspending then StatusTerminating else status
    else status in
  let status :=
    if String.eqb targetAction ActionResume then
      let status := if String.eqb status StatusUndefined then StatusResuming else status in
      if String.eqb status StatusCreating then StatusResuming else status
    else status in
  let status :=
    if String.eqb targetAction ActionReboot then
      let status := if String.eqb status StatusUndefined then StatusRebooting else status in
      if String.eqb status StatusSuspending || String.eqb status StatusSuspended
         || String.eqb status StatusCreating || String.eqb status StatusResuming
      then StatusRebooting else status
    else status in
  if String.eqb ownStatus StatusTerminated then StatusTerminated else status.

(** The end of [FetchVmStatus]: "if TargetStatus == CurrentStatus, record
    to finalize the control operation", then the write-back. *)
Definition finalizeVmStatus (nsId mcisId cspVmId : string) (errorInfo : TbVmStatusInfo.t)
    (temp : TbVmInfo.t) (vmStatusTmp : TbVmStatusInfo.t) (w : World C)
    : GoRes TbVmStatusInfo.t * World C :=
  let continue (temp : TbVmInfo.t) (vmStatusTmp : TbVmStatusInfo.t) (w : World C) :=
    let vmStatusTmp := TbVmStatusInfo.set_PublicIp (TbVmInfo.PublicIP temp) vmStatusTmp in
    let vmStatusTmp := TbVmStatusInfo.set_SSHPort (TbVmInfo.SSHPort temp) vmStatusTmp in
    let temp := TbVmInfo.set_Status (TbVmStatusInfo.Status vmStatusTmp) temp in
    let temp := TbVmInfo.set_TargetAction (TbVmStatusInfo.TargetAction vmStatusTmp) temp in
    let temp := TbVmInfo.set_TargetStatus (TbVmStatusInfo.TargetStatus vmStatusTmp) temp in
    let temp := TbVmInfo.set_SystemMessage (TbVmStatusInfo.SystemMessage vmStatusTmp) temp in
    let w := if negb (String.eqb cspVmId "") then UpdateVmInfo nsId mcisId temp w else w in
    ((vmStatusTmp, None), w) in
  if String.eqb (TbVmStatusInfo.TargetStatus vmStatusTmp) (TbVmStatusInfo.Status vmStatusTmp) then
    if negb (String.eqb (TbVmStatusInfo.TargetStatus vmStatusTmp) StatusTerminated) then
      let vmStatusTmp :=
        TbVmStatusInfo.set_SystemMessage
          (TbVmStatusInfo.TargetStatus vmStatusTmp +:+ "==" +:+ TbVmStatusInfo.Status vmStatusTmp)
          vmStatusTmp in
      let vmStatusTmp := TbVmStatusInfo.set_TargetStatus StatusComplete vmStatusTmp in
      let vmStatusTmp := TbVmStatusInfo.set_TargetAction ActionComplete vmStatusTmp in
      match GetVmCurrentPublicIp nsId mcisId (TbVmInfo.Id temp) w with
      | (Err e, w') => ((TbVmStatusInfo.set_SystemMessage e errorInfo, Some e), w')
      | (Ok vmInfoTmp, w') =>
          let temp := TbVmInfo.set_PublicIP (TbVmStatusInfo.PublicIp vmInfoTmp) temp in
          let temp := TbVmInfo.set_SSHPort (TbVmStatusInfo.SSHPort vmInfoTmp) temp in
          continue temp vmStatusTmp w'
      end
    else
      let vmStatusTmp := TbVmStatusInfo.set_TargetStatus StatusTerminated vmStatusTmp in
      let vmStatusTmp := TbVmStatusInfo.set_TargetAction ActionTerminate vmStatusTmp in
      let vmStatusTmp := TbVmStatusInfo.set_Status StatusTerminated vmStatusTmp in
      let vmStatusTmp :=
        TbVmStatusInfo.set_SystemMessage "terminated VM. No action is acceptable except deletion"
          vmStatusTmp in
      continue temp vmStatusTmp w
  else continue temp vmStatusTmp w.

(** The status a VM is given before finalization: the native status
    filtered by the whitelist, then corrected by the target action. *)
Definition reconciledStatus (temp : TbVmInfo.t) (nativeStatus : string) : string :=
  correctStatus (TbVmInfo.TargetAction temp) (TbVmInfo.Status temp) ""
    (if validStatuses nativeStatus then nativeStatus else StatusUndefined).

Definition FetchVmStatus (nsId mcisId vmId : string) (w : World C)
    : GoRes TbVmStatusInfo.t * World C :=
  let errorInfo := TbVmStatusInfo.zero in
  match GetVmObject nsId mcisId vmId w with
  | Err e => ((errorInfo, Some e), w)
  | Ok temp =>
      let errorInfo :=
        TbVmStatusInfo.mk (TbVmInfo.Id temp) (TbVmInfo.Name temp) (TbVmInfo.CspVmNameId temp) ""
          (TbVmInfo.TargetStatus temp) (TbVmInfo.TargetAction temp) StatusUndefined
          (TbVmInfo.MonAgentStatus temp) "Error in FetchVmStatus" (TbVmInfo.CreatedTime temp)
          (TbVmInfo.PublicIP temp) (TbVmInfo.PrivateIP temp) (TbVmInfo.SSHPort temp)
          (TbVmInfo.Location temp) in
      let cspVmId := TbVmInfo.CspVmNameId temp in
      if negb (String.eqb (TbVmInfo.TargetAction temp) ActionCreate)
         && negb (String.eqb (TbVmInfo.TargetAction temp) ActionTerminate)
         && String.eqb cspVmId ""
      then ((errorInfo, Some ("cspVmId is empty (VmId: " +:+ vmId +:+ ")")), w)
      else
        let '((nativeStatus, errorInfo), c1) :=
          if negb (String.eqb (TbVmInfo.Status temp) StatusTerminated) && negb (String.eqb cspVmId "")
          then
            let '((status, sysMsg), c') :=
              pollVmStatus 2 cspVmId (TbVmInfo.ConnectionName temp)
                (TbVmStatusInfo.SystemMessage errorInfo) (csp w) in
            ((status,
              TbVmStatusInfo.set_SystemMessage sysMsg (TbVmStatusInfo.set_Status StatusFailed errorInfo)),
             c')
          else ((StatusUndefined, errorInfo), csp w) in
        let w1 := mkWorld (kvs w) c1 in
        match GetVmObject nsId mcisId vmId w1 with
        | Err e => ((errorInfo, Some e), w1)
        | Ok temp =>
            let vmStatusTmp :=
              TbVmStatusInfo.mk (TbVmInfo.Id temp) (TbVmInfo.Name temp) (TbVmInfo.CspVmNameId temp) ""
                (TbVmInfo.TargetStatus temp) (TbVmInfo.TargetAction temp) nativeStatus
                (TbVmInfo.MonAgentStatus temp) (TbVmInfo.SystemMessage temp)
                (TbVmInfo.CreatedTime temp) "" (TbVmInfo.PrivateIP temp) ""
                (TbVmInfo.Location temp) in
            let status :=
              correctStatus (TbVmStatusInfo.TargetAction vmStatusTmp) (TbVmInfo.Status temp)
                (TbVmStatusInfo.Status vmStatusTmp)
                (if validStatuses nativeStatus then nativeStatus else StatusUndefined) in
            let vmStatusTmp := TbVmStatusInfo.set_Status status vmStatusTmp in
            finalizeVmStatus nsId mcisId cspVmId errorInfo temp vmStatusTmp w1
        end
  end.

(** [FetchVmStatusAsync]: one worker; [results] is the [Vm] list as the
    worker finds it. *)
Definition FetchVmStatusAsync (nsId mcisId vmId : string) (results : list TbVmStatusInfo.t)
    (w : World C) : list TbVmStatusInfo.t * World C :=
  if negb (String.eqb nsId "") && negb (String.eqb mcisId "") && negb (String.eqb vmId "") then
    let '((vmStatusTmp, err), w') := FetchVmStatus nsId mcisId vmId w in
    let vmStatusTmp :=
      match err with
      | Some e => TbVmStatusInfo.set_SystemMessage e (TbVmStatusInfo.set_Status StatusFailed vmStatusTmp)
      | None => vmStatusTmp
      end in
    if negb (TbVmStatusInfo.eqb vmStatusTmp TbVmStatusInfo.zero)
    then (results ++ [vmStatusTmp], w')
    else (results, w')
  else (results, w).

(** *** [GetMcisStatus] *)

(** Decoding the stored MCIS record as a [McisStatusInfo]. *)
Definition statusInfoOfRecord (m : TbMcisInfo.t) : McisStatusInfo.t :=
  {| McisStatusInfo.Id := TbMcisInfo.Id m;
     McisStatusInfo.Name := TbMcisInfo.Name m;
     McisStatusInfo.Status := TbMcisInfo.Status m;
     McisStatusInfo.StatusCount := TbMcisInfo.StatusCount m;
     McisStatusInfo.TargetStatus := TbMcisInfo.TargetStatus m;
     McisStatusInfo.TargetAction := TbMcisInfo.TargetAction m;
     McisStatusInfo.InstallMonAgent := TbMcisInfo.InstallMonAgent m;
     McisStatusInfo.MasterVmId := "";
     McisStatusInfo.MasterIp := "";
     McisStatusInfo.MasterSSHPort := "";
     McisStatusInfo.Label := TbMcisInfo.Label m;
     McisStatusInfo.SystemLabel := TbMcisInfo.SystemLabel m;
     McisStatusInfo.Vm := [] |}.

(** The workers started by [go FetchVmStatusAsync(...)] and awaited by
    [wg.Wait()].  Each worker reads and writes the record of its own
    VM; their fetches are run in the order of [vmList].  The appends
    to the shared list are not synchronised: the append of a worker
    stays in the list when the scheduler lets it land, and is lost
    otherwise. *)
Fixpoint fetchAll (nsId mcisId : string) (vmList : list string) (results : list TbVmStatusInfo.t)
    (w : World C) : list TbVmStatusInfo.t * World C :=
  match vmList with
  | [] => (results, w)
  | v :: rest =>
      let '(appended, w') := FetchVmStatusAsync nsId mcisId v results w in
      let '(lands, c) := AppendLands (csp w') in
      fetchAll nsId mcisId rest (if lands then appended else results) (mkWorld (kvs w') c)
  end.

(** "select 1st Running VM as master": [(MasterVmId, MasterIp, MasterSSHPort)]. *)
Fixpoint findMaster (nsId mcisId : string) (vmList : list string) (w : World C)
    : option (string * string * string) :=
  match vmList with
  | [] => None
  | v :: rest =>
      match GetVmObject nsId mcisId v w with
      | Ok vmtmp =>
          if String.eqb (TbVmInfo.Status vmtmp) StatusRunning
          then Some (TbVmInfo.Id vmtmp, TbVmInfo.PublicIP vmtmp, TbVmInfo.SSHPort vmtmp)
          else findMaster nsId mcisId rest w
      | Err _ => findMaster nsId mcisId rest w
      end
  end.

(** [sort.Slice] by [Id]. *)
Fixpoint insertById (x : TbVmStatusInfo.t) (l : list TbVmStatusInfo.t) : list TbVmStatusInfo.t :=
  match l with
  | [] => [x]
  | y :: rest =>
      if String.ltb (TbVmStatusInfo.Id y) (TbVmStatusInfo.Id x)
      then y :: insertById x rest
      else x :: y :: rest
  end.
Definition sortById (l : list TbVmStatusInfo.t) : list TbVmStatusInfo.t :=
  fold_right insertById [] l.

Definition statusFlagStr : list string :=
  [StatusFailed; StatusSuspended; StatusRunning; StatusTerminated; StatusCreating;
   StatusSuspending; StatusResuming; StatusRebooting; StatusTerminating; StatusUndefined].

(** The [switch v.Status]: the slot of [statusFlag] that is incremented. *)
Definition statusSlot (status : string) : nat :=
  if String.eqb status StatusFailed then 0
  else if String.eqb status StatusSuspended then 1
  else if String.eqb status StatusRunning then 2
  else if String.eqb status StatusTerminated then 3
  else if String.eqb status StatusCreating then 4
  else if String.eqb status StatusSuspending then 5
  else if String.eqb status StatusResuming then 6
  else if String.eqb status StatusRebooting then 7
  else if String.eqb status StatusTerminating then 8
  else 9.

(** [statusFlag[i]++]. *)
Definition bump (i : nat) (statusFlag : list nat) : list nat :=
  <[i := S (nth i statusFlag 0%nat)]> statusFlag.

Definition countStatus (vms : list TbVmStatusInfo.t) : list nat :=
  fold_left (fun statusFlag v => bump (statusSlot (TbVmStatusInfo.Status v)) statusFlag)
    vms [0; 0; 0; 0; 0; 0; 0; 0; 0; 0]%nat.

(** The loop that finds [tmpMax] and [tmpMaxIndex], started at slot [i]. *)
Fixpoint maxLoop (i : nat) (statusFlag : list nat) (tmpMax tmpMaxIndex : nat) : nat * nat :=
  match statusFlag with
  | [] => (tmpMax, tmpMaxIndex)
  | v :: rest =>
      if (tmpMax <? v)%nat then maxLoop (S i) rest v i
      else maxLoop (S i) rest tmpMax tmpMaxIndex
  end.

(** The text of [mcisStatus.Status] from the counters. *)
Definition statusText (statusFlag : list nat) (numVm : nat) : string :=
  let '(tmpMax, tmpMaxIndex) := maxLoop 0 statusFlag 0%nat 0%nat in
  let runningStatus := nth 2 statusFlag 0%nat in
  let proportionStr :=
    ":" +:+ Itoa tmpMax +:+ " (R:" +:+ Itoa runningStatus +:+ "/" +:+ Itoa numVm +:+ ")" in
  let status :=
    if (tmpMax =? numVm)%nat then nth tmpMaxIndex statusFlagStr "" +:+ proportionStr
    else if (tmpMax <? numVm)%nat then "Partial-" +:+ nth tmpMaxIndex statusFlagStr "" +:+ proportionStr
    else nth 9 statusFlagStr "" +:+ proportionStr in
  let proportionStr :=
    ":" +:+ Itoa (nth 0 statusFlag 0%nat) +:+ " (R:" +:+ Itoa runningStatus +:+ "/" +:+
    Itoa numVm +:+ ")" in
  if (0 <? nth 0 statusFlag 0%nat)%nat then
    if (nth 0 statusFlag 0%nat =? numVm)%nat
    then nth 0 statusFlagStr "" +:+ proportionStr
    else "Partial-" +:+ nth 0 statusFlagStr "" +:+ proportionStr
  else status.

(** The status text of an MCIS whose VMs have the given status infos. *)
Definition mcisStatusOf (vms : list TbVmStatusInfo.t) : string :=
  statusText (countStatus vms) (length vms).

Definition statusCountOf (statusFlag : list nat) (numVm : nat) : StatusCountInfo.t :=
  {| StatusCountInfo.CountTotal := numVm;
     StatusCountInfo.CountFailed := nth 0 statusFlag 0%nat;
     StatusCountInfo.CountSuspended := nth 1 statusFlag 0%nat;
     StatusCountInfo.CountRunning := nth 2 statusFlag 0%nat;
     StatusCountInfo.CountTerminated := nth 3 statusFlag 0%nat;
     StatusCountInfo.CountCreating := nth 4 statusFlag 0%nat;
     StatusCountInfo.CountSuspending := nth 5 statusFlag 0%nat;
     StatusCountInfo.CountResuming := nth 6 statusFlag 0%nat;
     StatusCountInfo.CountRebooting := nth 7 statusFlag 0%nat;
     StatusCountInfo.CountTerminating := nth 8 statusFlag 0%nat;
     StatusCountInfo.CountUndefined := nth 9 statusFlag 0%nat |}.

Definition isDone (vms : list TbVmStatusInfo.t) : bool :=
  forallb (fun v => String.eqb (TbVmStatusInfo.TargetStatus v) StatusComplete
                    || String.eqb (TbVmStatusInfo.Status v) StatusTerminated) vms.

Definition GetMcisStatus (nsId mcisId : string) (w : World C)
    : GoRes McisStatusInfo.t * World C :=
  match CheckString nsId with
  | Some e => ((McisStatusInfo.zero, Some e), w)
  | None =>
  match CheckString mcisId with
  | Some e => ((McisStatusInfo.zero, Some e), w)
  | None =>
      let key := GenMcisKey nsId mcisId "" in
      match kvs w !! key with
      | None => ((McisStatusInfo.zero, Some ("Not found [" +:+ key +:+ "]")), w)
      | Some cell =>
          let mcisTmp := match cell with McisCell m => m | _ => TbMcisInfo.zero end in
          let mcisStatus := statusInfoOfRecord mcisTmp in
          match ListVmId nsId mcisId w with
          | Err e => ((McisStatusInfo.zero, Some e), w)
          | Ok vmList =>
              if (length vmList =? 0)%nat then ((McisStatusInfo.zero, None), w)
              else
                let '(vms, w1) := fetchAll nsId mcisId vmList (McisStatusInfo.Vm mcisStatus) w in
                let master := findMaster nsId mcisId vmList w1 in
                let vms := sortById vms in
                let statusFlag := countStatus vms in
                let numVm := length vms in
                let statusCount := statusCountOf statusFlag numVm in
                let done := isDone vms in
                let mcisStatus :=
                  {| McisStatusInfo.Id := McisStatusInfo.Id mcisStatus;
                     McisStatusInfo.Name := McisStatusInfo.Name mcisStatus;
                     McisStatusInfo.Status := statusText statusFlag numVm;
                     McisStatusInfo.StatusCount := statusCount;
                     McisStatusInfo.TargetStatus :=
                       if done then StatusComplete else McisStatusInfo.TargetStatus mcisStatus;
                     McisStatusInfo.TargetAction :=
                       if done then ActionComplete else McisStatusInfo.TargetAction mcisStatus;
                     McisStatusInfo.InstallMonAgent := McisStatusInfo.InstallMonAgent mcisStatus;
                     McisStatusInfo.MasterVmId :=
                       match master with Some (i, _, _) => i | None => McisStatusInfo.MasterVmId mcisStatus end;
                     McisStatusInfo.MasterIp :=
                       match master with Some (_, ip, _) => ip | None => McisStatusInfo.MasterIp mcisStatus end;
                     McisStatusInfo.MasterSSHPort :=
                       match master with Some (_, _, p) => p | None => McisStatusInfo.MasterSSHPort mcisStatus end;
                     McisStatusInfo.Label := McisStatusInfo.Label mcisStatus;
                     McisStatusInfo.SystemLabel := McisStatusInfo.SystemLabel mcisStatus;
                     McisStatusInfo.Vm := vms |} in
                let w2 :=
                  if done then
                    UpdateMcisInfo nsId
                      (TbMcisInfo.mk (TbMcisInfo.Id mcisTmp) (TbMcisInfo.Name mcisTmp)
                         (TbMcisInfo.Status mcisTmp) statusCount StatusComplete ActionComplete
                         (TbMcisInfo.InstallMonAgent mcisTmp) (TbMcisInfo.Label mcisTmp)
                         (TbMcisInfo.SystemLabel mcisTmp)) w1
                  else w1 in
                ((mcisStatus, None), w2)
          end
      end
  end end.

(** *** [DelMcis] *)

Definition sleepWorld (seconds : Z) (w : World C) : World C :=
  mkWorld (kvs w) (Sleep seconds (csp w)).

Definition kvDelete (key : string) (w : World C) : World C :=
  mkWorld (delete key (kvs w)) (csp w).

(** "Check MCIS status is Terminated (not Partial)". *)
Definition isTerminatedStatus (status : string) : bool :=
  negb (Contains status "Partial-") && Contains status StatusTerminated.

(** The statuses that approve deletion. *)
Definition isDeletableStatus (status : string) : bool :=
  negb (Contains status "Partial-") &&
  (Contains status StatusTerminated || Contains status StatusUndefined || Contains status StatusFailed).

(** The part of [DelMcis] that decides whether deletion may go on:
    the status check, the refine and terminate in advance for
    [option=terminate], the refusal.  [inl] is an early return. *)
Definition deletionGate (nsId mcisId option : string) (w : World C)
    : (GoRes (list string) + McisStatusInfo.t) * World C :=
  let deletedResources : list string := [] in
  let '((mcisStatus, _), w) := GetMcisStatus nsId mcisId w in
  let advance (w : World C) : (GoRes (list string) + McisStatusInfo.t) * World C :=
    if negb (isTerminatedStatus (McisStatusInfo.Status mcisStatus)) then
      if EqualFold option ActionTerminate then
        match HandleMcisAction nsId mcisId ActionRefine true w with
        | (Err e, w) => (inl (deletedResources, Some e), w)
        | (Ok _, w) =>
            match HandleMcisAction nsId mcisId ActionTerminate true w with
            | (Err e, w) => (inl (deletedResources, Some e), w)
            | (Ok _, w) =>
                let w := sleepWorld 5 w in
                let '((mcisStatus, _), w) := GetMcisStatus nsId mcisId w in
                (inr mcisStatus, w)
            end
        end
      else (inr mcisStatus, w)
    else (inr mcisStatus, w) in
  match advance w with
  | (inl r, w) => (inl r, w)
  | (inr mcisStatus, w) =>
      if negb (String.eqb (McisStatusInfo.Id mcisStatus) "")
         && negb (isDeletableStatus (McisStatusInfo.Status mcisStatus))
      then
        let err := "MCIS " +:+ mcisId +:+ " is " +:+ McisStatusInfo.Status mcisStatus +:+ " and not " +:+
                   StatusTerminated +:+ "/" +:+ StatusUndefined +:+ "/" +:+ StatusFailed +:+
                   ", Deletion is not allowed (use option=force for force deletion)" in
        if negb (String.eqb option "force") then (inl (deletedResources, Some err), w)
        else (inr mcisStatus, w)
      else (inr mcisStatus, w)
  end.

Fixpoint updateAll (nsId kind : string) (ids : list string) (vmKey : string) (w : World C) : World C :=
  match ids with
  | [] => w
  | v2 :: rest =>
      let '(_, w) := UpdateAssociatedObjectList nsId kind v2 StrDelete vmKey w in
      updateAll nsId kind rest vmKey w
  end.

(** "delete vms info": the loop over [vmList]. *)
Fixpoint deleteVms (nsId mcisId : string) (vmList : list string) (deletedResources : list string)
    (w : World C) : GoRes (list string) * World C :=
  match vmList with
  | [] => ((deletedResources, None), w)
  | v :: rest =>
      let vmKey := GenMcisKey nsId mcisId v in
      match GetVmObject nsId mcisId v w with
      | Err e => ((deletedResources, Some e), w)
      | Ok vmInfo =>
          let w := kvDelete vmKey w in
          let '(err, w) := UpdateAssociatedObjectList nsId StrImage (TbVmInfo.ImageId vmInfo) StrDelete vmKey w in
          let w := match err with
                   | Some _ => snd (UpdateAssociatedObjectList nsId StrCustomImage (TbVmInfo.ImageId vmInfo)
                                      StrDelete vmKey w)
                   | None => w
                   end in
          let '(_, w) := UpdateAssociatedObjectList nsId StrSSHKey (TbVmInfo.SshKeyId vmInfo) StrDelete vmKey w in
          let '(_, w) := UpdateAssociatedObjectList nsId StrVNet (TbVmInfo.VNetId vmInfo) StrDelete vmKey w in
          let w := updateAll nsId StrSecurityGroup (TbVmInfo.SecurityGroupIds vmInfo) vmKey w in
          let w := updateAll nsId StrDataDisk (TbVmInfo.DataDiskIds vmInfo) vmKey w in
          deleteVms nsId mcisId rest (deletedResources ++ ["[Done] VM: " +:+ v]) w
      end
  end.

Fixpoint deleteSubGroups (nsId mcisId : string) (subGroupList : list string)
    (deletedResources : list string) (w : World C) : list string * World C :=
  match subGroupList with
  | [] => (deletedResources, w)
  | v :: rest =>
      let w := kvDelete (GenMcisSubGroupKey nsId mcisId v) w in
      deleteSubGroups nsId mcisId rest (deletedResources ++ ["[Done] SubGroup: " +:+ v]) w
  end.

(** The deletion proper, after the gate: policy, VM records (with their
    back-references), sub-groups, NLBs, the companion MCIS
    [<mcisId>-nlb] (through [again], the recursive call of [DelMcis]),
    and at last the MCIS record. *)
Definition deleteAll
    (again : string -> string -> string -> World C -> Datatypes.option (GoRes (list string) * World C))
    (nsId mcisId option : string) (w : World C)
    : Datatypes.option (GoRes (list string) * World C) :=
  let deletedResources : list string := [] in
  let key := GenMcisKey nsId mcisId "" in
  let policy :=
    if CheckMcisPolicy nsId mcisId w then
      match DelMcisPolicy nsId mcisId w with
      | (Some e, w) => (inl e, w)
      | (None, w) => (inr (deletedResources ++ ["[Done] Policy: " +:+ mcisId]), w)
      end
    else (inr deletedResources, w) in
  match policy with
  | (inl e, w) => Some ((deletedResources, Some e), w)
  | (inr deletedResources, w) =>
  match ListVmId nsId mcisId w with
  | Err e => Some ((deletedResources, Some e), w)
  | Ok vmList =>
  match deleteVms nsId mcisId vmList deletedResources w with
  | ((deletedResources, Some e), w) => Some ((deletedResources, Some e), w)
  | ((deletedResources, None), w) =>
  match ListSubGroupId nsId mcisId w with
  | Err e => Some ((deletedResources, Some e), w)
  | Ok subGroupList =>
      let '(deletedResources, w) :=
        deleteSubGroups nsId mcisId subGroupList deletedResources w in
      let forceFlag := if String.eqb option "force" then "true" else "false" in
      match DelAllNLB nsId mcisId "" forceFlag w with
      | (Err e, w) => Some ((deletedResources, Some e), w)
      | (Ok output, w) =>
          let deletedResources := deletedResources ++ output in
          let mcisNlbId := mcisId +:+ "-nlb" in
          let finish (deletedResources : list string) (w : World C) :=
            let w := kvDelete key w in
            Some ((deletedResources ++ ["[Done] MCIS: " +:+ mcisId], None), w) in
          if CheckMcis nsId mcisNlbId w then
            match again nsId mcisNlbId option w with
            | None => None
            | Some ((_, Some e), w) => Some ((deletedResources, Some e), w)
            | Some ((mcisNlbDeleteResult, None), w) =>
                finish (deletedResources ++ mcisNlbDeleteResult) w
            end
          else finish deletedResources w
      end
  end end end
  end.

(** [DelMcis].  The call on the companion MCIS is a recursive call;
    [fuel] bounds its depth, and [None] means that the bound was
    reached. *)
Fixpoint DelMcis (fuel : nat) (nsId mcisId option : string) (w : World C)
    : Datatypes.option (GoRes (list string) * World C) :=
  match fuel with
  | O => None
  | S fuel =>
      let option := ToLower option in
      let deletedResources : list string := [] in
      match CheckString nsId with
      | Some e => Some ((deletedResources, Some e), w)
      | None =>
      match CheckString mcisId with
      | Some e => Some ((deletedResources, Some e), w)
      | None =>
          if negb (CheckMcis nsId mcisId w)
          then Some ((deletedResources, Some ("The mcis " +:+ mcisId +:+ " does not exist.")), w)
          else
            match deletionGate nsId mcisId option w with
            | (inl r, w) => Some (r, w)
            | (inr _, w) => deleteAll (DelMcis fuel) nsId mcisId option w
            end
      end end
  end.
End WithEnv.

End mcis.

(** ** Views of the store used in the statements *)

Module Views.

(** The log that [GetProvisioningLog] finds for a spec, if any. *)
Definition priorLog (st : kvstore) (specId : string) : option ProvisioningLog.t :=
  match st !! infra.generateProvisioningLogKey specId with
  | Some (Encoded l) => Some l
  | _ => None
  end.

(** A stored text that [GetProvisioningLog] cannot decode. *)
Definition corrupted (v : Stored) : bool :=
  match v with
  | Garbage _ | Misfit _ => true
  | _ => false
  end.

(** The store after a read of the log of [specId]: an undecodable record
    is gone, everything else is as before. *)
Definition afterRead (st : kvstore) (specId : string) : kvstore :=
  match st !! infra.generateProvisioningLogKey specId with
  | Some v => if corrupted v then delete (infra.generateProvisioningLogKey specId) st else st
  | None => st
  end.

Definition failureCountOf (o : option ProvisioningLog.t) : Z :=
  match o with Some l => ProvisioningLog.FailureCount l | None => 0 end.
Definition successCountOf (o : option ProvisioningLog.t) : Z :=
  match o with Some l => ProvisioningLog.SuccessCount l | None => 0 end.
Definition failureTimestampsOf (o : option ProvisioningLog.t) : list Time :=
  match o with Some l => ProvisioningLog.FailureTimestamps l | None => [] end.
Definition successTimestampsOf (o : option ProvisioningLog.t) : list Time :=
  match o with Some l => ProvisioningLog.SuccessTimestamps l | None => [] end.
Definition failureImagesOf (o : option ProvisioningLog.t) : list string :=
  match o with Some l => ProvisioningLog.FailureImages l | None => [] end.
Definition successImagesOf (o : option ProvisioningLog.t) : list string :=
  match o with Some l => ProvisioningLog.SuccessImages l | None => [] end.
Definition failureMessagesOf (o : option ProvisioningLog.t) : list string :=
  match o with Some l => ProvisioningLog.FailureMessages l | None => [] end.

(** The failure rate of a log, as the analyzer computes it. *)
Definition failureRateOf (l : ProvisioningLog.t) : Q :=
  (inject_Z (ProvisioningLog.FailureCount l) /
   inject_Z (int_add (ProvisioningLog.FailureCount l) (ProvisioningLog.SuccessCount l)))%Q.

(** A creation error concerns a VM when its VM name equals or contains
    the id of the VM. *)
Definition concerns (vmId : string) (vmError : model.VmCreationError.t) : bool :=
  String.eqb (model.VmCreationError.VmName vmError) vmId
  || Strings.Contains (model.VmCreationError.VmName vmError) vmId.

(** The text of the creation error that matches a VM: that of the first
    VM-object creation error that concerns it or, without one, of the
    first VM creation error that concerns it. *)
Definition matchingError (mciInfo : model.TbMciInfo.t) (vm : model.TbVmInfo.t) : option string :=
  match model.TbMciInfo.CreationErrors mciInfo with
  | None => None
  | Some creationErrors =>
      match List.find (concerns (model.TbVmInfo.Id vm))
              (model.MciCreationErrors.VmObjectCreationErrors creationErrors) with
      | Some vmError => Some (model.VmCreationError.Error vmError)
      | None =>
          match List.find (concerns (model.TbVmInfo.Id vm))
                  (model.MciCreationErrors.VmCreationErrors creationErrors) with
          | Some vmError => Some (model.VmCreationError.Error vmError)
          | None => None
          end
      end
  end.

(** The events that the loop of [RecordProvisioningEventsFromMci] hands
    to the recorder for the VMs from position [i] on, each with the
    clock reading of its save. *)
Fixpoint handedOver (clock : nat -> Time * Time) (mciInfo : model.TbMciInfo.t) (i : nat)
    (vms : list model.TbVmInfo.t) : list (Time * ProvisioningEvent.t) :=
  match vms with
  | [] => []
  | vm :: rest =>
      (snd (clock i), infra.eventOfVm mciInfo vm (fst (clock i))) ::
      handedOver clock mciInfo (S i) rest
  end.

Section WithCatalog.
Context `{Catalog}.

(** The store after the events have been given to
    [RecordProvisioningEvent] one after the other, whatever each call
    returned. *)
Fixpoint recordInOrder (events : list (Time * ProvisioningEvent.t)) (st : kvstore) : kvstore :=
  match events with
  | [] => st
  | (now, event) :: rest =>
      recordInOrder rest (snd (infra.RecordProvisioningEvent now event st))
  end.

End WithCatalog.

(** The three risk levels and their order, low < medium < high. *)
Definition riskLevel (level : string) : Prop :=
  level = "low" \/ level = "medium" \/ level = "high".

Inductive lowerRisk : string -> string -> Prop :=
| low_medium : lowerRisk "low" "medium"
| low_high : lowerRisk "low" "high"
| medium_high : lowerRisk "medium" "high".

(** [m] is the higher of the levels [a] and [b]. *)
Definition higherOf (a b m : string) : Prop :=
  (m = a \/ m = b) /\ ~ lowerRisk m a /\ ~ lowerRisk m b.

End Views.

(** ** Sample data: scenario S5 and small stores *)

Module Samples.

Definition s5spec : string := "gcp+europe-north1+f1-micro".
Definition s5image : string := "ubuntu22.04".

Definition s5log : ProvisioningLog.t :=
  {| ProvisioningLog.SpecId := s5spec;
     ProvisioningLog.ConnectionName := "gcp-europe-north1";
     ProvisioningLog.ProviderName := "gcp";
     ProvisioningLog.RegionName := "europe-north1";
     ProvisioningLog.FailureCount := 1;
     ProvisioningLog.SuccessCount := 0;
     ProvisioningLog.FailureTimestamps := [1700000000];
     ProvisioningLog.SuccessTimestamps := [];
     ProvisioningLog.FailureMessages := ["quota exceeded"];
     ProvisioningLog.FailureImages := [s5image];
     ProvisioningLog.SuccessImages := [];
     ProvisioningLog.LastUpdated := 1700000000;
     ProvisioningLog.AdditionalInfo := ∅ |}.

Definition s5store : kvstore :=
  {[ infra.generateProvisioningLogKey s5spec := Encoded s5log ]}.

(** A log with five failed images and no success at all. *)
Definition fiveImagesLog : ProvisioningLog.t :=
  {| ProvisioningLog.SpecId := "aws+ap-northeast-2+t2.small";
     ProvisioningLog.ConnectionName := "aws-ap-northeast-2";
     ProvisioningLog.ProviderName := "aws";
     ProvisioningLog.RegionName := "ap-northeast-2";
     ProvisioningLog.FailureCount := 5;
     ProvisioningLog.SuccessCount := 0;
     ProvisioningLog.FailureTimestamps := [1; 2; 3; 4; 5];
     ProvisioningLog.SuccessTimestamps := [];
     ProvisioningLog.FailureMessages := [];
     ProvisioningLog.FailureImages := ["img-a"; "img-b"; "img-c"; "img-d"; "img-e"];
     ProvisioningLog.SuccessImages := [];
     ProvisioningLog.LastUpdated := 5;
     ProvisioningLog.AdditionalInfo := ∅ |}.

Definition fiveImagesStore : kvstore :=
  {[ infra.generateProvisioningLogKey "aws+ap-northeast-2+t2.small" := Encoded fiveImagesLog ]}.

(** A store whose record for the S5 spec is not JSON. *)
Definition corruptedStore : kvstore :=
  {[ infra.generateProvisioningLogKey s5spec := Garbage "{oops" ]}.

(** A catalog that knows the S5 spec only. *)
Definition s5catalog : Catalog :=
  {| SystemCommonNs := "system";
     GetSpec := fun _ _ id =>
       if String.eqb id s5spec
       then Ok (TbSpecInfo.mk s5spec "gcp-europe-north1" "gcp" "europe-north1" "f1-micro" (1 # 100))
       else Err "not found" |}.

Definition failureEvent (image msg : string) : ProvisioningEvent.t :=
  ProvisioningEvent.mk s5spec image false msg 1700000100 "vm-1" "mci-1".
Definition successEvent (image : string) : ProvisioningEvent.t :=
  ProvisioningEvent.mk s5spec image true "" 1700000200 "vm-1" "mci-1".

End Samples.

(** ** Sample collaborators of the review *)

Module ReviewSamples.

(** Every name is valid, no MCI exists yet, the CSP knows every spec and
    image, every connection is configured. *)
Definition permissive : infra.ReviewDeps :=
  {| infra.CheckString := fun _ => None;
     infra.CheckMci := fun _ _ _ => Ok false;
     infra.LookupSpec := fun _ name => Ok name;
     infra.LookupImage := fun _ image => Ok (image, image);
     infra.GetConnConfig := fun _ _ => Ok tt |}.

(** A request for one VM with the spec and image of scenario S5. *)
Definition s5request : infra.TbMciDynamicReq.t :=
  infra.TbMciDynamicReq.mk "m1"
    [infra.TbVmDynamicReq.mk "v" "1" Samples.s5spec Samples.s5image "" "" ""]
    "continue".

End ReviewSamples.

(** ** What a review may do to the store *)

Module ReviewViews.

Import Views.

(** What a store may look like after some reads of provisioning logs of
    the specs of [vms]: each key holds what it held, or it held an
    undecodable log of one of these specs and is gone. *)
Definition readsOnly (vms : list infra.TbVmDynamicReq.t) (st st' : kvstore) : Prop :=
  forall k : string,
    st' !! k = st !! k \/
    (exists vmRequest,
        In vmRequest vms /\
        k = infra.generateProvisioningLogKey (infra.TbVmDynamicReq.CommonSpec vmRequest) /\
        (exists v, st !! k = Some v /\ corrupted v = true) /\
        st' !! k = None).

End ReviewViews.

(** ** Sample capability tables *)

Module K8sSamples.

Import infra.

(** The numeric value of the digits of a text, read as one decimal
    number; a simple total preorder on version texts of one shape. *)
Fixpoint digitsValue (s : string) (acc : Z) : Z :=
  match s with
  | EmptyString => acc
  | String c s' =>
      if isDigit c then digitsValue s' (10 * acc + Z.of_nat (nat_of_ascii c) - 48)
      else digitsValue s' acc
  end.

Definition compareByDigits (a b : string) : Z := digitsValue a 0 - digitsValue b 0.

Definition versions (ids : list string) : list K8sClusterVersionDetailAvailable.t :=
  map (fun id => K8sClusterVersionDetailAvailable.mk id id) ids.

(** The table of [nhncloud] in [k8sclusterinfo.yaml]. *)
Definition nhncloud : K8sCommon :=
  {| GetAvailableK8sVersion := fun provider region =>
       if String.eqb provider "nhncloud" && (String.eqb region "kr1" || String.eqb region "kr2")
       then Ok [K8sClusterVersionDetailAvailable.mk "1.29" "v1.29.3";
                K8sClusterVersionDetailAvailable.mk "1.28" "v1.28.3";
                K8sClusterVersionDetailAvailable.mk "1.27" "v1.27.3";
                K8sClusterVersionDetailAvailable.mk "1.26" "v1.26.3"]
       else Err "not found";
     CompareVersions := compareByDigits;
     StrEmpty := "empty" |}.

(** A table listed in ascending order. *)
Definition ascending : K8sCommon :=
  {| GetAvailableK8sVersion := fun _ _ => Ok (versions ["1.27"; "1.28"]);
     CompareVersions := compareByDigits;
     StrEmpty := "empty" |}.

End K8sSamples.

(** ** Notions used to state the recommendation *)

Module K8sViews.

Import infra.

Section WithK8sCommon.
Context `{K8sCommon}.

(** An entry answers a request when its id equals the request up to
    letter case, or when its filtered id starts with the filtered
    request. *)
Definition answers (reqVersion : string) (verDetail : K8sClusterVersionDetailAvailable.t) : bool :=
  Strings.EqualFold reqVersion (K8sClusterVersionDetailAvailable.Id verDetail) ||
  Strings.HasPrefix (FilterDigitsAndDots (K8sClusterVersionDetailAvailable.Id verDetail))
    (FilterDigitsAndDots reqVersion).

(** What is returned for the entry that answers. *)
Definition answerOf (reqVersion : string) (verDetail : K8sClusterVersionDetailAvailable.t) : string :=
  if Strings.EqualFold reqVersion (K8sClusterVersionDetailAvailable.Id verDetail)
  then K8sClusterVersionDetailAvailable.Id verDetail
  else FilterDigitsAndDots (K8sClusterVersionDetailAvailable.Id verDetail).

Definition idsOf (table : list K8sClusterVersionDetailAvailable.t) : list string :=
  map K8sClusterVersionDetailAvailable.Id table.

(** [below a b]: version text [a] compares lower than [b]. *)
Definition below (a b : string) : Prop :=
  CompareVersions (FilterDigitsAndDots a) (FilterDigitsAndDots b) < 0.

(** The comparison is a strict weak order on the filtered texts. *)
Definition strictWeakOrder : Prop :=
  (forall a, ~ below a a) /\
  (forall a b c, below a b -> below b c -> below a c) /\
  (forall a b c, ~ below a b -> ~ below b c -> ~ below a c).

Definition listing (providerName regionName : string) (ids : list string) : string :=
  "Available K8sCluster Version(k8sclusterinfo.yaml) for Provider/Region(" +:+
  providerName +:+ "/" +:+ regionName +:+ "): " +:+ Strings.Join ids ", ".

End WithK8sCommon.

End K8sViews.

(** ** Notions used to state the status derivation *)

Module StatusViews.

Import mcis.

(** The ten VM states, in the order in which a tie between their counts
    is resolved. *)
Definition vmStates : list string :=
  ["Failed"; "Suspended"; "Running"; "Terminated"; "Creating";
   "Suspending"; "Resuming"; "Rebooting"; "Terminating"; "Undefined"].

(** The state a VM is counted under: its [Status] when that is one of
    the ten states, and [Undefined] for any other text. *)
Definition kindOf (v : TbVmStatusInfo.t) : string :=
  if existsb (String.eqb (TbVmStatusInfo.Status v)) vmStates
  then TbVmStatusInfo.Status v
  else "Undefined".

(** How many of the VMs are counted under [status]. *)
Definition numOf (status : string) (vms : list TbVmStatusInfo.t) : nat :=
  length (List.filter (fun v => String.eqb (kindOf v) status) vms).

(** How many of the VMs fall into slot [i] of [statusFlag]. *)
Definition slotCount (i : nat) (vms : list TbVmStatusInfo.t) : nat :=
  length (List.filter (fun v => Nat.eqb (statusSlot (TbVmStatusInfo.Status v)) i) vms).

(** [":<count> (R:<r>/<n>)"]. *)
Definition proportion (count r n : nat) : string :=
  ":" +:+ Strings.Itoa count +:+ " (R:" +:+ Strings.Itoa r +:+ "/" +:+ Strings.Itoa n +:+ ")".

Definition vmWithStatus (status : string) : TbVmStatusInfo.t :=
  TbVmStatusInfo.set_Status status TbVmStatusInfo.zero.

End StatusViews.

(** ** Sample worlds for the status reconciler and the deletion gate *)

Module McisSamples.

Import mcis.
Local Open Scope list_scope.

Definition keyOf (nsId mcisId vmId : string) : string :=
  if String.eqb vmId "" then "/ns/" +:+ nsId +:+ "/mcis/" +:+ mcisId
  else "/ns/" +:+ nsId +:+ "/mcis/" +:+ mcisId +:+ "/vm/" +:+ vmId.

(** The text after the first colon of [ip:port]. *)
Fixpoint afterColon (s : string) : string :=
  match s with
  | EmptyString => EmptyString
  | String c s' => if Ascii.eqb c ":" then s' else afterColon s'
  end.

(** A cloud whose Spider always reports the native status [native] and
    one fixed address; the MCIS has at most the VM [vm1]; actions and
    association updates do nothing; no append is lost. *)
Definition cloud (native : string) : Env unit :=
  {| CheckString := fun _ => None;
     GenMcisKey := keyOf;
     GenMcisSubGroupKey := fun nsId mcisId g => "/ns/" +:+ nsId +:+ "/mcis/" +:+ mcisId +:+ "/subgroup/" +:+ g;
     ListVmId := fun nsId mcisId w =>
       Ok (match kvs w !! keyOf nsId mcisId "vm1" with Some _ => ["vm1"] | None => [] end);
     ListSubGroupId := fun _ _ _ => Ok [];
     CheckMcis := fun nsId mcisId w =>
       match kvs w !! keyOf nsId mcisId "" with Some _ => true | None => false end;
     CheckMcisPolicy := fun _ _ _ => false;
     DelMcisPolicy := fun _ _ w => (None, w);
     HandleMcisAction := fun _ _ _ _ w => (Ok "", w);
     UpdateAssociatedObjectList := fun _ _ _ _ _ w => (None, w);
     DelAllNLB := fun _ _ _ _ w => (Ok [], w);
     SpiderVmStatus := fun _ _ c => (Ok native, c);
     SpiderVm := fun _ _ c => (Ok ("3.35.1.7", "10.0.0.4", "3.35.1.7:22"), c);
     TrimIP := afterColon;
     Sleep := fun _ c => c;
     AppendLands := fun c => (true, c) |}.

Definition vm1 (status targetStatus targetAction : string) : TbVmInfo.t :=
  {| TbVmInfo.Id := "vm1";
     TbVmInfo.Name := "vm1";
     TbVmInfo.ConnectionName := "aws-ap-northeast-2";
     TbVmInfo.CspVmNameId := "demo-m1-vm1";
     TbVmInfo.PublicIP := "";
     TbVmInfo.SSHPort := "";
     TbVmInfo.PrivateIP := "10.0.0.4";
     TbVmInfo.Status := status;
     TbVmInfo.TargetStatus := targetStatus;
     TbVmInfo.TargetAction := targetAction;
     TbVmInfo.Location := "";
     TbVmInfo.MonAgentStatus := "";
     TbVmInfo.CreatedTime := "";
     TbVmInfo.SystemMessage := "";
     TbVmInfo.ImageId := "ubuntu22.04";
     TbVmInfo.SshKeyId := "demo-shared-aws-ap-northeast-2";
     TbVmInfo.VNetId := "demo-shared-aws-ap-northeast-2";
     TbVmInfo.SecurityGroupIds := ["demo-shared-aws-ap-northeast-2"];
     TbVmInfo.DataDiskIds := [] |}.

Definition m1 : TbMcisInfo.t :=
  TbMcisInfo.mk "m1" "m1" "" StatusCountInfo.zero "" "" "no" "" "".

(** The MCIS [m1] of namespace [demo] with its VM [vm1]. *)
Definition worldWith (mcisCell : Cell) (vm : TbVmInfo.t) : World unit :=
  mkWorld {[ keyOf "demo" "m1" "" := mcisCell; keyOf "demo" "m1" "vm1" := VmCell vm ]} tt.

(** [vm1] is being created and the cloud now reports it running. *)
Definition creatingWorld : World unit :=
  worldWith (McisCell m1) (vm1 "Creating" "Running" "Create").

(** [vm1] is being terminated and the cloud now reports it terminated. *)
Definition terminatingWorld : World unit :=
  worldWith (McisCell m1) (vm1 "Terminating" "Terminated" "Terminate").

(** [vm1] runs, all actions completed. *)
Definition runningWorld : World unit :=
  worldWith (McisCell m1) (vm1 "Running" "None" "None").

(** As [runningWorld], but the MCIS record does not decode. *)
Definition brokenRecordWorld : World unit :=
  worldWith (JunkCell "{oops") (vm1 "Running" "None" "None").

End McisSamples.

(** ** Notions used to state the reconciliation and the deletion gate *)

Module McisViews.

Import mcis StatusViews.

Section WithEnv.
Context {C : Type} `{Env C}.

(** The native status that [FetchVmStatus] obtains for a stored VM, and
    the cloud after the calls. *)
Definition polled (temp : TbVmInfo.t) (c : C) : string * C :=
  if negb (String.eqb (TbVmInfo.Status temp) StatusTerminated)
     && negb (String.eqb (TbVmInfo.CspVmNameId temp) "")
  then
    let '((status, _), c') :=
      pollVmStatus 2 (TbVmInfo.CspVmNameId temp) (TbVmInfo.ConnectionName temp)
        "Error in FetchVmStatus" c in
    (status, c')
  else (StatusUndefined, c).

(** [FetchVmStatus] gives up at once for a VM without CSP id whose
    target action is neither create nor terminate. *)
Definition withoutCspId (temp : TbVmInfo.t) : bool :=
  negb (String.eqb (TbVmInfo.TargetAction temp) ActionCreate)
  && negb (String.eqb (TbVmInfo.TargetAction temp) ActionTerminate)
  && String.eqb (TbVmInfo.CspVmNameId temp) "".

End WithEnv.

(** A VM that stands in the way of deletion: counted under a status
    other than [Terminated], [Undefined] and [Failed]. *)
Definition blocksDeletion (v : TbVmStatusInfo.t) : Prop :=
  kindOf v <> StatusTerminated /\ kindOf v <> StatusUndefined /\ kindOf v <> StatusFailed.

(** All the VMs are counted under the state [d]. *)
Definition allIn (d : string) (vms : list TbVmStatusInfo.t) : Prop :=
  forall v, In v vms -> kindOf v = d.

(** The VM lists that the deletion gate lets pass: all VMs terminated,
    all undefined, or all failed. *)
Definition passesGate (vms : list TbVmStatusInfo.t) : Prop :=
  allIn "Terminated" vms \/ allIn "Undefined" vms \/ allIn "Failed" vms.

(** "Already terminated": there are VMs, and all of them are
    terminated. *)
Definition allTerminated (vms : list TbVmStatusInfo.t) : Prop :=
  vms <> [] /\ allIn "Terminated" vms.

(** [c] occurs in [s]. *)
Fixpoint occurs (c : ascii) (s : string) : bool :=
  match s with
  | EmptyString => false
  | String a s' => Ascii.eqb a c || occurs c s'
  end.

End McisViews.

(** ** Notions used to state further properties *)

Module HistoryViews.

(** A stored text that does not decode into a log: empty, not JSON, or
    JSON of another shape. *)
Definition unreadable (v : Stored) : bool :=
  match v with
  | Encoded _ => false
  | _ => true
  end.

(** A spec without failure history: no record, an empty one, or a log
    whose failure count is not positive. *)
Definition noFailureHistory (st : kvstore) (specId : string) : Prop :=
  match st !! infra.generateProvisioningLogKey specId with
  | None | Some Blank => True
  | Some (Encoded l) => ProvisioningLog.FailureCount l <= 0
  | Some _ => False
  end.

(** A log whose counters say one failure but which carries two failure
    timestamps, stored under the key of its spec. *)
Definition overlongLog : ProvisioningLog.t :=
  {| ProvisioningLog.SpecId := Samples.s5spec;
     ProvisioningLog.ConnectionName := "gcp-europe-north1";
     ProvisioningLog.ProviderName := "gcp";
     ProvisioningLog.RegionName := "europe-north1";
     ProvisioningLog.FailureCount := 1;
     ProvisioningLog.SuccessCount := 0;
     ProvisioningLog.FailureTimestamps := [1700000000; 1700000050];
     ProvisioningLog.SuccessTimestamps := [];
     ProvisioningLog.FailureMessages := ["quota exceeded"];
     ProvisioningLog.FailureImages := [Samples.s5image];
     ProvisioningLog.SuccessImages := [];
     ProvisioningLog.LastUpdated := 1700000050;
     ProvisioningLog.AdditionalInfo := ∅ |}.

(** The same log with a negative failure count. *)
Definition negativeLog : ProvisioningLog.t :=
  {| ProvisioningLog.SpecId := Samples.s5spec;
     ProvisioningLog.ConnectionName := "gcp-europe-north1";
     ProvisioningLog.ProviderName := "gcp";
     ProvisioningLog.RegionName := "europe-north1";
     ProvisioningLog.FailureCount := -1;
     ProvisioningLog.SuccessCount := 0;
     ProvisioningLog.FailureTimestamps := [1700000000];
     ProvisioningLog.SuccessTimestamps := [];
     ProvisioningLog.FailureMessages := [];
     ProvisioningLog.FailureImages := [];
     ProvisioningLog.SuccessImages := [];
     ProvisioningLog.LastUpdated := 1700000000;
     ProvisioningLog.AdditionalInfo := ∅ |}.

Definition storeOf (l : ProvisioningLog.t) : kvstore :=
  {[ infra.generateProvisioningLogKey (ProvisioningLog.SpecId l) := Encoded l ]}.

(** An MCI whose only VM runs with the S5 spec and image. *)
Definition runningMci : model.TbMciInfo.t :=
  model.TbMciInfo.mk "mci-1"
    [model.TbVmInfo.mk "vm-1" model.StatusRunning Samples.s5spec Samples.s5image] None.

End HistoryViews.

Module McisExtraViews.

Import mcis.
Local Open Scope list_scope.

(** One of the ten status names of [statusFlagStr]. *)
Definition known (status : string) : bool := existsb (String.eqb status) statusFlagStr.

(** No entry has an id smaller than the id of the entry before it. *)
Fixpoint ascendingById (l : list TbVmStatusInfo.t) : Prop :=
  match l with
  | [] => True
  | x :: rest =>
      match rest with
      | [] => True
      | y :: _ => String.ltb (TbVmStatusInfo.Id y) (TbVmStatusInfo.Id x) = false
      end /\ ascendingById rest
  end.

(** [vm1] terminated by its life cycle, and [vm1] recorded as
    terminated although no action is pending. *)
Definition terminatedWorld : World unit :=
  McisSamples.worldWith (McisCell McisSamples.m1) (McisSamples.vm1 "Terminated" "Terminated" "Terminate").
Definition strayTerminatedWorld : World unit :=
  McisSamples.worldWith (McisCell McisSamples.m1) (McisSamples.vm1 "Terminated" "None" "None").

(** [vm1] without a CSP id and without a pending action. *)
Definition unprovisionedVm : TbVmInfo.t :=
  TbVmInfo.mk "vm1" "vm1" "aws-ap-northeast-2" "" "" "" "" "Failed" "None" "None" "" "" "" ""
    "ubuntu22.04" "" "" [] [].
Definition unprovisionedWorld : World unit :=
  McisSamples.worldWith (McisCell McisSamples.m1) unprovisionedVm.

(** A cloud with the VMs [vm1] and [vm2] whose scheduler follows a list
    of flags: the next append lands when the next flag says so, and
    always once the flags have run out.  Spider reports every VM
    running. *)
Definition racyCloud : Env (list bool) :=
  {| CheckString := fun _ => None;
     GenMcisKey := McisSamples.keyOf;
     GenMcisSubGroupKey := fun nsId mcisId g => "/ns/" +:+ nsId +:+ "/mcis/" +:+ mcisId +:+ "/subgroup/" +:+ g;
     ListVmId := fun nsId mcisId w =>
       Ok (List.filter (fun v => bool_decide (is_Some (kvs w !! McisSamples.keyOf nsId mcisId v)))
             ["vm1"; "vm2"]);
     ListSubGroupId := fun _ _ _ => Ok [];
     CheckMcis := fun nsId mcisId w =>
       match kvs w !! McisSamples.keyOf nsId mcisId "" with Some _ => true | None => false end;
     CheckMcisPolicy := fun _ _ _ => false;
     DelMcisPolicy := fun _ _ w => (None, w);
     HandleMcisAction := fun _ _ _ _ w => (Ok "", w);
     UpdateAssociatedObjectList := fun _ _ _ _ _ w => (None, w);
     DelAllNLB := fun _ _ _ _ w => (Ok [], w);
     SpiderVmStatus := fun _ _ c => (Ok "Running", c);
     SpiderVm := fun _ _ c => (Ok ("3.35.1.7", "10.0.0.4", "3.35.1.7:22"), c);
     TrimIP := McisSamples.afterColon;
     Sleep := fun _ c => c;
     AppendLands := fun c => match c with
                             | lands :: rest => (lands, rest)
                             | [] => (true, [])
                             end |}.

Definition vm2 : TbVmInfo.t :=
  TbVmInfo.mk "vm2" "vm2" "aws-ap-northeast-2" "demo-m1-vm2" "" "" "10.0.0.5"
    "Terminated" "Terminated" "Terminate" "" "" "" "" "ubuntu22.04" "" "" [] [].

(** The MCIS [m1] with a running [vm1] and a terminated [vm2]; [flags]
    is what the scheduler will do. *)
Definition twoVmWorld (flags : list bool) : World (list bool) :=
  mkWorld {[ McisSamples.keyOf "demo" "m1" "" := McisCell McisSamples.m1;
             McisSamples.keyOf "demo" "m1" "vm1" := VmCell (McisSamples.vm1 "Running" "None" "None");
             McisSamples.keyOf "demo" "m1" "vm2" := VmCell vm2 ]} flags.

End McisExtraViews.

Module CheckViews.

Local Open Scope list_scope.

Section Checks.
Context {SpecInfo RegionDetail : Type}.
Context (StrK8s StrKubernetes : string).

(** The entry that [filterCheckMciDynamicReqInfoToCheckK8sClusterDynamicReqInfo]
    makes of an entry it keeps. *)
Definition nodeOf (k : infra.CheckVmDynamicReqInfo.t SpecInfo RegionDetail)
    : infra.CheckNodeDynamicReqInfo.t SpecInfo RegionDetail :=
  let imageListForK8s :=
    List.filter (fun i => infra.isK8sInfra StrK8s StrKubernetes (infra.TbImageInfo.InfraType i))
      (infra.CheckVmDynamicReqInfo.Image k) in
  {| infra.CheckNodeDynamicReqInfo.ConnectionConfigCandidates :=
       infra.CheckVmDynamicReqInfo.ConnectionConfigCandidates k;
     infra.CheckNodeDynamicReqInfo.Spec := infra.CheckVmDynamicReqInfo.Spec k;
     infra.CheckNodeDynamicReqInfo.Image :=
       if (0 <? length imageListForK8s)%nat then imageListForK8s
       else [infra.TbImageInfo.mk "default" "default" ""];
     infra.CheckNodeDynamicReqInfo.Region := infra.CheckVmDynamicReqInfo.Region k;
     infra.CheckNodeDynamicReqInfo.SystemMessage := infra.CheckVmDynamicReqInfo.SystemMessage k |}.

End Checks.

End CheckViews.

(** * Properties *)

(** ** Provisioning history *)

Module HistoryFacts.

Import Views.
Local Open Scope list_scope.

Lemma GetProvisioningLog_run (specId : string) (st : kvstore) :
  infra.GetProvisioningLog specId st = (Ok (priorLog st specId), afterRead st specId).
Proof.
  unfold infra.GetProvisioningLog, catch, kv.GetKv, priorLog, afterRead.
  destruct (st !! infra.generateProvisioningLogKey specId) as [[ | raw | raw | l] | ]; reflexivity.
Qed.

Lemma afterRead_encoded (specId : string) (st : kvstore) (l : ProvisioningLog.t) :
  st !! infra.generateProvisioningLogKey specId = Some (Encoded l) -> afterRead st specId = st.
Proof. intros E. unfold afterRead. now rewrite E. Qed.

Lemma priorLog_encoded (specId : string) (st : kvstore) (l : ProvisioningLog.t) :
  st !! infra.generateProvisioningLogKey specId = Some (Encoded l) -> priorLog st specId = Some l.
Proof. intros E. unfold priorLog. now rewrite E. Qed.

(** C1, as amended: for a log that records one failure, no success, and
    the requested image as its only failed image, the analysis of that
    spec and image leaves the store as it is and gives the overall level
    ["high"] with primary factor ["spec"] (the failure rate 1.0 makes the
    spec risk high as well, and a tie goes to the spec); the
    recommendations are the spec ones, and none of them speaks of a
    different image. *)
Theorem scenario_S5_verdict (st : kvstore) (specId image : string) (l : ProvisioningLog.t)
    (Hstored : st !! infra.generateProvisioningLogKey specId = Some (Encoded l))
    (Himages : ProvisioningLog.FailureImages l = [image])
    (Hfail : ProvisioningLog.FailureCount l = 1)
    (Hsucc : ProvisioningLog.SuccessCount l = 0) :
  exists r,
    infra.AnalyzeProvisioningRiskDetailed specId image st = (Ok r, st) /\
    OverallRiskInfo.Level (RiskAnalysis.OverallRisk r) = "high" /\
    OverallRiskInfo.PrimaryRiskFactor (RiskAnalysis.OverallRisk r) = "spec" /\
    SpecRiskInfo.Level (RiskAnalysis.SpecRisk r) = "high" /\
    ImageRiskInfo.Level (RiskAnalysis.ImageRisk r) = "high" /\
    RiskAnalysis.Recommendations r =
      ["Consider changing to a different VM specification";
       "Check if this spec is available and properly configured in the target region";
       "IMPORTANT: This exact spec+image combination has failure history - high caution advised";
       "HIGH RISK DEPLOYMENT - Consider testing in development environment first";
       "Ensure robust rollback plans and monitoring are in place"] /\
    existsb (fun s => Strings.Contains s "different image") (RiskAnalysis.Recommendations r) = false.
Proof.
  unfold infra.AnalyzeProvisioningRiskDetailed, catch.
  rewrite GetProvisioningLog_run, (priorLog_encoded _ _ _ Hstored), (afterRead_encoded _ _ _ Hstored).
  destruct l as [sid cn pn rn fc sc fts sts fms fis sis lu ai]; simpl in *; subst.
  cbn [infra.contains]. rewrite String.eqb_refl.
  destruct (infra.contains sis image);
    (eexists; split; [reflexivity | ]; repeat split; reflexivity).
Qed.

Lemma scenario_S5_verdict_witness :
  exists r,
    infra.AnalyzeProvisioningRiskDetailed Samples.s5spec Samples.s5image Samples.s5store
      = (Ok r, Samples.s5store) /\
    OverallRiskInfo.PrimaryRiskFactor (RiskAnalysis.OverallRisk r) = "spec".
Proof.
  destruct (scenario_S5_verdict Samples.s5store Samples.s5spec Samples.s5image Samples.s5log)
    as [r (Hr & _ & Hf & _)]; [reflexivity | reflexivity | reflexivity | reflexivity | ].
  exists r. split; assumption.
Defined.

(** C1 as stated fails on scenario S5: the analysis does not name the
    image as the primary factor and recommends no different image. *)
Lemma scenario_S5_counterexample :
  ~ (exists r,
       fst (infra.AnalyzeProvisioningRiskDetailed Samples.s5spec Samples.s5image Samples.s5store) = Ok r /\
       OverallRiskInfo.Level (RiskAnalysis.OverallRisk r) = "high" /\
       OverallRiskInfo.PrimaryRiskFactor (RiskAnalysis.OverallRisk r) = "image" /\
       existsb (fun s => Strings.Contains s "different image") (RiskAnalysis.Recommendations r) = true).
Proof.
  intros [r (Hr & _ & Hf & _)].
  vm_compute in Hr. injection Hr as <-. vm_compute in Hf. discriminate Hf.
Qed.

Lemma analyzeSpecRisk_level (fic sic tf ts : Z) (rate : Q) :
  SpecRiskInfo.Level (infra.analyzeSpecRisk fic sic tf ts rate) =
    if (10 <=? fic)%Z then "high"
    else if (5 <=? fic)%Z then "medium"
    else if (3 <=? fic)%Z && (sic =? 0)%Z then "medium"
    else if Qle_bool (8 # 10) rate then "high"
    else if Qle_bool (5 # 10) rate then "medium"
    else "low".
Proof.
  unfold infra.analyzeSpecRisk.
  destruct (10 <=? fic)%Z; [reflexivity | ].
  destruct (5 <=? fic)%Z; [reflexivity | ].
  destruct ((3 <=? fic)%Z && (sic =? 0)%Z); [reflexivity | ].
  destruct (Qle_bool (8 # 10) rate); [reflexivity | ].
  destruct (Qle_bool (5 # 10) rate); [reflexivity | ].
  destruct (negb (Qle_bool rate 0)); reflexivity.
Qed.

(** The three levels as conditions on the counters, in the order in which
    [analyzeSpecRisk] tests them. *)
Lemma analyzeSpecRisk_cases (fic sic tf ts : Z) (rate : Q) :
  let lvl := SpecRiskInfo.Level (infra.analyzeSpecRisk fic sic tf ts rate) in
  (lvl = "high" <->
     10 <= fic \/ (fic < 5 /\ ~ (3 <= fic /\ sic = 0) /\ (8 # 10 <= rate)%Q)) /\
  (lvl = "medium" <->
     5 <= fic < 10 \/ (3 <= fic < 5 /\ sic = 0) \/
     (fic < 5 /\ ~ (3 <= fic /\ sic = 0) /\ (5 # 10 <= rate)%Q /\ ~ (8 # 10 <= rate)%Q)) /\
  (lvl = "low" <->
     fic < 5 /\ ~ (3 <= fic /\ sic = 0) /\ ~ (5 # 10 <= rate)%Q /\ ~ (8 # 10 <= rate)%Q).
Proof.
  cbv zeta. rewrite analyzeSpecRisk_level.
  destruct (Z.leb_spec0 10 fic) as [H10 | H10].
  { repeat split; intros; try discriminate; try lia; intuition lia. }
  destruct (Z.leb_spec0 5 fic) as [H5 | H5].
  { repeat split; intros; try discriminate; try lia; intuition lia. }
  assert (Hsub : (3 <=? fic)%Z && (sic =? 0)%Z = true <-> 3 <= fic /\ sic = 0).
  { rewrite andb_true_iff, Z.leb_le, Z.eqb_eq. tauto. }
  destruct ((3 <=? fic)%Z && (sic =? 0)%Z).
  { assert (3 <= fic /\ sic = 0) by (apply Hsub; reflexivity).
    repeat split; intros; try discriminate; try lia; intuition lia. }
  assert (Hno : ~ (3 <= fic /\ sic = 0)) by (intros X; apply Hsub in X; discriminate).
  destruct (Qle_bool (8 # 10) rate) eqn:E8.
  { apply Qle_bool_iff in E8.
    repeat split; intros; try discriminate; try lia; intuition lia. }
  assert (N8 : ~ (8 # 10 <= rate)%Q) by (intros X; apply Qle_bool_iff in X; congruence).
  destruct (Qle_bool (5 # 10) rate) eqn:E5.
  { apply Qle_bool_iff in E5.
    repeat split; intros; try discriminate; try lia; intuition lia. }
  assert (N5 : ~ (5 # 10 <= rate)%Q) by (intros X; apply Qle_bool_iff in X; congruence).
  repeat split; intros; try discriminate; try lia; intuition lia.
Qed.




Lemma determineOverallRisk_spec (sr : SpecRiskInfo.t) (ir : ImageRiskInfo.t) :
  let o := infra.determineOverallRisk sr ir in
  let sv := infra.getRiskValue (SpecRiskInfo.Level sr) in
  let iv := infra.getRiskValue (ImageRiskInfo.Level ir) in
  infra.getRiskValue (OverallRiskInfo.Level o) = Z.max sv iv /\
  (iv <= sv -> OverallRiskInfo.Level o = SpecRiskInfo.Level sr) /\
  (sv < iv -> OverallRiskInfo.Level o = ImageRiskInfo.Level ir) /\
  (SpecRiskInfo.Level sr = "low" /\ ImageRiskInfo.Level ir = "low" ->
     OverallRiskInfo.PrimaryRiskFactor o = "none") /\
  (ImageRiskInfo.IsNewCombination ir = true /\ SpecRiskInfo.Level sr <> "low" ->
     OverallRiskInfo.PrimaryRiskFactor o = "combination") /\
  (~ (SpecRiskInfo.Level sr = "low" /\ ImageRiskInfo.Level ir = "low") ->
   ~ (ImageRiskInfo.IsNewCombination ir = true /\ SpecRiskInfo.Level sr <> "low") ->
     (iv < sv -> OverallRiskInfo.PrimaryRiskFactor o = "spec") /\
     (iv = sv -> OverallRiskInfo.PrimaryRiskFactor o = "spec") /\
     (sv < iv -> OverallRiskInfo.PrimaryRiskFactor o = "image")).
Proof.
  cbv zeta. unfold infra.determineOverallRisk.
  set (sv := infra.getRiskValue (SpecRiskInfo.Level sr)).
  set (iv := infra.getRiskValue (ImageRiskInfo.Level ir)).
  destruct (String.eqb_spec (SpecRiskInfo.Level sr) "low") as [Es | Es];
    destruct (String.eqb_spec (ImageRiskInfo.Level ir) "low") as [Ei | Ei];
    destruct (ImageRiskInfo.IsNewCombination ir);
    destruct (Z.leb_spec iv sv) as [Hle | Hlt];
    cbn [andb negb OverallRiskInfo.Level OverallRiskInfo.PrimaryRiskFactor];
    (split; [fold sv; fold iv; lia | ]);
    repeat split; intros; try reflexivity; try lia; try tauto; try congruence.
Qed.

(** C3: for every pair of verdicts that [analyzeSpecRisk] and
    [analyzeImageRisk] produce, each level is one of low, medium and
    high, and the overall level is the higher of the two in the order
    low < medium < high: it is one of the two levels and neither of them
    is higher.  The primary factor is ["none"] when both levels are low,
    ["combination"] when the image is a new combination and the spec
    level is not low, and otherwise the factor whose level is higher,
    the spec on a tie. *)
Theorem overall_risk_is_max (fic sic tf ts : Z) (rate : Q) (failed succeeded isNew : bool)
    (image : string) :
  let sr := infra.analyzeSpecRisk fic sic tf ts rate in
  let ir := infra.analyzeImageRisk failed succeeded isNew image in
  let o := infra.determineOverallRisk sr ir in
  let sl := SpecRiskInfo.Level sr in
  let il := ImageRiskInfo.Level ir in
  riskLevel sl /\ riskLevel il /\
  higherOf sl il (OverallRiskInfo.Level o) /\
  (OverallRiskInfo.Level o = "high" <-> sl = "high" \/ il = "high") /\
  (OverallRiskInfo.Level o = "low" <-> sl = "low" /\ il = "low") /\
  (sl = "low" /\ il = "low" -> OverallRiskInfo.PrimaryRiskFactor o = "none") /\
  (isNew = true /\ sl <> "low" -> OverallRiskInfo.PrimaryRiskFactor o = "combination") /\
  (~ (sl = "low" /\ il = "low") -> ~ (isNew = true /\ sl <> "low") ->
     (lowerRisk il sl \/ il = sl -> OverallRiskInfo.PrimaryRiskFactor o = "spec") /\
     (lowerRisk sl il -> OverallRiskInfo.PrimaryRiskFactor o = "image")).
Proof.
  cbv zeta.
  pose proof (determineOverallRisk_spec (infra.analyzeSpecRisk fic sic tf ts rate)
                (infra.analyzeImageRisk failed succeeded isNew image)) as Hd.
  cbv zeta in Hd.
  assert (Hnew : ImageRiskInfo.IsNewCombination (infra.analyzeImageRisk failed succeeded isNew image) = isNew)
    by (unfold infra.analyzeImageRisk; destruct failed, succeeded, isNew; reflexivity).
  rewrite Hnew in Hd.
  assert (Hs : riskLevel (SpecRiskInfo.Level (infra.analyzeSpecRisk fic sic tf ts rate))).
  { rewrite analyzeSpecRisk_level. unfold riskLevel.
    destruct (10 <=? fic)%Z; [auto | ].
    destruct (5 <=? fic)%Z; [auto | ].
    destruct ((3 <=? fic)%Z && (sic =? 0)%Z); [auto | ].
    destruct (Qle_bool (8 # 10) rate); [auto | ].
    destruct (Qle_bool (5 # 10) rate); auto. }
  assert (Hi : riskLevel (ImageRiskInfo.Level (infra.analyzeImageRisk failed succeeded isNew image)))
    by (unfold riskLevel; destruct failed, succeeded, isNew; cbn; auto).
  destruct Hd as (_ & Hle & Hlt & Hnone & Hcomb & Hfactor).
  set (sl := SpecRiskInfo.Level (infra.analyzeSpecRisk fic sic tf ts rate)) in *.
  set (il := ImageRiskInfo.Level (infra.analyzeImageRisk failed succeeded isNew image)) in *.
  set (o := infra.determineOverallRisk _ _) in *.
  split; [exact Hs | ]. split; [exact Hi | ].
  assert (Hlow : forall a b, lowerRisk a b <-> infra.getRiskValue a < infra.getRiskValue b /\
                                               riskLevel a /\ riskLevel b).
  { intros a b. split.
    - intros []; cbn; unfold riskLevel; repeat split; auto; lia.
    - intros (Hv & [-> | [-> | ->]] & [-> | [-> | ->]]); cbn in Hv; try lia; constructor. }
  assert (Hval : forall a b, riskLevel a -> riskLevel b ->
                             infra.getRiskValue a = infra.getRiskValue b -> a = b).
  { intros a b [-> | [-> | ->]] [-> | [-> | ->]]; cbn; intros; try reflexivity; lia. }
  assert (Hcmp : infra.getRiskValue il <= infra.getRiskValue sl \/
                 infra.getRiskValue sl < infra.getRiskValue il) by lia.
  assert (Ho : OverallRiskInfo.Level o = sl /\ infra.getRiskValue il <= infra.getRiskValue sl \/
               OverallRiskInfo.Level o = il /\ infra.getRiskValue sl < infra.getRiskValue il).
  { destruct Hcmp as [Hc | Hc]; [left | right]; split; auto. }
  split; [ | split; [ | split; [ | split; [exact Hnone | split; [exact Hcomb | ]]]]].
  - unfold higherOf.
    destruct Ho as [[-> Hc] | [-> Hc]].
    + split; [now left | ]. split; intros Hx; apply Hlow in Hx; lia.
    + split; [now right | ]. split; intros Hx; apply Hlow in Hx; lia.
  - destruct Ho as [[-> Hc] | [-> Hc]];
      destruct Hs as [Es | [Es | Es]], Hi as [Ei | [Ei | Ei]];
      rewrite Es, Ei in *; cbn in Hc;
      first [lia | split; [auto | intros [Hx | Hx]; first [reflexivity | discriminate Hx]]].
  - destruct Ho as [[-> Hc] | [-> Hc]];
      destruct Hs as [Es | [Es | Es]], Hi as [Ei | [Ei | Ei]];
      rewrite Es, Ei in *; cbn in Hc;
      first [lia | split; [intros Hx; first [discriminate Hx | auto] | intros [Hx Hy]; congruence]].
  - intros Hn1 Hn2. destruct (Hfactor Hn1 Hn2) as (Hf1 & Hf2 & Hf3).
    split.
    + intros [Hx | Hx].
      * apply Hlow in Hx. apply Hf1. lia.
      * apply Hf2. now rewrite Hx.
    + intros Hx. apply Hlow in Hx. apply Hf3. lia.
Qed.

Lemma int_add_small (a b : Z) :
  - 2 ^ 63 <= a + b < 2 ^ 63 -> int_add a b = a + b.
Proof.
  intros Hr. unfold int_add, int_wrap.
  rewrite Z.mod_small by lia. lia.
Qed.

Lemma afterRead_lookup (st : kvstore) (specId k : string) :
  afterRead st specId !! k = st !! k \/
  (k = infra.generateProvisioningLogKey specId /\
   (exists v, st !! k = Some v /\ corrupted v = true) /\
   afterRead st specId !! k = None).
Proof.
  unfold afterRead.
  destruct (st !! infra.generateProvisioningLogKey specId) as [v | ] eqn:E; [ | now left].
  destruct (corrupted v) eqn:Ev; [ | now left].
  destruct (decide (k = infra.generateProvisioningLogKey specId)) as [-> | Hne].
  - right. split; [reflexivity | ]. split; [eauto | ]. apply lookup_delete_eq.
  - left. now apply lookup_delete_ne.
Qed.

Section Recording.
Context `{Catalog}.

(** The log that an event is applied to: the stored one, or a fresh one
    made from the catalog entry of the spec. *)
Lemma RecordProvisioningEvent_run (now : Time) (ev : ProvisioningEvent.t) (st : kvstore) :
  let specId := ProvisioningEvent.SpecId ev in
  let st0 := afterRead st specId in
  let base : Result ProvisioningLog.t :=
    match priorLog st specId with
    | Some l => Ok l
    | None => match GetSpec st0 SystemCommonNs specId with
              | Ok specInfo => Ok (infra.newLog ev specInfo)
              | Err e => Err ("failed to get spec info: " +:+ e)
              end
    end in
  infra.RecordProvisioningEvent now ev st =
    match base with
    | Err e => (Err e, st0)
    | Ok l =>
        if ProvisioningEvent.IsSuccess ev then
          if (0 <? ProvisioningLog.FailureCount l)%Z then
            (Ok tt, <[infra.generateProvisioningLogKey (ProvisioningLog.SpecId l) :=
                        Encoded (infra.setLastUpdated now (infra.addContext ev (infra.recordSuccess ev l)))]> st0)
          else (Ok tt, st0)
        else
          (Ok tt, <[infra.generateProvisioningLogKey (ProvisioningLog.SpecId l) :=
                      Encoded (infra.setLastUpdated now (infra.addContext ev (infra.recordFailure ev l)))]> st0)
    end.
Proof.
  cbv zeta. unfold infra.RecordProvisioningEvent, catch at 1.
  rewrite GetProvisioningLog_run.
  assert (Hkey : forall l' : ProvisioningLog.t,
             ProvisioningLog.SpecId (infra.setLastUpdated now l') = ProvisioningLog.SpecId l')
    by (intros []; reflexivity).
  assert (Hctx : forall l' : ProvisioningLog.t,
             ProvisioningLog.SpecId (infra.addContext ev l') = ProvisioningLog.SpecId l').
  { intros []. unfold infra.addContext.
    destruct (negb (String.eqb (ProvisioningEvent.MciId ev) "")); reflexivity. }
  assert (Hs : forall l' : ProvisioningLog.t,
             ProvisioningLog.SpecId (infra.recordSuccess ev l') = ProvisioningLog.SpecId l')
    by (intros []; reflexivity).
  assert (Hf : forall l' : ProvisioningLog.t,
             ProvisioningLog.SpecId (infra.recordFailure ev l') = ProvisioningLog.SpecId l')
    by (intros []; reflexivity).
  assert (Hsave : forall (l' : ProvisioningLog.t) (s : kvstore),
             infra.SaveProvisioningLog now l' s =
             (Ok tt, <[infra.generateProvisioningLogKey (ProvisioningLog.SpecId l') :=
                         Encoded (infra.setLastUpdated now l')]> s)).
  { intros l' s. unfold infra.SaveProvisioningLog, catch, kv.Put, ret. now rewrite Hkey. }
  destruct (priorLog st (ProvisioningEvent.SpecId ev)) as [l | ].
  - unfold catch, ret.
    destruct (ProvisioningEvent.IsSuccess ev).
    + destruct (0 <? ProvisioningLog.FailureCount l)%Z; [ | reflexivity].
      now rewrite Hsave, Hctx, Hs.
    + now rewrite Hsave, Hctx, Hf.
  - unfold catch.
    destruct (GetSpec (afterRead st (ProvisioningEvent.SpecId ev)) SystemCommonNs
                (ProvisioningEvent.SpecId ev)) as [specInfo | e]; [ | reflexivity].
    destruct (ProvisioningEvent.IsSuccess ev).
    + cbn [infra.newLog ProvisioningLog.FailureCount]. reflexivity.
    + unfold ret. now rewrite Hsave, Hctx, Hf.
Qed.

End Recording.

Lemma contains_In (slice : list string) (item : string) :
  infra.contains slice item = true <-> In item slice.
Proof.
  induction slice as [ | s rest IH]; cbn.
  - split; [discriminate | tauto].
  - destruct (String.eqb_spec s item) as [-> | Hne].
    + split; auto.
    + rewrite IH. split; [auto | intros [Heq | Hin]; [contradiction | exact Hin]].
Qed.

Section RecordingEffect.
Context `{Catalog}.

(** C4, as amended.  An event is applied to the stored log of its spec
    or, when there is none that decodes, to a fresh log made from the
    catalog entry; without either the call fails and writes nothing.
    The read that comes first removes an undecodable record of that
    spec and changes nothing else.  A failure event is always written:
    the failure count goes up by one (64-bit), the timestamp is
    appended, the image name is added when it is not empty and not yet
    listed, the message is appended when it is not empty.  A success
    event is written if and only if the failure count of that log is
    positive; otherwise the call returns without any write. *)
Theorem record_event_effect (now : Time) (ev : ProvisioningEvent.t) (st : kvstore) :
  let specId := ProvisioningEvent.SpecId ev in
  let image := ProvisioningEvent.CspImageName ev in
  let st0 := afterRead st specId in
  (forall k, st0 !! k = st !! k \/
             (k = infra.generateProvisioningLogKey specId /\
              (exists v, st !! k = Some v /\ corrupted v = true) /\ st0 !! k = None)) /\
  (priorLog st specId = None ->
   forall e, GetSpec st0 SystemCommonNs specId = Err e ->
             infra.RecordProvisioningEvent now ev st = (Err ("failed to get spec info: " +:+ e), st0)) /\
  (forall l,
     priorLog st specId = Some l \/
     (priorLog st specId = None /\
      exists specInfo, GetSpec st0 SystemCommonNs specId = Ok specInfo /\ l = infra.newLog ev specInfo) ->
     let key := infra.generateProvisioningLogKey (ProvisioningLog.SpecId l) in
     (ProvisioningEvent.IsSuccess ev = false ->
        exists l',
          infra.RecordProvisioningEvent now ev st = (Ok tt, <[key := Encoded l']> st0) /\
          ProvisioningLog.FailureCount l' = int_add (ProvisioningLog.FailureCount l) 1 /\
          (- 2 ^ 63 <= ProvisioningLog.FailureCount l < 2 ^ 63 - 1 ->
             ProvisioningLog.FailureCount l' = ProvisioningLog.FailureCount l + 1) /\
          ProvisioningLog.FailureTimestamps l' =
            ProvisioningLog.FailureTimestamps l ++ [ProvisioningEvent.Timestamp ev] /\
          (image <> "" -> In image (ProvisioningLog.FailureImages l')) /\
          (image = "" \/ In image (ProvisioningLog.FailureImages l) ->
             ProvisioningLog.FailureImages l' = ProvisioningLog.FailureImages l) /\
          (image <> "" -> ~ In image (ProvisioningLog.FailureImages l) ->
             ProvisioningLog.FailureImages l' = ProvisioningLog.FailureImages l ++ [image]) /\
          (ProvisioningEvent.ErrorMessage ev <> "" ->
             ProvisioningLog.FailureMessages l' =
               ProvisioningLog.FailureMessages l ++ [ProvisioningEvent.ErrorMessage ev]) /\
          (ProvisioningEvent.ErrorMessage ev = "" ->
             ProvisioningLog.FailureMessages l' = ProvisioningLog.FailureMessages l) /\
          ProvisioningLog.SuccessCount l' = ProvisioningLog.SuccessCount l /\
          ProvisioningLog.SuccessTimestamps l' = ProvisioningLog.SuccessTimestamps l /\
          ProvisioningLog.SuccessImages l' = ProvisioningLog.SuccessImages l) /\
     (ProvisioningEvent.IsSuccess ev = true -> 0 < ProvisioningLog.FailureCount l ->
        exists l',
          infra.RecordProvisioningEvent now ev st = (Ok tt, <[key := Encoded l']> st0) /\
          ProvisioningLog.SuccessCount l' = int_add (ProvisioningLog.SuccessCount l) 1 /\
          ProvisioningLog.SuccessTimestamps l' =
            ProvisioningLog.SuccessTimestamps l ++ [ProvisioningEvent.Timestamp ev] /\
          (image <> "" -> In image (ProvisioningLog.SuccessImages l')) /\
          ProvisioningLog.FailureCount l' = ProvisioningLog.FailureCount l /\
          ProvisioningLog.FailureTimestamps l' = ProvisioningLog.FailureTimestamps l /\
          ProvisioningLog.FailureImages l' = ProvisioningLog.FailureImages l /\
          ProvisioningLog.FailureMessages l' = ProvisioningLog.FailureMessages l) /\
     (ProvisioningEvent.IsSuccess ev = true -> ProvisioningLog.FailureCount l <= 0 ->
        infra.RecordProvisioningEvent now ev st = (Ok tt, st0))).
Proof.
  cbv zeta. split; [intros k; apply afterRead_lookup | ].
  pose proof (RecordProvisioningEvent_run now ev st) as Hrun. cbv zeta in Hrun.
  split.
  { intros Hnone e He. rewrite Hrun, Hnone, He. reflexivity. }
  intros l Hbase.
  assert (Hb : match priorLog st (ProvisioningEvent.SpecId ev) with
               | Some l0 => Ok l0
               | None =>
                   match GetSpec (afterRead st (ProvisioningEvent.SpecId ev)) SystemCommonNs
                           (ProvisioningEvent.SpecId ev) with
                   | Ok specInfo => Ok (infra.newLog ev specInfo)
                   | Err e => Err ("failed to get spec info: " +:+ e)
                   end
               end = Ok l).
  { destruct Hbase as [-> | [-> (specInfo & -> & ->)]]; reflexivity. }
  rewrite Hb in Hrun. clear Hb Hbase.
  split; [ | split].
  - intros Hfail. rewrite Hfail in Hrun.
    eexists. split; [exact Hrun | ].
    destruct l as [sid cn pn rn fc sc fts sts fms fis sis lu ai].
    unfold infra.addContext, infra.recordFailure.
    destruct (negb (String.eqb (ProvisioningEvent.MciId ev) ""));
      cbn [infra.setLastUpdated ProvisioningLog.FailureCount ProvisioningLog.FailureTimestamps
           ProvisioningLog.FailureImages ProvisioningLog.FailureMessages
           ProvisioningLog.SuccessCount ProvisioningLog.SuccessTimestamps
           ProvisioningLog.SuccessImages].
    all: destruct (String.eqb_spec (ProvisioningEvent.CspImageName ev) "") as [Ei | Ei];
      destruct (infra.contains fis (ProvisioningEvent.CspImageName ev)) eqn:Ec;
      destruct (String.eqb_spec (ProvisioningEvent.ErrorMessage ev) "") as [Em | Em];
      cbn [negb andb].
    all: repeat split; try reflexivity; try congruence.
    all: try (intros; apply int_add_small; lia).
    all: try (intros; apply contains_In; assumption).
    all: try (intros; apply in_or_app; right; left; reflexivity).
    all: try (intros [Hx | Hx]; [congruence | apply contains_In in Hx; congruence]).
    all: try (intros _ Hx; exfalso; apply Hx; apply contains_In; assumption).
  - intros Hsucc Hpos. rewrite Hsucc in Hrun.
    assert (Hlt : (0 <? ProvisioningLog.FailureCount l)%Z = true) by (apply Z.ltb_lt; exact Hpos).
    rewrite Hlt in Hrun.
    eexists. split; [exact Hrun | ].
    destruct l as [sid cn pn rn fc sc fts sts fms fis sis lu ai].
    unfold infra.addContext, infra.recordSuccess.
    destruct (negb (String.eqb (ProvisioningEvent.MciId ev) ""));
      cbn [infra.setLastUpdated ProvisioningLog.FailureCount ProvisioningLog.FailureTimestamps
           ProvisioningLog.FailureImages ProvisioningLog.FailureMessages
           ProvisioningLog.SuccessCount ProvisioningLog.SuccessTimestamps
           ProvisioningLog.SuccessImages].
    all: destruct (String.eqb_spec (ProvisioningEvent.CspImageName ev) "") as [Ei | Ei];
      destruct (infra.contains sis (ProvisioningEvent.CspImageName ev)) eqn:Ec;
      cbn [negb andb].
    all: repeat split; try reflexivity; try congruence.
    all: try (intros; apply contains_In; assumption).
    all: try (intros; apply in_or_app; right; left; reflexivity).
  - intros Hsucc Hnonpos. rewrite Hsucc in Hrun.
    assert (Hlt : (0 <? ProvisioningLog.FailureCount l)%Z = false) by (apply Z.ltb_ge; exact Hnonpos).
    now rewrite Hlt in Hrun.
Qed.

End RecordingEffect.

(** C4 as stated fails in two places: a failure event without an image
    name adds nothing to the failed images, and a success event on a spec
    without failures still changes the store when the stored record of
    that spec does not decode (the read deletes it). *)
Lemma record_event_counterexample :
  (exists l',
      snd (infra.RecordProvisioningEvent (H := Samples.s5catalog) 1700000101
             (Samples.failureEvent "" "boom") Samples.s5store)
        !! infra.generateProvisioningLogKey Samples.s5spec = Some (Encoded l') /\
      ProvisioningLog.FailureCount l' = 2 /\
      ~ In "" (ProvisioningLog.FailureImages l')) /\
  (failureCountOf (priorLog Samples.corruptedStore Samples.s5spec) = 0 /\
   fst (infra.RecordProvisioningEvent (H := Samples.s5catalog) 1700000201
          (Samples.successEvent Samples.s5image) Samples.corruptedStore) = Ok tt /\
   snd (infra.RecordProvisioningEvent (H := Samples.s5catalog) 1700000201
          (Samples.successEvent Samples.s5image) Samples.corruptedStore)
     <> Samples.corruptedStore).
Proof.
  split.
  - eexists. split; [vm_compute; reflexivity | ].
    split; [reflexivity | ].
    cbn. intros [Hx | []]. discriminate Hx.
  - split; [reflexivity | ]. split; [reflexivity | ].
    intros Heq.
    apply (f_equal (fun m : kvstore => m !! infra.generateProvisioningLogKey Samples.s5spec)) in Heq.
    vm_compute in Heq. discriminate Heq.
Qed.

Lemma findError_find (errs : list model.VmCreationError.t) (vmId : string) :
  infra.findError errs vmId =
    match List.find (concerns vmId) errs with
    | Some vmError => Some (model.VmCreationError.Error vmError)
    | None => None
    end.
Proof.
  induction errs as [ | x rest IH]; cbn [infra.findError List.find]; [reflexivity | ].
  unfold concerns at 1.
  destruct (String.eqb (model.VmCreationError.VmName x) vmId
            || Strings.Contains (model.VmCreationError.VmName x) vmId); [reflexivity | exact IH].
Qed.

(** The message of a failure event: the text of the matching creation
    error, or the generic text when there is none or its text is empty. *)
Lemma lookupErrorMessage_matching (mciInfo : model.TbMciInfo.t) (vm : model.TbVmInfo.t) :
  infra.lookupErrorMessage mciInfo vm =
    match matchingError mciInfo vm with
    | Some e => if String.eqb e "" then "VM creation failed with status: " +:+ model.TbVmInfo.Status vm
                else e
    | None => "VM creation failed with status: " +:+ model.TbVmInfo.Status vm
    end.
Proof.
  unfold infra.lookupErrorMessage, matchingError.
  destruct (model.TbMciInfo.CreationErrors mciInfo) as [ce | ]; [ | reflexivity].
  rewrite !findError_find.
  destruct (List.find _ (model.MciCreationErrors.VmObjectCreationErrors ce)); [reflexivity | ].
  destruct (List.find _ (model.MciCreationErrors.VmCreationErrors ce)); reflexivity.
Qed.

Lemma handedOver_lookup (clock : nat -> Time * Time) (mciInfo : model.TbMciInfo.t)
    (vms : list model.TbVmInfo.t) (i0 i : nat) (vm : model.TbVmInfo.t) :
  vms !! i = Some vm ->
  handedOver clock mciInfo i0 vms !! i =
    Some (snd (clock (i0 + i)%nat), infra.eventOfVm mciInfo vm (fst (clock (i0 + i)%nat))).
Proof.
  revert i0 i. induction vms as [ | x rest IH]; intros i0 [ | i] Hi; try discriminate Hi.
  - injection Hi as ->. rewrite Nat.add_0_r. reflexivity.
  - specialize (IH (S i0) i Hi). rewrite Nat.add_succ_r. exact IH.
Qed.

Lemma handedOver_length (clock : nat -> Time * Time) (mciInfo : model.TbMciInfo.t)
    (vms : list model.TbVmInfo.t) (i0 : nat) :
  length (handedOver clock mciInfo i0 vms) = length vms.
Proof. revert i0. induction vms as [ | x rest IH]; intros i0; cbn; [reflexivity | now rewrite IH]. Qed.

Section EventsFromMci.
Context `{Catalog}.

Lemma recordEvents_run (clock : nat -> Time * Time) (mciInfo : model.TbMciInfo.t)
    (vms : list model.TbVmInfo.t) (i : nat) (n : Z) (st : kvstore) :
  exists n',
    infra.recordEvents clock mciInfo i vms n st =
      (Ok n', recordInOrder (handedOver clock mciInfo i vms) st).
Proof.
  revert i n st. induction vms as [ | vm rest IH]; intros i n st.
  - exists n. reflexivity.
  - cbn [infra.recordEvents handedOver recordInOrder]. unfold catch.
    destruct (infra.RecordProvisioningEvent (snd (clock i))
                (infra.eventOfVm mciInfo vm (fst (clock i))) st) as [[[] | e] st'];
      cbn [snd]; apply IH.
Qed.


End EventsFromMci.

End HistoryFacts.

(** ** Kubernetes version recommendation *)

Module K8sFacts.

Import infra K8sViews.
Local Open Scope list_scope.

Lemma EqualFold_refl (s : string) : Strings.EqualFold s s = true.
Proof. unfold Strings.EqualFold. apply String.eqb_refl. Qed.

Lemma filter_toLowerChar (c : ascii) :
  isDigitOrDot (Strings.toLowerChar c) = isDigitOrDot c /\
  (isDigitOrDot c = true -> Strings.toLowerChar c = c).
Proof.
  destruct c as [[ | ] [ | ] [ | ] [ | ] [ | ] [ | ] [ | ] [ | ]];
    (split; [reflexivity | intros Hd; first [reflexivity | discriminate Hd]]).
Qed.

(** Texts that are equal up to letter case have the same digits and dots. *)
Lemma FilterDigitsAndDots_ToLower (s : string) :
  FilterDigitsAndDots (Strings.ToLower s) = FilterDigitsAndDots s.
Proof.
  induction s as [ | c s IH]; [reflexivity | ].
  cbn [Strings.ToLower FilterDigitsAndDots].
  destruct (filter_toLowerChar c) as [Hsame Hfix]. rewrite Hsame.
  destruct (isDigitOrDot c); [ | exact IH].
  rewrite (Hfix eq_refl), IH. reflexivity.
Qed.

Lemma EqualFold_filtered (s t : string) :
  Strings.EqualFold s t = true -> FilterDigitsAndDots s = FilterDigitsAndDots t.
Proof.
  unfold Strings.EqualFold. intros E. apply String.eqb_eq in E.
  rewrite <- (FilterDigitsAndDots_ToLower s), <- (FilterDigitsAndDots_ToLower t). now rewrite E.
Qed.

Section Recommendation.
Context `{K8sCommon}.

Lemma pickRequested_first (reqVersion : string)
    (pre post : list K8sClusterVersionDetailAvailable.t) (e : K8sClusterVersionDetailAvailable.t)
    (recVersion : string) (acc : list string) :
  Forall (fun x => answers reqVersion x = false) pre ->
  answers reqVersion e = true ->
  pickRequested reqVersion (pre ++ e :: post) recVersion acc =
    (answerOf reqVersion e, acc ++ idsOf pre ++ [K8sClusterVersionDetailAvailable.Id e]).
Proof.
  intros Hpre He. revert acc.
  induction pre as [ | x pre IH]; intros acc; cbn [app pickRequested idsOf map].
  - unfold answers, answerOf in *.
    destruct (Strings.EqualFold reqVersion (K8sClusterVersionDetailAvailable.Id e)); [reflexivity | ].
    cbn in He. now rewrite He.
  - inversion Hpre as [ | ? ? Hx Hrest]; subst.
    unfold answers in Hx. apply orb_false_iff in Hx. destruct Hx as [Hx1 Hx2].
    rewrite Hx1, Hx2, (IH Hrest). unfold idsOf. now rewrite <- app_assoc.
Qed.

Lemma pickRequested_none (reqVersion : string) (table : list K8sClusterVersionDetailAvailable.t)
    (recVersion : string) (acc : list string) :
  Forall (fun x => answers reqVersion x = false) table ->
  pickRequested reqVersion table recVersion acc = (recVersion, acc ++ idsOf table).
Proof.
  intros Hall. revert acc.
  induction table as [ | x table IH]; intros acc; cbn [pickRequested idsOf map].
  - now rewrite app_nil_r.
  - inversion Hall as [ | ? ? Hx Hrest]; subst.
    unfold answers in Hx. apply orb_false_iff in Hx. destruct Hx as [Hx1 Hx2].
    rewrite Hx1, Hx2, (IH Hrest). unfold idsOf. now rewrite <- app_assoc.
Qed.

Lemma pickHighest_ids (table : list K8sClusterVersionDetailAvailable.t)
    (recVersion : string) (acc : list string) :
  snd (pickHighest table recVersion acc) = acc ++ idsOf table.
Proof.
  revert recVersion acc.
  induction table as [ | x table IH]; intros recVersion acc; cbn [pickHighest idsOf map].
  - now rewrite app_nil_r.
  - destruct (CompareVersions _ _ <? 0)%Z; rewrite IH; unfold idsOf; now rewrite <- app_assoc.
Qed.

Lemma pickHighest_acc (table : list K8sClusterVersionDetailAvailable.t)
    (recVersion : string) (acc acc' : list string) :
  fst (pickHighest table recVersion acc) = fst (pickHighest table recVersion acc').
Proof.
  revert recVersion acc acc'.
  induction table as [ | x table IH]; intros recVersion acc acc'; cbn [pickHighest]; [reflexivity | ].
  destruct (CompareVersions _ _ <? 0)%Z; apply IH.
Qed.

Lemma pickHighest_max (table : list K8sClusterVersionDetailAvailable.t)
    (recVersion : string) (acc : list string) :
  strictWeakOrder ->
  let r := fst (pickHighest table recVersion acc) in
  (r = recVersion \/ In r (idsOf table)) /\
  ~ below r recVersion /\
  (forall x, In x (idsOf table) -> ~ below r x).
Proof.
  intros (below_irrefl & below_trans & below_neg_trans).
  cbv zeta. revert recVersion acc.
  induction table as [ | x table IH]; intros recVersion acc; cbn [pickHighest idsOf map fst].
  - split; [now left | ]. split; [apply below_irrefl | intros ? []].
  - destruct (Z.ltb_spec (CompareVersions (FilterDigitsAndDots recVersion)
                            (FilterDigitsAndDots (K8sClusterVersionDetailAvailable.Id x))) 0)
      as [Hlt | Hge].
    + destruct (IH (K8sClusterVersionDetailAvailable.Id x)
                   (acc ++ [K8sClusterVersionDetailAvailable.Id x])) as (Hin & Hx & Hall).
      split; [right; destruct Hin as [-> | Hin]; [now left | now right] | ].
      split.
      * intros Hb. apply Hx. eapply below_trans; [exact Hb | exact Hlt].
      * intros y [<- | Hy]; [exact Hx | now apply Hall].
    + destruct (IH recVersion (acc ++ [K8sClusterVersionDetailAvailable.Id x])) as (Hin & Hr & Hall).
      split; [destruct Hin as [-> | Hin]; [now left | right; now right] | ].
      split; [exact Hr | ].
      intros y [<- | Hy]; [ | now apply Hall].
      eapply below_neg_trans; [exact Hr | ]. unfold below. lia.
Qed.

(** Without an id above the placeholder the loop keeps the
    placeholder. *)
Lemma pickHighest_none (table : list K8sClusterVersionDetailAvailable.t)
    (recVersion : string) (acc : list string) :
  (forall x, In x (idsOf table) -> ~ below recVersion x) ->
  fst (pickHighest table recVersion acc) = recVersion.
Proof.
  revert acc. induction table as [ | x table IH]; intros acc Hall; cbn [pickHighest fst];
    [reflexivity | ].
  destruct (Z.ltb_spec (CompareVersions (FilterDigitsAndDots recVersion)
                          (FilterDigitsAndDots (K8sClusterVersionDetailAvailable.Id x))) 0)
    as [Hlt | Hge].
  - exfalso. apply (Hall (K8sClusterVersionDetailAvailable.Id x)); [now left | exact Hlt].
  - apply IH. intros y Hy. apply Hall. now right.
Qed.


End Recommendation.

Lemma compareByDigits_order : strictWeakOrder (H := K8sSamples.nhncloud).
Proof.
  unfold strictWeakOrder, below. cbn [CompareVersions K8sSamples.nhncloud].
  unfold K8sSamples.compareByDigits.
  repeat split; intros; lia.
Qed.



End K8sFacts.

(** ** MCIS status derivation *)

Module StatusFacts.

Import mcis StatusViews.
Local Open Scope list_scope.
Local Open Scope nat_scope.

Lemma statusSlot_lt (s : string) : statusSlot s < 10.
Proof.
  unfold statusSlot.
  repeat match goal with |- context [if ?b then _ else _] => destruct b end; lia.
Qed.

Lemma bump_length (i : nat) (flags : list nat) : length (bump i flags) = length flags.
Proof. unfold bump. apply length_insert. Qed.

Lemma bump_nth (i j : nat) (flags : list nat) :
  i < length flags ->
  nth j (bump i flags) 0 = if Nat.eqb j i then S (nth j flags 0) else nth j flags 0.
Proof.
  intros Hi. unfold bump. rewrite !nth_lookup.
  destruct (Nat.eqb_spec j i) as [-> | Hne].
  - rewrite list_lookup_insert_eq by exact Hi. reflexivity.
  - rewrite list_lookup_insert_ne by congruence. reflexivity.
Qed.

Lemma fold_bump (vms : list TbVmStatusInfo.t) (flags : list nat) (j : nat) :
  length flags = 10 ->
  let flags' := fold_left (fun statusFlag v => bump (statusSlot (TbVmStatusInfo.Status v)) statusFlag)
                  vms flags in
  length flags' = 10 /\ nth j flags' 0 = nth j flags 0 + slotCount j vms.
Proof.
  cbv zeta. revert flags.
  induction vms as [ | v vms IH]; intros flags Hlen; cbn [fold_left].
  - unfold slotCount. cbn. split; [exact Hlen | lia].
  - pose proof (statusSlot_lt (TbVmStatusInfo.Status v)) as Hs.
    destruct (IH (bump (statusSlot (TbVmStatusInfo.Status v)) flags)) as [Hl Hn].
    { rewrite bump_length. exact Hlen. }
    split; [exact Hl | ].
    rewrite Hn, bump_nth by lia.
    unfold slotCount. cbn [List.filter].
    rewrite (Nat.eqb_sym j).
    destruct (Nat.eqb (statusSlot (TbVmStatusInfo.Status v)) j); cbn [length]; lia.
Qed.

Lemma countStatus_length (vms : list TbVmStatusInfo.t) : length (countStatus vms) = 10.
Proof.
  unfold countStatus.
  destruct (fold_bump vms [0; 0; 0; 0; 0; 0; 0; 0; 0; 0] 0 eq_refl) as [Hl _]. exact Hl.
Qed.

Lemma countStatus_nth (vms : list TbVmStatusInfo.t) (j : nat) :
  nth j (countStatus vms) 0 = slotCount j vms.
Proof.
  unfold countStatus.
  destruct (fold_bump vms [0; 0; 0; 0; 0; 0; 0; 0; 0; 0] j eq_refl) as [_ Hn].
  rewrite Hn. do 10 (destruct j as [ | j]; [reflexivity | ]). destruct j; reflexivity.
Qed.

(** Every VM falls into exactly one slot. *)
Lemma slotCount_total (vms : list TbVmStatusInfo.t) :
  slotCount 0 vms + slotCount 1 vms + slotCount 2 vms + slotCount 3 vms + slotCount 4 vms +
  slotCount 5 vms + slotCount 6 vms + slotCount 7 vms + slotCount 8 vms + slotCount 9 vms
  = length vms.
Proof.
  induction vms as [ | v vms IH]; [reflexivity | ].
  pose proof (statusSlot_lt (TbVmStatusInfo.Status v)) as Hs.
  unfold slotCount in *. cbn [List.filter length].
  destruct (statusSlot (TbVmStatusInfo.Status v)) as [ | k]; [cbn; lia | ].
  do 9 (destruct k as [ | k]; [cbn; lia | ]). lia.
Qed.

Lemma slotCount_le (vms : list TbVmStatusInfo.t) (i : nat) : slotCount i vms <= length vms.
Proof. unfold slotCount. apply List.filter_length_le. Qed.

(** The loop keeps the first position of the largest counter. *)
Lemma maxLoop_spec (flags : list nat) (i m k : nat) :
  let '(m', k') := maxLoop i flags m k in
  (forall j, j < length flags -> nth j flags 0 <= m') /\
  ((m' = m /\ k' = k) \/
   (m < m' /\ i <= k' < i + length flags /\ nth (k' - i) flags 0 = m' /\
    forall j, j < k' - i -> nth j flags 0 < m')).
Proof.
  revert i m k.
  induction flags as [ | v rest IH]; intros i m k; cbn [maxLoop].
  - split; [intros j Hj; cbn in Hj; lia | now left].
  - destruct (Nat.ltb_spec m v) as [Hlt | Hge].
    + specialize (IH (S i) v i). destruct (maxLoop (S i) rest v i) as [m' k'].
      destruct IH as [Hall Hcase]. split.
      * intros [ | j] Hj; cbn in Hj |- *.
        -- destruct Hcase as [[-> _] | [Hv _]]; lia.
        -- apply Hall. lia.
      * right. destruct Hcase as [[-> ->] | (Hv & Hk & Hn & Hbefore)].
        -- split; [exact Hlt | ]. cbn [length]. split; [lia | ].
           rewrite Nat.sub_diag. cbn. split; [reflexivity | intros j Hj; lia].
        -- split; [lia | ]. cbn [length]. split; [lia | ].
           replace (k' - i) with (S (k' - S i)) by lia. cbn [nth]. split; [exact Hn | ].
           intros [ | j] Hj; cbn; [lia | apply Hbefore; lia].
    + specialize (IH (S i) m k). destruct (maxLoop (S i) rest m k) as [m' k'].
      destruct IH as [Hall Hcase]. split.
      * intros [ | j] Hj; cbn in Hj |- *.
        -- destruct Hcase as [[-> _] | [Hv _]]; lia.
        -- apply Hall. lia.
      * destruct Hcase as [[-> ->] | (Hv & Hk & Hn & Hbefore)]; [now left | right].
        split; [exact Hv | ]. cbn [length]. split; [lia | ].
        replace (k' - i) with (S (k' - S i)) by lia. cbn [nth]. split; [exact Hn | ].
        intros [ | j] Hj; cbn; [lia | apply Hbefore; lia].
Qed.

(** The dominant slot of the counters of a VM list. *)
Lemma dominant_slot (vms : list TbVmStatusInfo.t) :
  let '(tmpMax, tmpMaxIndex) := maxLoop 0 (countStatus vms) 0 0 in
  tmpMaxIndex < 10 /\
  slotCount tmpMaxIndex vms = tmpMax /\
  (forall j, j < 10 -> slotCount j vms <= tmpMax) /\
  (forall j, j < tmpMaxIndex -> slotCount j vms < tmpMax) /\
  tmpMax <= length vms.
Proof.
  pose proof (maxLoop_spec (countStatus vms) 0 0 0) as Hspec.
  pose proof (countStatus_length vms) as Hlen.
  destruct (maxLoop 0 (countStatus vms) 0 0) as [m k].
  destruct Hspec as [Hall Hcase]. rewrite Hlen in *.
  assert (Hall' : forall j, j < 10 -> slotCount j vms <= m).
  { intros j Hj. rewrite <- countStatus_nth. now apply Hall. }
  destruct Hcase as [[-> ->] | (Hpos & Hk & Hn & Hbefore)].
  - split; [lia | ]. split; [specialize (Hall' 0); lia | ].
    split; [exact Hall' | ]. split; lia.
  - rewrite Nat.sub_0_r in *. rewrite countStatus_nth in Hn.
    split; [lia | ]. split; [exact Hn | ]. split; [exact Hall' | ].
    split.
    + intros j Hj. rewrite <- countStatus_nth. now apply Hbefore.
    + rewrite <- Hn. apply slotCount_le.
Qed.

(** The slot that the switch of [GetMcisStatus] increments for a VM is
    the slot of the state the VM is counted under. *)
Lemma kindOf_nth (v : TbVmStatusInfo.t) :
  kindOf v = nth (statusSlot (TbVmStatusInfo.Status v)) statusFlagStr "".
Proof.
  unfold kindOf, statusSlot, vmStates, StatusFailed, StatusSuspended, StatusRunning,
    StatusTerminated, StatusCreating, StatusSuspending, StatusResuming, StatusRebooting,
    StatusTerminating.
  cbn [existsb].
  repeat match goal with
         | |- context [String.eqb (TbVmStatusInfo.Status v) ?s] =>
             destruct (String.eqb_spec (TbVmStatusInfo.Status v) s) as [-> | ?]
         end;
    cbn [orb]; try reflexivity; congruence.
Qed.

Lemma kindOf_slot (v : TbVmStatusInfo.t) (i : nat) :
  i < 10 ->
  String.eqb (kindOf v) (nth i statusFlagStr "") = Nat.eqb (statusSlot (TbVmStatusInfo.Status v)) i.
Proof.
  intros Hi. rewrite kindOf_nth.
  pose proof (statusSlot_lt (TbVmStatusInfo.Status v)) as Hs.
  destruct (statusSlot (TbVmStatusInfo.Status v)) as [ | k];
    [do 10 (destruct i as [ | i]; [reflexivity | ]); lia | ].
  do 9 (destruct k as [ | k]; [do 10 (destruct i as [ | i]; [reflexivity | ]); lia | ]).
  lia.
Qed.

Lemma numOf_slot (vms : list TbVmStatusInfo.t) (i : nat) :
  i < 10 -> numOf (nth i statusFlagStr "") vms = slotCount i vms.
Proof.
  intros Hi. unfold numOf, slotCount. f_equal.
  induction vms as [ | v vms IH]; [reflexivity | ].
  cbn [List.filter]. rewrite kindOf_slot by exact Hi.
  destruct (Nat.eqb (statusSlot (TbVmStatusInfo.Status v)) i); now rewrite IH.
Qed.

Lemma In_statusFlagStr (s : string) :
  In s statusFlagStr <-> exists i, i < 10 /\ nth i statusFlagStr "" = s.
Proof.
  split.
  - intros Hin. apply (In_nth _ _ "") in Hin. destruct Hin as (i & Hi & Hn).
    exists i. split; [exact Hi | exact Hn].
  - intros (i & Hi & <-). apply nth_In. exact Hi.
Qed.

Lemma slotCount_two (vms : list TbVmStatusInfo.t) (i k : nat) :
  i <> k -> slotCount i vms + slotCount k vms <= length vms.
Proof.
  intros Hne. unfold slotCount.
  induction vms as [ | v vms IH]; [cbn; lia | ].
  cbn [List.filter length].
  destruct (Nat.eqb_spec (statusSlot (TbVmStatusInfo.Status v)) i) as [Hi | Hi];
    destruct (Nat.eqb_spec (statusSlot (TbVmStatusInfo.Status v)) k) as [Hk | Hk];
    cbn [length]; lia.
Qed.

Lemma slotCount_all (vms : list TbVmStatusInfo.t) (i : nat) :
  (forall v, In v vms -> statusSlot (TbVmStatusInfo.Status v) = i) ->
  slotCount i vms = length vms.
Proof.
  intros Hall. unfold slotCount.
  induction vms as [ | v vms IH]; [reflexivity | ].
  cbn [List.filter length]. rewrite (Hall v (or_introl eq_refl)), Nat.eqb_refl.
  cbn [length]. rewrite IH; [reflexivity | ]. intros w Hw. apply Hall. now right.
Qed.

(** C5: the status text of an MCIS is a function of how many of its VMs
    are in each state (a VM whose status is none of the ten state names
    counts as [Undefined]).  With [F] failed VMs out of [n] and [r]
    running ones: if [F] is positive the text is ["Failed:F (R:r/n)"] when
    [F = n] and ["Partial-Failed:F (R:r/n)"] otherwise; if no VM failed,
    the text names the dominant state [d], the first state in the order
    of [vmStates] with the largest count [c]: ["d:c (R:r/n)"] when every
    VM is in state [d], and ["Partial-d:c (R:r/n)"] otherwise. *)
Theorem mcis_status_derivation (vms : list TbVmStatusInfo.t) :
  let n := length vms in
  let F := numOf "Failed" vms in
  let r := numOf "Running" vms in
  F <= n /\
  (0 < F -> F = n -> mcisStatusOf vms = "Failed" +:+ proportion F r n) /\
  (0 < F -> F < n -> mcisStatusOf vms = "Partial-Failed" +:+ proportion F r n) /\
  (F = 0 ->
     exists d,
       In d vmStates /\
       (forall s, In s vmStates -> numOf s vms <= numOf d vms) /\
       (forall i j, i < 10 -> nth i vmStates "" = d -> j < i ->
                    numOf (nth j vmStates "") vms < numOf d vms) /\
       (numOf d vms = n -> mcisStatusOf vms = d +:+ proportion n r n) /\
       (numOf d vms < n -> mcisStatusOf vms = "Partial-" +:+ d +:+ proportion (numOf d vms) r n)) /\
  (forall d, vms <> [] -> (forall v, In v vms -> kindOf v = d) ->
             mcisStatusOf vms = d +:+ proportion n r n).
Proof.
  cbv zeta.
  change vmStates with statusFlagStr.
  change (numOf "Failed" vms) with (numOf StatusFailed vms).
  change (numOf "Running" vms) with (numOf StatusRunning vms).
  assert (HF : numOf StatusFailed vms = slotCount 0 vms) by (apply (numOf_slot vms 0); lia).
  assert (HR : numOf StatusRunning vms = slotCount 2 vms) by (apply (numOf_slot vms 2); lia).
  rewrite HF, HR.
  pose proof (dominant_slot vms) as Hdom.
  unfold mcisStatusOf, statusText.
  destruct (maxLoop 0 (countStatus vms) 0 0) as [m k].
  destruct Hdom as (Hk & Hm & Hall & Hfirst & Hle).
  rewrite !countStatus_nth.
  fold (proportion m (slotCount 2 vms) (length vms)).
  fold (proportion (slotCount 0 vms) (slotCount 2 vms) (length vms)).
  split; [apply slotCount_le | ].
  split; [ | split; [ | split]].
  - intros Hpos Hn.
    apply Nat.ltb_lt in Hpos. rewrite Hpos.
    rewrite <- Hn at 1. rewrite Nat.eqb_refl. rewrite <- Hn. reflexivity.
  - intros Hpos Hn.
    apply Nat.ltb_lt in Hpos. pose proof Hn as Hn'. apply Nat.lt_neq, Nat.eqb_neq in Hn'.
    rewrite Hpos, Hn'. reflexivity.
  - intros Hzero. rewrite Hzero, Nat.ltb_irrefl.
    exists (nth k statusFlagStr "").
    rewrite (numOf_slot vms k Hk), Hm.
    split; [apply nth_In; exact Hk | ].
    split.
    { intros s Hs. apply In_statusFlagStr in Hs. destruct Hs as (i & Hi & <-).
      rewrite numOf_slot by exact Hi. now apply Hall. }
    split.
    { intros i j Hi Heq Hj.
      assert (i = k).
      { apply (NoDup_nth statusFlagStr ""); try (cbn; lia); try exact Heq.
        repeat constructor; cbn; intuition discriminate. }
      subst i. rewrite numOf_slot by lia. now apply Hfirst. }
    split.
    { intros Hn. rewrite Hn, Nat.eqb_refl. reflexivity. }
    { intros Hn. pose proof Hn as Hn'. apply Nat.lt_neq, Nat.eqb_neq in Hn'.
      rewrite Hn'. apply Nat.ltb_lt in Hn. rewrite Hn. reflexivity. }
  - intros d Hne Hsame.
    destruct vms as [ | v0 vms']; [contradiction | ].
    set (vms := v0 :: vms') in *.
    set (i := statusSlot (TbVmStatusInfo.Status v0)).
    assert (Hi : i < 10) by apply statusSlot_lt.
    assert (Hd : d = nth i statusFlagStr "").
    { rewrite <- (Hsame v0 (or_introl eq_refl)). apply kindOf_nth. }
    assert (Hslots : forall v, In v vms -> statusSlot (TbVmStatusInfo.Status v) = i).
    { intros v Hv. apply Nat.eqb_eq. rewrite <- kindOf_slot by exact Hi.
      rewrite (Hsame v Hv), Hd. apply String.eqb_refl. }
    pose proof (slotCount_all vms i Hslots) as Hin.
    assert (Hlen : 0 < length vms) by (cbn; lia).
    assert (Hmn : m = length vms) by (specialize (Hall i Hi); lia).
    assert (Hki : k = i).
    { destruct (Nat.eq_dec k i) as [ | Hne']; [assumption | ].
      pose proof (slotCount_two vms i k ltac:(congruence)). lia. }
    subst k. rewrite Hmn, Nat.eqb_refl.
    destruct (Nat.eq_dec i 0) as [Hz | Hnz].
    + rewrite Hz in *. rewrite Hin. apply Nat.ltb_lt in Hlen. rewrite Hlen, Nat.eqb_refl.
      rewrite Hd. reflexivity.
    + assert (Hf0 : slotCount 0 vms = 0).
      { pose proof (slotCount_two vms i 0 Hnz). lia. }
      rewrite Hf0, Nat.ltb_irrefl, Hd. reflexivity.
Qed.

(** One failed and one running VM: ["Partial-Failed:1 (R:1/2)"]. *)
Lemma mcis_status_derivation_witness :
  let vms := [vmWithStatus StatusFailed; vmWithStatus StatusRunning] in
  0 < numOf "Failed" vms /\ numOf "Failed" vms < length vms /\
  mcisStatusOf vms = "Partial-Failed:1 (R:1/2)".
Proof.
  cbv zeta. split; [vm_compute; lia | ]. split; [vm_compute; lia | ].
  apply (proj1 (proj2 (proj2
           (mcis_status_derivation [vmWithStatus StatusFailed; vmWithStatus StatusRunning]))));
    vm_compute; lia.
Defined.

End StatusFacts.

(** ** VM status reconciliation *)

Module ReconcileFacts.

Import mcis StatusViews McisViews.
Local Open Scope list_scope.

Section Reconcile.
Context {C : Type} `{Env C}.

Lemma GetVmObject_same_kvs (nsId mcisId vmId : string) (w w' : World C) :
  kvs w' = kvs w -> GetVmObject nsId mcisId vmId w' = GetVmObject nsId mcisId vmId w.
Proof. intros E. unfold GetVmObject. now rewrite E. Qed.

Lemma GetVmCurrentPublicIp_kvs (nsId mcisId vmId : string) (w : World C) :
  kvs (snd (GetVmCurrentPublicIp nsId mcisId vmId w)) = kvs w.
Proof.
  unfold GetVmCurrentPublicIp.
  destruct (kvs w !! GenMcisKey nsId mcisId vmId) as [[m | temp | raw] | ]; try reflexivity.
  destruct (String.eqb (TbVmInfo.CspVmNameId temp) ""); [reflexivity | ].
  destruct (SpiderVm _ _ (csp w)) as [[[[pub priv] ssh] | e] c']; reflexivity.
Qed.

Lemma GetVmCurrentPublicIp_Ok (nsId mcisId vmId : string) (w w' : World C) (info : TbVmStatusInfo.t) :
  GetVmCurrentPublicIp nsId mcisId vmId w = (Ok info, w') ->
  exists stored, kvs w !! GenMcisKey nsId mcisId vmId = Some (VmCell stored) /\
    TbVmInfo.CspVmNameId stored <> "" /\
    exists pub priv ssh c',
      SpiderVm (TbVmInfo.CspVmNameId stored) (TbVmInfo.ConnectionName stored) (csp w)
        = (Ok (pub, priv, ssh), c') /\
      TbVmStatusInfo.PublicIp info = pub /\ TbVmStatusInfo.SSHPort info = TrimIP ssh /\
      w' = mkWorld (kvs w) c'.
Proof.
  unfold GetVmCurrentPublicIp.
  destruct (kvs w !! GenMcisKey nsId mcisId vmId) as [[m | temp | raw] | ]; try discriminate.
  destruct (String.eqb_spec (TbVmInfo.CspVmNameId temp) "") as [Hz | Hnz]; [discriminate | ].
  destruct (SpiderVm _ _ (csp w)) as [[[[pub priv] ssh] | e] c'] eqn:Es; [ | discriminate].
  intros [= <- <-]. exists temp. split; [reflexivity | ]. split; [exact Hnz | ].
  exists pub, priv, ssh, c'. split; [exact Es | repeat split; reflexivity].
Qed.

(** After [UpdateVmInfo], an existing record holds the new value. *)
Lemma UpdateVmInfo_lookup (nsId mcisId : string) (vmInfoData : TbVmInfo.t) (w : World C) :
  is_Some (kvs w !! GenMcisKey nsId mcisId (TbVmInfo.Id vmInfoData)) ->
  (forall m, kvs w !! GenMcisKey nsId mcisId (TbVmInfo.Id vmInfoData) <> Some (McisCell m)) ->
  (forall raw, kvs w !! GenMcisKey nsId mcisId (TbVmInfo.Id vmInfoData) = Some (JunkCell raw) ->
               vmInfoData <> TbVmInfo.zero) ->
  kvs (UpdateVmInfo nsId mcisId vmInfoData w) !! GenMcisKey nsId mcisId (TbVmInfo.Id vmInfoData)
    = Some (VmCell vmInfoData).
Proof.
  intros [cell Hc] Hm Hj. unfold UpdateVmInfo. rewrite Hc.
  destruct cell as [m | v | raw].
  - exfalso. apply (Hm m). exact Hc.
  - destruct (decide (v = vmInfoData)) as [-> | Hne]; [exact Hc | ].
    cbn [kvs]. apply lookup_insert_eq.
  - destruct (decide (TbVmInfo.zero = vmInfoData)) as [Hz | Hne].
    + exfalso. apply (Hj raw Hc). now symmetry.
    + cbn [kvs]. apply lookup_insert_eq.
Qed.

Lemma UpdateVmInfo_other (nsId mcisId : string) (vmInfoData : TbVmInfo.t) (w : World C) (k : string) :
  k <> GenMcisKey nsId mcisId (TbVmInfo.Id vmInfoData) ->
  kvs (UpdateVmInfo nsId mcisId vmInfoData w) !! k = kvs w !! k.
Proof.
  intros Hne. unfold UpdateVmInfo.
  destruct (kvs w !! GenMcisKey nsId mcisId (TbVmInfo.Id vmInfoData)) as [cell | ]; [ | reflexivity].
  destruct (decide _); [reflexivity | ].
  cbn [kvs]. apply lookup_insert_ne. congruence.
Qed.

Lemma UpdateVmInfo_csp (nsId mcisId : string) (vmInfoData : TbVmInfo.t) (w : World C) :
  csp (UpdateVmInfo nsId mcisId vmInfoData w) = csp w.
Proof.
  unfold UpdateVmInfo.
  destruct (kvs w !! _) as [cell | ]; [ | reflexivity].
  destruct (decide _); reflexivity.
Qed.

(** [FetchVmStatus] up to its last part. *)
Lemma FetchVmStatus_run (nsId mcisId vmId : string) (w : World C) (temp : TbVmInfo.t) :
  GetVmObject nsId mcisId vmId w = Ok temp ->
  withoutCspId temp = false ->
  let native := fst (polled temp (csp w)) in
  let w1 := mkWorld (kvs w) (snd (polled temp (csp w))) in
  exists errorInfo,
    FetchVmStatus nsId mcisId vmId w =
      finalizeVmStatus nsId mcisId (TbVmInfo.CspVmNameId temp) errorInfo temp
        (TbVmStatusInfo.mk (TbVmInfo.Id temp) (TbVmInfo.Name temp) (TbVmInfo.CspVmNameId temp)
           (reconciledStatus temp native)
           (TbVmInfo.TargetStatus temp) (TbVmInfo.TargetAction temp) native
           (TbVmInfo.MonAgentStatus temp) (TbVmInfo.SystemMessage temp)
           (TbVmInfo.CreatedTime temp) "" (TbVmInfo.PrivateIP temp) ""
           (TbVmInfo.Location temp)) w1.
Proof.
  intros Hget Hgate. cbv zeta. unfold FetchVmStatus. rewrite Hget.
  unfold withoutCspId in Hgate. rewrite Hgate.
  unfold polled.
  destruct (negb (String.eqb (TbVmInfo.Status temp) StatusTerminated)
            && negb (String.eqb (TbVmInfo.CspVmNameId temp) "")).
  - cbn [TbVmStatusInfo.SystemMessage].
    destruct (pollVmStatus 2 _ _ _ (csp w)) as [[status sysMsg] c'].
    cbn [fst snd].
    rewrite (GetVmObject_same_kvs nsId mcisId vmId w (mkWorld (kvs w) c') eq_refl), Hget.
    eexists. reflexivity.
  - cbn [fst snd].
    rewrite (GetVmObject_same_kvs nsId mcisId vmId w (mkWorld (kvs w) (csp w)) eq_refl), Hget.
    eexists. reflexivity.
Qed.

End Reconcile.

Section Completion.
Context {C : Type} `{Env C}.

(** C7, as amended.  When the reconciled status of a VM equals its
    target status and that status is not [Terminated], the reconciler
    sets target status and target action to Complete and asks Spider
    again for the public IP and the SSH port; if that call succeeds the
    answer goes into the result and, for a VM with a CSP id, into the
    stored record, which then also carries Complete; if it fails,
    [FetchVmStatus] fails with that error and the store is as it was.
    When the target status is [Terminated], target status and action
    stay [Terminated] and [Terminate], and the address is not read
    again. *)
Theorem reconcile_completion (nsId mcisId vmId : string) (w : World C) (temp : TbVmInfo.t)
    (Hget : GetVmObject nsId mcisId vmId w = Ok temp)
    (Hgate : withoutCspId temp = false)
    (Hmatch : reconciledStatus temp (fst (polled temp (csp w))) = TbVmInfo.TargetStatus temp) :
  let w1 := mkWorld (kvs w) (snd (polled temp (csp w))) in
  let key := GenMcisKey nsId mcisId (TbVmInfo.Id temp) in
  (TbVmInfo.TargetStatus temp <> StatusTerminated ->
     (forall info w2,
        GetVmCurrentPublicIp nsId mcisId (TbVmInfo.Id temp) w1 = (Ok info, w2) ->
        exists r w3,
          FetchVmStatus nsId mcisId vmId w = ((r, None), w3) /\
          TbVmStatusInfo.TargetStatus r = StatusComplete /\
          TbVmStatusInfo.TargetAction r = ActionComplete /\
          TbVmStatusInfo.Status r = TbVmInfo.TargetStatus temp /\
          TbVmStatusInfo.PublicIp r = TbVmStatusInfo.PublicIp info /\
          TbVmStatusInfo.SSHPort r = TbVmStatusInfo.SSHPort info /\
          csp w3 = csp w2 /\
          (forall k, k <> key -> kvs w3 !! k = kvs w !! k) /\
          (TbVmInfo.CspVmNameId temp <> "" ->
             exists stored,
               kvs w3 !! key = Some (VmCell stored) /\
               TbVmInfo.TargetStatus stored = StatusComplete /\
               TbVmInfo.TargetAction stored = ActionComplete /\
               TbVmInfo.Status stored = TbVmInfo.TargetStatus temp /\
               TbVmInfo.PublicIP stored = TbVmStatusInfo.PublicIp info /\
               TbVmInfo.SSHPort stored = TbVmStatusInfo.SSHPort info) /\
          (TbVmInfo.CspVmNameId temp = "" -> kvs w3 = kvs w)) /\
     (forall e w2,
        GetVmCurrentPublicIp nsId mcisId (TbVmInfo.Id temp) w1 = (Err e, w2) ->
        exists r, FetchVmStatus nsId mcisId vmId w = ((r, Some e), w2) /\ kvs w2 = kvs w)) /\
  (TbVmInfo.TargetStatus temp = StatusTerminated ->
     exists r w3,
       FetchVmStatus nsId mcisId vmId w = ((r, None), w3) /\
       TbVmStatusInfo.TargetStatus r = StatusTerminated /\
       TbVmStatusInfo.TargetAction r = ActionTerminate /\
       TbVmStatusInfo.Status r = StatusTerminated /\
       TbVmStatusInfo.PublicIp r = TbVmInfo.PublicIP temp /\
       TbVmStatusInfo.SSHPort r = TbVmInfo.SSHPort temp /\
       csp w3 = csp w1).
Proof.
  cbv zeta.
  destruct (FetchVmStatus_run nsId mcisId vmId w temp Hget Hgate) as [errorInfo Hrun].
  cbv zeta in Hrun. rewrite Hrun, Hmatch. clear Hrun.
  set (w1 := mkWorld (kvs w) (snd (polled temp (csp w)))).
  assert (Hkw : kvs w1 = kvs w) by reflexivity.
  clearbody w1. clear Hget Hgate Hmatch.
  destruct temp as [tid tname tconn tcsp tpub tssh tpriv tstatus ttarget taction tloc tmon
                      tcreated tmsg timg tkey tvnet tsgs tdisks].
  unfold finalizeVmStatus.
  cbn [TbVmInfo.Id TbVmInfo.TargetStatus TbVmInfo.CspVmNameId TbVmInfo.PublicIP TbVmInfo.SSHPort
       TbVmStatusInfo.TargetStatus TbVmStatusInfo.Status].
  rewrite String.eqb_refl.
  split.
  - intros Hnt. apply String.eqb_neq in Hnt. rewrite Hnt. cbn [negb]. split.
    + intros info w2 Hip. rewrite Hip.
      pose proof (GetVmCurrentPublicIp_kvs nsId mcisId tid w1) as Hk.
      rewrite Hip in Hk. cbn [snd] in Hk.
      destruct (GetVmCurrentPublicIp_Ok _ _ _ _ _ _ Hip) as (stored0 & Hst & _).
      set (temp' := TbVmInfo.set_SystemMessage _ _).
      assert (Hid : TbVmInfo.Id temp' = tid) by reflexivity.
      eexists. eexists. split; [reflexivity | ].
      split; [reflexivity | ]. split; [reflexivity | ]. split; [reflexivity | ].
      split; [reflexivity | ]. split; [reflexivity | ].
      split.
      { destruct (negb (String.eqb tcsp "")); [ | reflexivity].
        apply UpdateVmInfo_csp. }
      split.
      { intros k Hk'.
        destruct (negb (String.eqb tcsp "")).
        - rewrite UpdateVmInfo_other by (rewrite Hid; exact Hk'). now rewrite Hk, Hkw.
        - now rewrite Hk, Hkw. }
      split.
      { intros Hcsp. apply String.eqb_neq in Hcsp. rewrite Hcsp. cbn [negb].
        exists temp'. split.
        - rewrite <- Hid. apply UpdateVmInfo_lookup; rewrite Hid, Hk.
          + rewrite Hst. eauto.
          + intros m. rewrite Hst. discriminate.
          + intros raw. rewrite Hst. discriminate.
        - subst temp'. repeat split; reflexivity. }
      { intros Hcsp. rewrite Hcsp. cbn [String.eqb negb]. now rewrite Hk. }
    + intros e w2 Hip. rewrite Hip.
      pose proof (GetVmCurrentPublicIp_kvs nsId mcisId tid w1) as Hk.
      rewrite Hip in Hk. cbn [snd] in Hk.
      eexists. split; [reflexivity | now rewrite Hk].
  - intros Ht. rewrite Ht, String.eqb_refl. cbn [negb].
    eexists. eexists. split; [reflexivity | ].
    split; [reflexivity | ]. split; [reflexivity | ]. split; [reflexivity | ].
    split; [reflexivity | ]. split; [reflexivity | ].
    destruct (negb (String.eqb tcsp "")); [ | reflexivity].
    apply UpdateVmInfo_csp.
Qed.

End Completion.

Lemma reconcile_completion_witness :
  exists r w3,
    FetchVmStatus (H := McisSamples.cloud "Running") "demo" "m1" "vm1" McisSamples.creatingWorld
      = ((r, None), w3) /\
    TbVmStatusInfo.TargetStatus r = StatusComplete /\
    TbVmStatusInfo.TargetAction r = ActionComplete /\
    TbVmStatusInfo.PublicIp r = "3.35.1.7" /\
    TbVmStatusInfo.SSHPort r = "22".
Proof.
  destruct (reconcile_completion (H := McisSamples.cloud "Running") "demo" "m1" "vm1"
              McisSamples.creatingWorld (McisSamples.vm1 "Creating" "Running" "Create")
              eq_refl eq_refl eq_refl) as [Hdone _].
  destruct (Hdone ltac:(discriminate)) as [Hok _].
  destruct (Hok (TbVmStatusInfo.mk "" "" "" "" "" "" "" "" "" "" "3.35.1.7" "10.0.0.4" "22" "")
              McisSamples.creatingWorld eq_refl)
    as (r & w3 & Hrun & Hts & Hta & _ & Hip & Hport & _).
  exists r, w3. repeat split; assumption.
Defined.

(** C7 as stated fails for a VM that is being terminated: its reconciled
    status [Terminated] equals its target status, yet the target status
    is not set to Complete (and the target action stays [Terminate]). *)
Lemma reconcile_counterexample :
  GetVmObject (H := McisSamples.cloud "Terminated") "demo" "m1" "vm1" McisSamples.terminatingWorld
    = Ok (McisSamples.vm1 "Terminating" "Terminated" "Terminate") /\
  reconciledStatus (McisSamples.vm1 "Terminating" "Terminated" "Terminate")
    (fst (polled (H := McisSamples.cloud "Terminated")
            (McisSamples.vm1 "Terminating" "Terminated" "Terminate") tt))
    = TbVmInfo.TargetStatus (McisSamples.vm1 "Terminating" "Terminated" "Terminate") /\
  exists r w3,
    FetchVmStatus (H := McisSamples.cloud "Terminated") "demo" "m1" "vm1" McisSamples.terminatingWorld
      = ((r, None), w3) /\
    TbVmStatusInfo.TargetStatus r <> StatusComplete /\
    TbVmStatusInfo.TargetAction r <> ActionComplete /\
    TbVmStatusInfo.TargetStatus r = "Terminated" /\
    TbVmStatusInfo.TargetAction r = "Terminate".
Proof.
  split; [reflexivity | ]. split; [reflexivity | ].
  eexists. eexists. split; [vm_compute; reflexivity | ].
  repeat split; try discriminate; reflexivity.
Qed.

End ReconcileFacts.

(** ** The deletion gate *)

Module DeleteFacts.

Import mcis StatusViews McisViews StatusFacts ReconcileFacts.
Local Open Scope list_scope.

(** *** The status text never names a state it does not stand for *)

Lemma Contains_needs_first (c : ascii) (pat s : string) :
  occurs c s = false -> Strings.Contains s (String c pat) = false.
Proof.
  induction s as [ | a s IH]; cbn [occurs Strings.Contains]; intros Ho.
  - reflexivity.
  - apply orb_false_iff in Ho. destruct Ho as [Ha Hs].
    rewrite (IH Hs), orb_false_r.
    unfold Strings.HasPrefix. cbn [String.prefix].
    destruct (ascii_dec c a) as [-> | Hne]; [ | reflexivity].
    rewrite Ascii.eqb_refl in Ha. discriminate Ha.
Qed.

Lemma occurs_append (c : ascii) (s t : string) :
  occurs c (s +:+ t) = occurs c s || occurs c t.
Proof.
  induction s as [ | a s IH]; [reflexivity | ].
  change (String a s +:+ t) with (String a (s +:+ t)).
  cbn [occurs]. now rewrite IH, orb_assoc.
Qed.

Lemma occurs_digits (c : ascii) (d : Decimal.uint) :
  c = "T"%char \/ c = "U"%char \/ c = "F"%char \/ c = "P"%char ->
  occurs c (NilEmpty.string_of_uint d) = false.
Proof.
  intros Hc. induction d; cbn [NilEmpty.string_of_uint occurs]; try reflexivity;
    rewrite IHd; destruct Hc as [-> | [-> | [-> | ->]]]; reflexivity.
Qed.

Lemma occurs_Itoa (c : ascii) (n : nat) :
  c = "T"%char \/ c = "U"%char \/ c = "F"%char \/ c = "P"%char ->
  occurs c (Strings.Itoa n) = false.
Proof.
  intros Hc. unfold Strings.Itoa, NilZero.string_of_uint.
  destruct (Nat.to_uint n) eqn:E; try (rewrite <- E; now apply occurs_digits).
  destruct Hc as [-> | [-> | [-> | ->]]]; reflexivity.
Qed.

Lemma occurs_proportion (c : ascii) (count r n : nat) :
  c = "T"%char \/ c = "U"%char \/ c = "F"%char \/ c = "P"%char ->
  occurs c (proportion count r n) = false.
Proof.
  intros Hc. unfold proportion.
  rewrite !occurs_append, !(occurs_Itoa c _ Hc).
  destruct Hc as [-> | [-> | [-> | ->]]]; reflexivity.
Qed.

Lemma Contains_partial (s : string) : Strings.Contains ("Partial-" +:+ s) "Partial-" = true.
Proof. destruct s; reflexivity. Qed.

Lemma slotCount_pos (vms : list TbVmStatusInfo.t) (v : TbVmStatusInfo.t) :
  In v vms -> (0 < slotCount (statusSlot (TbVmStatusInfo.Status v)) vms)%nat.
Proof.
  intros Hin. unfold slotCount.
  induction vms as [ | x vms IH]; [destruct Hin | ].
  cbn [List.filter]. destruct Hin as [-> | Hin].
  - rewrite Nat.eqb_refl. cbn. lia.
  - specialize (IH Hin).
    destruct (Nat.eqb _ _); cbn [length]; lia.
Qed.

(** An MCIS with a VM that is neither terminated, undefined nor failed
    has a status text that does not approve deletion. *)
Lemma blocked_status (vms : list TbVmStatusInfo.t) (v : TbVmStatusInfo.t) :
  In v vms -> blocksDeletion v -> isDeletableStatus (mcisStatusOf vms) = false.
Proof.
  intros Hin (HnT & HnU & HnF).
  pose proof (slotCount_pos vms v Hin) as Hpos.
  pose proof (statusSlot_lt (TbVmStatusInfo.Status v)) as Hlt.
  rewrite kindOf_nth in HnT, HnU, HnF. set (i0 := statusSlot (TbVmStatusInfo.Status v)) in *.
  assert (Hi0 : i0 <> 0%nat /\ i0 <> 3%nat /\ i0 <> 9%nat).
  { repeat split; intros E; rewrite E in *; cbn in *; congruence. }
  destruct Hi0 as (H0 & H3 & H9).
  pose proof (dominant_slot vms) as Hdom.
  unfold mcisStatusOf, statusText.
  destruct (maxLoop 0 (countStatus vms) 0 0) as [m k].
  destruct Hdom as (Hk & Hm & Hall & Hfirst & Hle).
  rewrite !countStatus_nth.
  fold (proportion m (slotCount 2 vms) (length vms)).
  fold (proportion (slotCount 0 vms) (slotCount 2 vms) (length vms)).
  unfold isDeletableStatus.
  destruct (Nat.ltb_spec 0 (slotCount 0 vms)) as [HF | HF].
  - destruct (Nat.eqb_spec (slotCount 0 vms) (length vms)) as [Hn | Hn].
    + pose proof (slotCount_two vms i0 0 H0). lia.
    + change (nth 0 statusFlagStr "") with "Failed".
      replace ("Partial-" +:+ "Failed" +:+ proportion (slotCount 0 vms) (slotCount 2 vms) (length vms))
        with ("Partial-" +:+ ("Failed" +:+ proportion (slotCount 0 vms) (slotCount 2 vms) (length vms)))
        by reflexivity.
      now rewrite Contains_partial.
  - destruct (Nat.eqb_spec m (length vms)) as [Hn | Hn].
    + assert (Hki : k = i0).
      { destruct (Nat.eq_dec k i0) as [ | Hne]; [assumption | ].
        pose proof (slotCount_two vms i0 k ltac:(congruence)). lia. }
      subst k.
      assert (Hcases : (i0 = 1 \/ i0 = 2 \/ i0 = 4 \/ i0 = 5 \/ i0 = 6 \/ i0 = 7 \/ i0 = 8)%nat) by lia.
      set (tail := proportion m (slotCount 2 vms) (length vms)).
      assert (HT : Strings.Contains tail "Terminated" = false)
        by (apply Contains_needs_first, occurs_proportion; auto).
      assert (HU : Strings.Contains tail "Undefined" = false)
        by (apply Contains_needs_first, occurs_proportion; auto).
      assert (HFa : Strings.Contains tail "Failed" = false)
        by (apply Contains_needs_first, occurs_proportion; auto).
      unfold StatusTerminated, StatusUndefined, StatusFailed.
      destruct Hcases as [-> | [-> | [-> | [-> | [-> | [-> | ->]]]]]];
        cbn [nth statusFlagStr StatusSuspended StatusRunning StatusCreating StatusSuspending
             StatusResuming StatusRebooting StatusTerminating];
        cbv [String.append]; cbn -[tail]; rewrite ?HT, ?HU, ?HFa; cbn; now rewrite ?andb_false_r.
    + assert (Hmn : (m <? length vms)%nat = true) by (apply Nat.ltb_lt; lia).
      rewrite Hmn.
      replace ("Partial-" +:+ nth k statusFlagStr "" +:+ proportion m (slotCount 2 vms) (length vms))
        with ("Partial-" +:+ (nth k statusFlagStr "" +:+ proportion m (slotCount 2 vms) (length vms)))
        by reflexivity.
      now rewrite Contains_partial.
Qed.

Lemma slotCount_all_inv (vms : list TbVmStatusInfo.t) (i : nat) :
  slotCount i vms = length vms ->
  forall v, In v vms -> statusSlot (TbVmStatusInfo.Status v) = i.
Proof.
  unfold slotCount. induction vms as [ | x vms IH]; intros Hc v Hv; [destruct Hv | ].
  cbn [List.filter length] in Hc.
  pose proof (List.filter_length_le (fun v0 => Nat.eqb (statusSlot (TbVmStatusInfo.Status v0)) i) vms) as Hle.
  destruct (Nat.eqb_spec (statusSlot (TbVmStatusInfo.Status x)) i) as [Hx | Hx]; cbn [length] in Hc.
  - destruct Hv as [<- | Hv]; [exact Hx | ]. apply IH; [lia | exact Hv].
  - lia.
Qed.

(** The two shapes of the status text. *)
Lemma mcisStatusOf_cases (vms : list TbVmStatusInfo.t) :
  (exists i, (i < 10)%nat /\
             (forall v, In v vms -> statusSlot (TbVmStatusInfo.Status v) = i) /\
             mcisStatusOf vms =
               nth i statusFlagStr "" +:+ proportion (length vms) (slotCount 2 vms) (length vms)) \/
  ((exists s, mcisStatusOf vms = "Partial-" +:+ s) /\
   ~ exists i, forall v, In v vms -> statusSlot (TbVmStatusInfo.Status v) = i).
Proof.
  pose proof (dominant_slot vms) as Hdom.
  unfold mcisStatusOf, statusText.
  destruct (maxLoop 0 (countStatus vms) 0 0) as [m k].
  destruct Hdom as (Hk & Hm & Hall & Hfirst & Hle).
  rewrite !countStatus_nth.
  fold (proportion m (slotCount 2 vms) (length vms)).
  fold (proportion (slotCount 0 vms) (slotCount 2 vms) (length vms)).
  destruct (Nat.ltb_spec 0 (slotCount 0 vms)) as [HF | HF].
  - destruct (Nat.eqb_spec (slotCount 0 vms) (length vms)) as [Hn | Hn].
    + left. exists 0%nat. split; [lia | ]. split; [now apply slotCount_all_inv | ].
      now rewrite Hn.
    + right. split; [eexists; reflexivity | ].
      intros [i Hi]. pose proof (slotCount_all vms i Hi) as Hci.
      destruct (Nat.eq_dec i 0%nat) as [-> | Hne]; [lia | ].
      pose proof (slotCount_two vms i 0%nat Hne). lia.
  - destruct (Nat.eqb_spec m (length vms)) as [Hn | Hn].
    + left. exists k. split; [exact Hk | ]. split; [apply slotCount_all_inv; lia | ].
      now rewrite Hn.
    + assert (Hmn : (m <? length vms)%nat = true) by (apply Nat.ltb_lt; lia).
      rewrite Hmn. right. split; [eexists; reflexivity | ].
      intros [i Hi]. pose proof (slotCount_all vms i Hi) as Hci.
      destruct (Nat.lt_ge_cases i 10%nat) as [Hlt | Hge].
      * specialize (Hall i Hlt). lia.
      * destruct vms as [ | v0 rest]; [cbn in *; lia | ].
        pose proof (statusSlot_lt (TbVmStatusInfo.Status v0)).
        rewrite (Hi v0 (or_introl eq_refl)) in *. lia.
Qed.

Lemma prefix_append (s t : string) : String.prefix s (s +:+ t) = true.
Proof.
  induction s as [ | a s IH]; [destruct t; reflexivity | ].
  change (String a s +:+ t) with (String a (s +:+ t)). cbn [String.prefix].
  destruct (ascii_dec a a) as [_ | Hne]; [exact IH | now contradiction Hne].
Qed.

Lemma Contains_prefix (s t : string) : Strings.Contains (s +:+ t) s = true.
Proof.
  destruct s as [ | a s].
  - destruct t; reflexivity.
  - change (String a s +:+ t) with (String a (s +:+ t)). cbn [Strings.Contains].
    unfold Strings.HasPrefix.
    change (String a (s +:+ t)) with (String a s +:+ t). now rewrite prefix_append.
Qed.

(** Which single states make a status text that passes the two tests. *)
Lemma uniform_status_tests (i : nat) (count r n : nat) :
  (i < 10)%nat ->
  let text := nth i statusFlagStr "" +:+ proportion count r n in
  isDeletableStatus text = (Nat.eqb i 0 || Nat.eqb i 3 || Nat.eqb i 9) /\
  isTerminatedStatus text = Nat.eqb i 3.
Proof.
  intros Hi. cbv zeta.
  set (tail := proportion count r n).
  assert (HT : Strings.Contains tail "Terminated" = false)
    by (apply Contains_needs_first, occurs_proportion; auto).
  assert (HU : Strings.Contains tail "Undefined" = false)
    by (apply Contains_needs_first, occurs_proportion; auto).
  assert (HFa : Strings.Contains tail "Failed" = false)
    by (apply Contains_needs_first, occurs_proportion; auto).
  assert (HP : Strings.Contains tail "Partial-" = false)
    by (apply Contains_needs_first, occurs_proportion; auto).
  unfold isDeletableStatus, isTerminatedStatus, StatusTerminated, StatusUndefined, StatusFailed.
  do 10 (destruct i as [ | i];
         [cbn [nth statusFlagStr StatusFailed StatusSuspended StatusRunning StatusTerminated
               StatusCreating StatusSuspending StatusResuming StatusRebooting StatusTerminating
               StatusUndefined];
          cbv [String.append]; cbn -[tail]; rewrite ?HT, ?HU, ?HFa, ?HP; cbn; split; reflexivity | ]).
  lia.
Qed.

Lemma slot_of_kind (v : TbVmStatusInfo.t) (i : nat) :
  (i < 10)%nat ->
  (kindOf v = nth i statusFlagStr "" <-> statusSlot (TbVmStatusInfo.Status v) = i).
Proof.
  intros Hi. pose proof (kindOf_slot v i Hi) as Hk.
  split; intros E.
  - apply Nat.eqb_eq. rewrite <- Hk. now apply String.eqb_eq.
  - apply String.eqb_eq. rewrite Hk. now apply Nat.eqb_eq.
Qed.

Lemma allIn_slot (vms : list TbVmStatusInfo.t) (i : nat) :
  (i < 10)%nat ->
  (allIn (nth i statusFlagStr "") vms <->
   forall v, In v vms -> statusSlot (TbVmStatusInfo.Status v) = i).
Proof.
  intros Hi. unfold allIn.
  split; intros Hall v Hv; apply (slot_of_kind v i Hi); now apply Hall.
Qed.

(** The status text approves deletion exactly when all VMs are
    terminated, all are undefined, or all are failed. *)
Lemma gate_passes (vms : list TbVmStatusInfo.t) :
  isDeletableStatus (mcisStatusOf vms) = true <-> passesGate vms.
Proof.
  unfold passesGate.
  change "Terminated" with (nth 3 statusFlagStr "").
  change "Undefined" with (nth 9 statusFlagStr "").
  change "Failed" with (nth 0 statusFlagStr "").
  rewrite !allIn_slot by lia.
  destruct vms as [ | v0 rest].
  { split; [intros _; left; intros v [] | reflexivity]. }
  set (vms := v0 :: rest).
  destruct (mcisStatusOf_cases vms) as [(i & Hi & Hu & ->) | [(s & ->) Hnu]].
  - rewrite (proj1 (uniform_status_tests i _ _ _ Hi)).
    pose proof (Hu v0 (or_introl eq_refl)) as H0.
    split.
    + intros Hb. apply orb_true_iff in Hb. destruct Hb as [Hb | Hb];
        [apply orb_true_iff in Hb; destruct Hb as [Hb | Hb] | ];
        apply Nat.eqb_eq in Hb; rewrite Hb in Hu;
        first [left; exact Hu | right; left; exact Hu | right; right; exact Hu].
    + intros [Ha | [Ha | Ha]]; rewrite <- H0, (Ha v0 (or_introl eq_refl)); reflexivity.
  - unfold isDeletableStatus. rewrite Contains_partial. cbn [negb andb].
    split; [discriminate | ].
    intros [Ha | [Ha | Ha]]; exfalso; apply Hnu; eauto.
Qed.

(** The status text reads as terminated exactly when there are VMs and
    all of them are terminated. *)
Lemma terminated_status (vms : list TbVmStatusInfo.t) :
  isTerminatedStatus (mcisStatusOf vms) = true <-> allTerminated vms.
Proof.
  unfold allTerminated.
  change "Terminated" with (nth 3 statusFlagStr "").
  rewrite allIn_slot by lia.
  destruct vms as [ | v0 rest].
  { split; [discriminate | intros [Hne _]; now contradiction Hne]. }
  set (vms := v0 :: rest).
  destruct (mcisStatusOf_cases vms) as [(i & Hi & Hu & ->) | [(s & ->) Hnu]].
  - rewrite (proj2 (uniform_status_tests i _ _ _ Hi)).
    pose proof (Hu v0 (or_introl eq_refl)) as H0.
    split.
    + intros Hb. apply Nat.eqb_eq in Hb. rewrite Hb in Hu. split; [discriminate | exact Hu].
    + intros [_ Ha]. rewrite <- H0, (Ha v0 (or_introl eq_refl)). reflexivity.
  - unfold isTerminatedStatus. rewrite Contains_partial. cbn [negb andb].
    split; [discriminate | ].
    intros [_ Ha]. exfalso. apply Hnu. eauto.
Qed.

(** A VM in another state keeps the list from passing. *)
Lemma blocking_fails_gate (vms : list TbVmStatusInfo.t) (v : TbVmStatusInfo.t) :
  In v vms -> blocksDeletion v -> ~ passesGate vms.
Proof.
  unfold blocksDeletion, StatusTerminated, StatusUndefined, StatusFailed.
  intros Hin (HnT & HnU & HnF) [Ha | [Ha | Ha]]; specialize (Ha v Hin); congruence.
Qed.

Section KeysKept.
Context {C : Type} `{Env C}.

Lemma UpdateVmInfo_dom (nsId mcisId : string) (vmInfoData : TbVmInfo.t) (w : World C) :
  dom (kvs (UpdateVmInfo nsId mcisId vmInfoData w)) = dom (kvs w).
Proof.
  unfold UpdateVmInfo.
  destruct (kvs w !! GenMcisKey nsId mcisId (TbVmInfo.Id vmInfoData)) as [cell | ] eqn:E;
    [ | reflexivity].
  destruct (decide _); [reflexivity | ].
  cbn [kvs]. apply dom_insert_lookup_L. rewrite E. eauto.
Qed.

Lemma UpdateMcisInfo_dom (nsId : string) (mcisInfoData : TbMcisInfo.t) (w : World C) :
  dom (kvs (UpdateMcisInfo nsId mcisInfoData w)) = dom (kvs w).
Proof.
  unfold UpdateMcisInfo.
  destruct (kvs w !! GenMcisKey nsId (TbMcisInfo.Id mcisInfoData) "") as [cell | ] eqn:E;
    [ | reflexivity].
  destruct (decide _); [reflexivity | ].
  cbn [kvs]. apply dom_insert_lookup_L. rewrite E. eauto.
Qed.

Lemma finalizeVmStatus_dom (nsId mcisId cspVmId : string) (errorInfo : TbVmStatusInfo.t)
    (temp : TbVmInfo.t) (vmStatusTmp : TbVmStatusInfo.t) (w : World C) :
  dom (kvs (snd (finalizeVmStatus nsId mcisId cspVmId errorInfo temp vmStatusTmp w))) = dom (kvs w).
Proof.
  unfold finalizeVmStatus.
  destruct (String.eqb (TbVmStatusInfo.TargetStatus vmStatusTmp) (TbVmStatusInfo.Status vmStatusTmp)).
  - destruct (negb (String.eqb (TbVmStatusInfo.TargetStatus vmStatusTmp) StatusTerminated)).
    + pose proof (GetVmCurrentPublicIp_kvs nsId mcisId (TbVmInfo.Id temp) w) as Hk.
      destruct (GetVmCurrentPublicIp nsId mcisId (TbVmInfo.Id temp) w) as [[info | e] w'];
        cbn [snd] in *.
      * destruct (negb (String.eqb cspVmId "")); cbn [snd];
          [rewrite UpdateVmInfo_dom | ]; now rewrite Hk.
      * now rewrite Hk.
    + destruct (negb (String.eqb cspVmId "")); cbn [snd]; [apply UpdateVmInfo_dom | reflexivity].
  - destruct (negb (String.eqb cspVmId "")); cbn [snd]; [apply UpdateVmInfo_dom | reflexivity].
Qed.

Lemma FetchVmStatus_dom (nsId mcisId vmId : string) (w : World C) :
  dom (kvs (snd (FetchVmStatus nsId mcisId vmId w))) = dom (kvs w).
Proof.
  unfold FetchVmStatus.
  destruct (GetVmObject nsId mcisId vmId w) as [temp | e]; [ | reflexivity].
  destruct (negb _ && negb _ && String.eqb _ ""); [reflexivity | ].
  destruct (negb _ && negb _).
  - destruct (pollVmStatus 2 _ _ _ (csp w)) as [[status sysMsg] c'].
    destruct (GetVmObject nsId mcisId vmId (mkWorld (kvs w) c')) as [temp' | e]; [ | reflexivity].
    now rewrite finalizeVmStatus_dom.
  - destruct (GetVmObject nsId mcisId vmId (mkWorld (kvs w) (csp w))) as [temp' | e]; [ | reflexivity].
    now rewrite finalizeVmStatus_dom.
Qed.

Lemma FetchVmStatusAsync_dom (nsId mcisId vmId : string) (results : list TbVmStatusInfo.t)
    (w : World C) :
  dom (kvs (snd (FetchVmStatusAsync nsId mcisId vmId results w))) = dom (kvs w).
Proof.
  unfold FetchVmStatusAsync.
  destruct (negb _ && negb _ && negb _); [ | reflexivity].
  pose proof (FetchVmStatus_dom nsId mcisId vmId w) as Hd.
  destruct (FetchVmStatus nsId mcisId vmId w) as [[vmStatusTmp err] w'].
  destruct (negb (TbVmStatusInfo.eqb _ _)); exact Hd.
Qed.

Lemma fetchAll_dom (nsId mcisId : string) (vmList : list string)
    (results : list TbVmStatusInfo.t) (w : World C) :
  dom (kvs (snd (fetchAll nsId mcisId vmList results w))) = dom (kvs w).
Proof.
  revert results w.
  induction vmList as [ | v rest IH]; intros results w; cbn [fetchAll]; [reflexivity | ].
  pose proof (FetchVmStatusAsync_dom nsId mcisId v results w) as Hd.
  destruct (FetchVmStatusAsync nsId mcisId v results w) as [results' w'].
  destruct (AppendLands (csp w')) as [lands c].
  rewrite IH. exact Hd.
Qed.

(** The status read never removes (or adds) a key. *)
Lemma GetMcisStatus_dom (nsId mcisId : string) (w : World C) :
  dom (kvs (snd (GetMcisStatus nsId mcisId w))) = dom (kvs w).
Proof.
  unfold GetMcisStatus.
  destruct (CheckString nsId); [reflexivity | ].
  destruct (CheckString mcisId); [reflexivity | ].
  destruct (kvs w !! GenMcisKey nsId mcisId "") as [cell | ]; [ | reflexivity].
  destruct (ListVmId nsId mcisId w) as [vmList | e]; [ | reflexivity].
  destruct (length vmList =? 0)%nat; [reflexivity | ].
  pose proof (fetchAll_dom nsId mcisId vmList
                (McisStatusInfo.Vm (statusInfoOfRecord
                   match cell with McisCell m => m | _ => TbMcisInfo.zero end)) w) as Hd.
  destruct (fetchAll _ _ _ _ w) as [vms w1]. cbn [snd] in *.
  destruct (isDone (sortById vms)); [rewrite UpdateMcisInfo_dom | ]; exact Hd.
Qed.

(** What the status read returns: nothing (the empty record), or a
    record whose status text is derived from its VM list. *)
Lemma GetMcisStatus_status (nsId mcisId : string) (w : World C) :
  let st := fst (fst (GetMcisStatus nsId mcisId w)) in
  st = McisStatusInfo.zero \/
  McisStatusInfo.Status st = mcisStatusOf (McisStatusInfo.Vm st).
Proof.
  cbv zeta. unfold GetMcisStatus.
  destruct (CheckString nsId); [now left | ].
  destruct (CheckString mcisId); [now left | ].
  destruct (kvs w !! GenMcisKey nsId mcisId "") as [cell | ]; [ | now left].
  destruct (ListVmId nsId mcisId w) as [vmList | e]; [ | now left].
  destruct (length vmList =? 0)%nat; [now left | ].
  destruct (fetchAll _ _ _ _ w) as [vms w1]. right. reflexivity.
Qed.

End KeysKept.

Section Gate.
Context {C : Type} `{Env C}.

(** What the gate does with a status that [GetMcisStatus] returned. *)
Lemma gate_decision (st : McisStatusInfo.t) :
  st = McisStatusInfo.zero \/ McisStatusInfo.Status st = mcisStatusOf (McisStatusInfo.Vm st) ->
  (isTerminatedStatus (McisStatusInfo.Status st) = true <-> allTerminated (McisStatusInfo.Vm st)) /\
  (McisStatusInfo.Id st <> "" -> ~ passesGate (McisStatusInfo.Vm st) ->
   negb (String.eqb (McisStatusInfo.Id st) "") && negb (isDeletableStatus (McisStatusInfo.Status st))
     = true) /\
  (McisStatusInfo.Id st = "" \/ passesGate (McisStatusInfo.Vm st) ->
   negb (String.eqb (McisStatusInfo.Id st) "") && negb (isDeletableStatus (McisStatusInfo.Status st))
     = false).
Proof.
  intros [-> | Hst].
  - split; [ | split].
    + split; [discriminate | intros [Hne _]; now contradiction Hne].
    + intros Hid. now contradiction Hid.
    + reflexivity.
  - rewrite Hst. split; [apply terminated_status | split].
    + intros Hid Hnp. apply String.eqb_neq in Hid. rewrite Hid.
      destruct (isDeletableStatus (mcisStatusOf (McisStatusInfo.Vm st))) eqn:E; [ | reflexivity].
      exfalso. apply Hnp. now apply gate_passes.
    + intros [Hid | Hp]; [now rewrite Hid | ].
      apply gate_passes in Hp. rewrite Hp. apply andb_false_r.
Qed.

(** C6, as amended.  For an existing MCI and an option other than
    [force]: the status read removes no key.  [DelMcis] lets the
    deletion go on when the VMs that the status lists are all
    terminated, all undefined or all failed, and when the status
    carries no id (the MCIS record could not be read or decoded);
    otherwise it returns an error right after the read, with nothing
    deleted: so it refuses when a listed VM is in another state, and
    also when the listed VMs are spread over two of the three states.
    The VM list of a status is gathered by unsynchronised workers, so
    a VM whose entry was lost is not seen.  With [option=terminate],
    unless VMs are listed and all of them are terminated, [DelMcis]
    first runs refine, then terminate (an error of either ends it),
    waits five seconds, reads the status again, and applies the same
    check to that status before it deletes; a refusal at that point
    leaves every key that refine and terminate left. *)
Theorem deletion_gate (fuel : nat) (nsId mcisId option : string) (w : World C)
    (Hns : CheckString nsId = None) (Hid : CheckString mcisId = None)
    (Hexists : CheckMcis nsId mcisId w = true)
    (Hforce : Strings.ToLower option <> "force") :
  let st := fst (fst (GetMcisStatus nsId mcisId w)) in
  let w1 := snd (GetMcisStatus nsId mcisId w) in
  dom (kvs w1) = dom (kvs w) /\
  (forall vms v, In v vms -> blocksDeletion v -> ~ passesGate vms) /\
  (Strings.EqualFold (Strings.ToLower option) ActionTerminate = false \/
   allTerminated (McisStatusInfo.Vm st) ->
     (McisStatusInfo.Id st <> "" -> ~ passesGate (McisStatusInfo.Vm st) ->
        exists msg, DelMcis (S fuel) nsId mcisId option w = Some (([], Some msg), w1)) /\
     (McisStatusInfo.Id st = "" \/ passesGate (McisStatusInfo.Vm st) ->
        DelMcis (S fuel) nsId mcisId option w =
          deleteAll (DelMcis fuel) nsId mcisId (Strings.ToLower option) w1)) /\
  (Strings.EqualFold (Strings.ToLower option) ActionTerminate = true ->
   ~ allTerminated (McisStatusInfo.Vm st) ->
     (forall e w2,
        HandleMcisAction nsId mcisId ActionRefine true w1 = (Err e, w2) ->
        DelMcis (S fuel) nsId mcisId option w = Some (([], Some e), w2)) /\
     (forall r1 w2,
        HandleMcisAction nsId mcisId ActionRefine true w1 = (Ok r1, w2) ->
        (forall e w3,
           HandleMcisAction nsId mcisId ActionTerminate true w2 = (Err e, w3) ->
           DelMcis (S fuel) nsId mcisId option w = Some (([], Some e), w3)) /\
        (forall r2 w3,
           HandleMcisAction nsId mcisId ActionTerminate true w2 = (Ok r2, w3) ->
           let st' := fst (fst (GetMcisStatus nsId mcisId (sleepWorld 5 w3))) in
           let w4 := snd (GetMcisStatus nsId mcisId (sleepWorld 5 w3)) in
           dom (kvs w4) = dom (kvs w3) /\
           (McisStatusInfo.Id st' <> "" -> ~ passesGate (McisStatusInfo.Vm st') ->
              exists msg, DelMcis (S fuel) nsId mcisId option w = Some (([], Some msg), w4)) /\
           (McisStatusInfo.Id st' = "" \/ passesGate (McisStatusInfo.Vm st') ->
              DelMcis (S fuel) nsId mcisId option w =
                deleteAll (DelMcis fuel) nsId mcisId (Strings.ToLower option) w4)))).
Proof.
  cbv zeta. split; [apply GetMcisStatus_dom | ].
  split; [exact blocking_fails_gate | ].
  apply String.eqb_neq in Hforce.
  pose proof (GetMcisStatus_status nsId mcisId w) as Hst. cbv zeta in Hst.
  cbn [DelMcis]. rewrite Hns, Hid, Hexists. cbn [negb].
  unfold deletionGate.
  destruct (GetMcisStatus nsId mcisId w) as [[st err] w1]. cbn [fst snd] in *.
  rewrite Hforce. cbn [negb].
  destruct (gate_decision st Hst) as (Hterminated & Hrefuse & Hgo).
  split.
  - intros Hnoadvance.
    assert (Hadv : (if negb (isTerminatedStatus (McisStatusInfo.Status st))
                    then if Strings.EqualFold (Strings.ToLower option) ActionTerminate
                         then true else false
                    else false) = false).
    { destruct Hnoadvance as [Hplain | Hall].
      - rewrite Hplain. destruct (negb (isTerminatedStatus (McisStatusInfo.Status st))); reflexivity.
      - apply Hterminated in Hall. rewrite Hall. reflexivity. }
    destruct (negb (isTerminatedStatus (McisStatusInfo.Status st)));
      [destruct (Strings.EqualFold (Strings.ToLower option) ActionTerminate); [discriminate Hadv | ] | ].
    all: split;
      [ intros Hi Hv; rewrite (Hrefuse Hi Hv); eexists; reflexivity
      | intros Hpass; rewrite (Hgo Hpass); reflexivity ].
  - intros Hterm Hnt.
    assert (Hnot : isTerminatedStatus (McisStatusInfo.Status st) = false).
    { destruct (isTerminatedStatus (McisStatusInfo.Status st)) eqn:E; [ | reflexivity].
      exfalso. apply Hnt. now apply Hterminated. }
    rewrite Hterm, Hnot. cbn [negb]. split.
    + intros e w2 Hr. rewrite Hr. reflexivity.
    + intros r1 w2 Hr. rewrite Hr. split.
      * intros e w3 Ht. rewrite Ht. reflexivity.
      * intros r2 w3 Ht. rewrite Ht.
        pose proof (GetMcisStatus_status nsId mcisId (sleepWorld 5 w3)) as Hst'.
        cbv zeta in Hst'.
        pose proof (GetMcisStatus_dom nsId mcisId (sleepWorld 5 w3)) as Hdom'.
        destruct (GetMcisStatus nsId mcisId (sleepWorld 5 w3)) as [[st' err'] w4].
        cbn [fst snd] in *.
        destruct (gate_decision st' Hst') as (_ & Hrefuse' & Hgo').
        split; [exact Hdom' | ].
        split;
          [ intros Hi Hv; rewrite (Hrefuse' Hi Hv); eexists; reflexivity
          | intros Hpass; rewrite (Hgo' Hpass); reflexivity ].
Qed.

End Gate.

Lemma deletion_gate_witness :
  exists msg,
    DelMcis (H := McisSamples.cloud "Running") 2 "demo" "m1" "" McisSamples.runningWorld
      = Some (([], Some msg),
              snd (GetMcisStatus (H := McisSamples.cloud "Running") "demo" "m1" McisSamples.runningWorld)).
Proof.
  destruct (deletion_gate (H := McisSamples.cloud "Running") 1 "demo" "m1" ""
              McisSamples.runningWorld eq_refl eq_refl eq_refl ltac:(discriminate))
    as (_ & Hblocking & Hplain & _).
  destruct (Hplain (or_introl eq_refl)) as [Hrefuse _].
  apply Hrefuse; [discriminate | ].
  eapply Hblocking; [left; reflexivity | ].
  repeat split; discriminate.
Defined.

(** C6 as stated fails when the MCIS record does not decode: the status
    read then carries no id, the check is skipped, and the MCIS is
    deleted although its VM is running and the option is not [force]. *)
Lemma deletion_gate_counterexample :
  let st := fst (fst (GetMcisStatus (H := McisSamples.cloud "Running") "demo" "m1"
                        McisSamples.brokenRecordWorld)) in
  Strings.ToLower "" <> "force" /\
  (exists v, In v (McisStatusInfo.Vm st) /\ TbVmStatusInfo.Status v = "Running" /\ blocksDeletion v) /\
  kvs McisSamples.brokenRecordWorld !! McisSamples.keyOf "demo" "m1" "vm1"
    = Some (VmCell (McisSamples.vm1 "Running" "None" "None")) /\
  exists w',
    DelMcis (H := McisSamples.cloud "Running") 2 "demo" "m1" "" McisSamples.brokenRecordWorld
      = Some ((["[Done] VM: vm1"; "[Done] MCIS: m1"], None), w') /\
    kvs w' !! McisSamples.keyOf "demo" "m1" "vm1" = None /\
    kvs w' !! McisSamples.keyOf "demo" "m1" "" = None.
Proof.
  cbv zeta. split; [discriminate | ].
  split.
  - eexists. split; [left; vm_compute; reflexivity | ].
    split; [reflexivity | repeat split; discriminate].
  - split; [reflexivity | ].
    eexists. split; [vm_compute; reflexivity | ].
    split; reflexivity.
Qed.

End DeleteFacts.

(** ** Review of a dynamic request *)

Module ReviewFacts.

Import Views ReviewViews HistoryFacts.
Local Open Scope list_scope.

Lemma AnalyzeProvisioningRiskDetailed_store (specId image : string) (st : kvstore) :
  snd (infra.AnalyzeProvisioningRiskDetailed specId image st) = afterRead st specId.
Proof.
  unfold infra.AnalyzeProvisioningRiskDetailed, catch.
  rewrite GetProvisioningLog_run.
  destruct (priorLog st specId) as [l | ]; [ | reflexivity].
  destruct (int_add _ _ =? 0)%Z; reflexivity.
Qed.

Lemma AnalyzeProvisioningRisk_store (specId image : string) (st : kvstore) :
  snd (infra.AnalyzeProvisioningRisk specId image st) = afterRead st specId.
Proof.
  unfold infra.AnalyzeProvisioningRisk, catch.
  pose proof (AnalyzeProvisioningRiskDetailed_store specId image st) as Hs.
  destruct (infra.AnalyzeProvisioningRiskDetailed specId image st) as [[r | e] st']; exact Hs.
Qed.

Section Review.
Context `{Catalog} `{infra.ReviewDeps}.

(** A review worker touches the store through the risk analysis only,
    and only when the catalog knows the spec. *)
Lemma reviewVm_store (vmRequest : infra.TbVmDynamicReq.t) (st : kvstore) :
  snd (infra.reviewVm vmRequest st) =
    match GetSpec st SystemCommonNs (infra.TbVmDynamicReq.CommonSpec vmRequest) with
    | Ok _ => afterRead st (infra.TbVmDynamicReq.CommonSpec vmRequest)
    | Err _ => st
    end.
Proof.
  unfold infra.reviewVm.
  pose proof (AnalyzeProvisioningRisk_store (infra.TbVmDynamicReq.CommonSpec vmRequest)
                (infra.TbVmDynamicReq.CommonImage vmRequest) st) as Hs.
  destruct (GetSpec st SystemCommonNs (infra.TbVmDynamicReq.CommonSpec vmRequest)) as [specInfo | e].
  - repeat (cbv beta iota zeta;
            match goal with
            | |- context [infra.AnalyzeProvisioningRisk ?a ?b st] =>
                destruct (infra.AnalyzeProvisioningRisk a b st) as [[[riskLevel riskMessage] | e'] st1];
                cbn [snd] in Hs; subst st1
            | |- context [match infra.LookupSpec ?a ?b with _ => _ end] =>
                destruct (infra.LookupSpec a b)
            | |- context [if String.eqb ?l "high" then _ else _] => destruct (String.eqb l "high")
            | |- context [if String.eqb ?l "medium" then _ else _] => destruct (String.eqb l "medium")
            | |- context [if String.eqb ?l "low" then _ else _] => destruct (String.eqb l "low")
            | |- context [match ?x with (_, _) => _ end] => destruct x
            end); reflexivity.
  - repeat (cbv beta iota zeta;
            match goal with
            | |- context [match ?x with (_, _) => _ end] => destruct x
            end); reflexivity.
Qed.

Lemma reviewVm_frame (vmRequest : infra.TbVmDynamicReq.t) (st : kvstore) :
  readsOnly [vmRequest] st (snd (infra.reviewVm vmRequest st)).
Proof.
  intros k. rewrite reviewVm_store.
  destruct (GetSpec st SystemCommonNs (infra.TbVmDynamicReq.CommonSpec vmRequest)); [ | now left].
  destruct (afterRead_lookup st (infra.TbVmDynamicReq.CommonSpec vmRequest) k)
    as [Hsame | (Hk & Hv & Hgone)]; [now left | right].
  exists vmRequest. split; [now left | ]. split; [exact Hk | ]. split; [exact Hv | exact Hgone].
Qed.

Lemma reviewVms_frame (vms : list infra.TbVmDynamicReq.t) (st : kvstore) :
  readsOnly vms st (snd (infra.reviewVms vms st)).
Proof.
  revert st. induction vms as [ | vmRequest rest IH]; intros st k; [now left | ].
  cbn [infra.reviewVms].
  pose proof (reviewVm_frame vmRequest st k) as Hfirst.
  destruct (infra.reviewVm vmRequest st) as [r st1]. cbn [snd] in Hfirst.
  pose proof (IH st1 k) as Hrest.
  destruct (infra.reviewVms rest st1) as [rs st2]. cbn [snd] in Hrest |- *.
  destruct Hfirst as [Hsame | (vm & [<- | []] & Hk & Hv & Hgone)].
  - rewrite Hsame in Hrest.
    destruct Hrest as [Hsame' | (vm & Hin & Hk & Hv & Hgone)]; [now left | right].
    exists vm. split; [now right | ]. split; [exact Hk | ]. split; [exact Hv | exact Hgone].
  - right. exists vmRequest. split; [now left | ]. split; [exact Hk | ]. split; [exact Hv | ].
    destruct Hrest as [Hsame' | (vm & _ & _ & (v & Hv' & _) & _)].
    + now rewrite Hsame'.
    + rewrite Hgone in Hv'. discriminate.
Qed.

(** C9, as the code has it: a review writes and creates nothing, but it
    is not free of effects on the store.  After [ReviewMciDynamicReq]
    returns, every key holds exactly the value it held before, except
    the provisioning-log keys of the requested specs whose stored text
    could not be decoded: such a record has been deleted by the read. *)
Theorem review_store_effect (reqID nsId : string) (req : infra.TbMciDynamicReq.t)
    (deployOption : string) (st : kvstore) :
  readsOnly (infra.TbMciDynamicReq.Vm req) st
    (snd (infra.ReviewMciDynamicReq reqID nsId req deployOption st)).
Proof.
  unfold infra.ReviewMciDynamicReq.
  destruct (infra.CheckString nsId); [intros k; now left | ].
  destruct (infra.CheckMci st nsId (infra.TbMciDynamicReq.Name req)) as [[ | ] | e];
    try (intros k; now left).
  destruct (length (infra.TbMciDynamicReq.Vm req) =? 0)%nat; [intros k; now left | ].
  pose proof (reviewVms_frame (infra.TbMciDynamicReq.Vm req) st) as Hframe.
  destruct (infra.reviewVms (infra.TbMciDynamicReq.Vm req) st) as [results st1].
  repeat (cbv beta iota zeta;
          match goal with
          | |- context [match ?x with (_, _) => _ end] => destruct x
          end).
  exact Hframe.
Qed.

End Review.

(** C9 as the specification words it does not hold: the review of the S5
    request over a store whose record for the S5 spec is not JSON removes
    that record. *)
Lemma review_counterexample :
  let st := Samples.corruptedStore in
  let st' := snd (@infra.ReviewMciDynamicReq Samples.s5catalog ReviewSamples.permissive
                    "req-1" "default" ReviewSamples.s5request "" st) in
  st !! infra.generateProvisioningLogKey Samples.s5spec = Some (Garbage "{oops") /\
  st' !! infra.generateProvisioningLogKey Samples.s5spec = None /\
  st' <> st.
Proof.
  assert (E : snd (@infra.ReviewMciDynamicReq Samples.s5catalog ReviewSamples.permissive
                     "req-1" "default" ReviewSamples.s5request "" Samples.corruptedStore)
                !! infra.generateProvisioningLogKey Samples.s5spec = None) by (vm_compute; reflexivity).
  assert (E0 : Samples.corruptedStore !! infra.generateProvisioningLogKey Samples.s5spec
               = Some (Garbage "{oops")) by (vm_compute; reflexivity).
  cbv zeta. split; [exact E0 | ]. split; [exact E | ].
  intros Heq. rewrite Heq, E0 in E. discriminate.
Qed.

End ReviewFacts.

(** * Further properties of the code *)

(** ** Provisioning history: keys, round trips, maintenance *)

Module HistoryExtras.

Import Views HistoryViews HistoryFacts.
Local Open Scope list_scope.

Lemma hexDigit_inj (i j : nat) :
  (i < 16)%nat -> (j < 16)%nat -> Strings.hexDigit i = Strings.hexDigit j -> i = j.
Proof.
  intros Hi Hj.
  do 16 (destruct i as [ | i]; [ do 16 (destruct j as [ | j]; [ first [reflexivity | discriminate] | ]); lia | ]).
  lia.
Qed.

Lemma QueryEscape_inj (s t : string) :
  Strings.QueryEscape s = Strings.QueryEscape t -> s = t.
Proof.
  revert t. induction s as [ | c s IH]; intros [ | d t] E.
  - reflexivity.
  - cbn [Strings.QueryEscape] in E.
    destruct (Strings.isUnreserved d); [discriminate | ]. destruct (Ascii.eqb d " "); discriminate.
  - cbn [Strings.QueryEscape] in E.
    destruct (Strings.isUnreserved c); [discriminate | ]. destruct (Ascii.eqb c " "); discriminate.
  - cbn [Strings.QueryEscape] in E.
    destruct (Strings.isUnreserved c) eqn:Ec; destruct (Strings.isUnreserved d) eqn:Ed.
    + injection E as -> E. f_equal. now apply IH.
    + destruct (Ascii.eqb d " "); injection E as -> E; discriminate.
    + destruct (Ascii.eqb c " "); injection E as <- E; discriminate.
    + destruct (Ascii.eqb_spec c " "%char) as [-> | Hc];
        destruct (Ascii.eqb_spec d " "%char) as [-> | Hd]; try discriminate.
      * injection E as E. f_equal. now apply IH.
      * injection E as E1 E2 E.
        assert (Hn : nat_of_ascii c = nat_of_ascii d).
        { pose proof (nat_ascii_bounded c) as Bc. pose proof (nat_ascii_bounded d) as Bd.
          change (Strings.hexDigit (nat_of_ascii c / 16) = Strings.hexDigit (nat_of_ascii d / 16))%nat in E1.
          change (Strings.hexDigit (nat_of_ascii c mod 16) = Strings.hexDigit (nat_of_ascii d mod 16))%nat
            in E2.
          apply hexDigit_inj in E1;
            [ | apply Nat.Div0.div_lt_upper_bound; lia | apply Nat.Div0.div_lt_upper_bound; lia].
          apply hexDigit_inj in E2; [ | apply Nat.mod_upper_bound; lia | apply Nat.mod_upper_bound; lia].
          rewrite (Nat.div_mod_eq (nat_of_ascii c) 16), (Nat.div_mod_eq (nat_of_ascii d) 16).
          now rewrite E1, E2. }
        assert (c = d) by (rewrite <- (ascii_nat_embedding c), <- (ascii_nat_embedding d); now rewrite Hn).
        subst d. f_equal. now apply IH.
Qed.

(** X: the keys of two different spec ids differ. *)
(** X1: the keys under which the logs of two different spec ids are
    stored differ, whatever characters the ids contain: the URL
    encoding of [generateProvisioningLogKey] is injective. *)
Theorem log_keys_do_not_collide (specId1 specId2 : string) :
  specId1 <> specId2 ->
  infra.generateProvisioningLogKey specId1 <> infra.generateProvisioningLogKey specId2.
Proof.
  intros Hne E. apply Hne. unfold infra.generateProvisioningLogKey in E.
  apply QueryEscape_inj.
  cbv [String.append] in E. congruence.
Qed.

(** X2: a log that [SaveProvisioningLog] has written is what
    [GetProvisioningLog] returns for the spec id of that log, with
    [LastUpdated] set to the time of the save; the save writes that one
    key, and the read that follows changes nothing. *)
Theorem save_then_get (now : Time) (l : ProvisioningLog.t) (st : kvstore) :
  let saved := infra.setLastUpdated now l in
  let st1 := <[infra.generateProvisioningLogKey (ProvisioningLog.SpecId l) := Encoded saved]> st in
  infra.SaveProvisioningLog now l st = (Ok tt, st1) /\
  infra.GetProvisioningLog (ProvisioningLog.SpecId l) st1 = (Ok (Some saved), st1).
Proof.
  cbv zeta.
  assert (Hid : ProvisioningLog.SpecId (infra.setLastUpdated now l) = ProvisioningLog.SpecId l)
    by (destruct l; reflexivity).
  split.
  - unfold infra.SaveProvisioningLog, catch, kv.Put. rewrite Hid. reflexivity.
  - rewrite GetProvisioningLog_run.
    rewrite (priorLog_encoded _ _ (infra.setLastUpdated now l)) by apply lookup_insert_eq.
    rewrite (afterRead_encoded _ _ (infra.setLastUpdated now l)) by apply lookup_insert_eq.
    reflexivity.
Qed.

Lemma analysis_without_log (specId image : string) (st : kvstore) :
  st !! infra.generateProvisioningLogKey specId = None ->
  infra.AnalyzeProvisioningRisk specId image st =
    (Ok ("low", "No previous provisioning history available"), st).
Proof.
  intros E. unfold infra.AnalyzeProvisioningRisk, infra.AnalyzeProvisioningRiskDetailed, catch.
  rewrite GetProvisioningLog_run. unfold priorLog, afterRead. rewrite E. reflexivity.
Qed.

(** X3: after [DeleteProvisioningLog] the spec has no history: the key
    is gone, [GetProvisioningLog] returns no log, and the risk analysis
    answers ["low"], ["No previous provisioning history available"]. *)
Theorem delete_then_no_history (specId image : string) (st : kvstore) :
  let st1 := delete (infra.generateProvisioningLogKey specId) st in
  infra.DeleteProvisioningLog specId st = (Ok tt, st1) /\
  infra.GetProvisioningLog specId st1 = (Ok None, st1) /\
  infra.AnalyzeProvisioningRisk specId image st1 =
    (Ok ("low", "No previous provisioning history available"), st1).
Proof.
  cbv zeta. split; [reflexivity | ].
  assert (E : delete (infra.generateProvisioningLogKey specId) st
                !! infra.generateProvisioningLogKey specId = None) by apply lookup_delete_eq.
  split.
  - rewrite GetProvisioningLog_run. unfold priorLog, afterRead. rewrite E. reflexivity.
  - now apply analysis_without_log.
Qed.

(** X4: [GetProvisioningLog] never returns an error; it leaves every
    other key alone, removes the record of the spec exactly when the
    stored text is not JSON or does not fit a log (an empty text stays),
    and a second read returns the same answer and changes nothing. *)
Theorem read_settles (specId : string) (st : kvstore) :
  let key := infra.generateProvisioningLogKey specId in
  let r := fst (infra.GetProvisioningLog specId st) in
  let st1 := snd (infra.GetProvisioningLog specId st) in
  (exists o, r = Ok o) /\
  infra.GetProvisioningLog specId st1 = (r, st1) /\
  st1 !! key = match st !! key with
               | Some v => if corrupted v then None else Some v
               | None => None
               end /\
  (forall k, k <> key -> st1 !! k = st !! k).
Proof.
  cbv zeta. rewrite !GetProvisioningLog_run. cbn [fst snd].
  split; [eauto | ].
  unfold priorLog, afterRead.
  destruct (st !! infra.generateProvisioningLogKey specId) as [v | ] eqn:E.
  - destruct v as [ | raw | raw | l]; cbn [corrupted].
    + rewrite E. cbn [corrupted]. repeat split; try assumption; reflexivity.
    + rewrite lookup_delete_eq. split; [reflexivity | ]. split; [reflexivity | ].
      intros k Hk. now apply lookup_delete_ne.
    + rewrite lookup_delete_eq. split; [reflexivity | ]. split; [reflexivity | ].
      intros k Hk. now apply lookup_delete_ne.
    + rewrite E. cbn [corrupted]. repeat split; try assumption; reflexivity.
  - rewrite E. repeat split; try assumption; reflexivity.
Qed.

(** The analysis of a decodable log with at least one attempt. *)
Lemma analysis_of_log (specId image : string) (st : kvstore) (l : ProvisioningLog.t) :
  st !! infra.generateProvisioningLogKey specId = Some (Encoded l) ->
  int_add (ProvisioningLog.FailureCount l) (ProvisioningLog.SuccessCount l) <> 0 ->
  let failed := infra.contains (ProvisioningLog.FailureImages l) image in
  let succeeded := infra.contains (ProvisioningLog.SuccessImages l) image in
  let sr := infra.analyzeSpecRisk (len (ProvisioningLog.FailureImages l))
              (len (ProvisioningLog.SuccessImages l)) (ProvisioningLog.FailureCount l)
              (ProvisioningLog.SuccessCount l) (failureRateOf l) in
  let ir := infra.analyzeImageRisk failed succeeded (negb failed && negb succeeded) image in
  infra.AnalyzeProvisioningRiskDetailed specId image st =
    (Ok (RiskAnalysis.mk sr ir (infra.determineOverallRisk sr ir)
           (infra.generateRecommendations sr ir (infra.determineOverallRisk sr ir))), st).
Proof.
  intros E Hatt. cbv zeta.
  unfold infra.AnalyzeProvisioningRiskDetailed, catch.
  rewrite GetProvisioningLog_run, (priorLog_encoded _ _ l E), (afterRead_encoded _ _ l E).
  apply Z.eqb_neq in Hatt. rewrite Hatt. reflexivity.
Qed.

Lemma failed_image_level (succeeded isNew : bool) (image : string) :
  ImageRiskInfo.Level (infra.analyzeImageRisk true succeeded isNew image) = "high".
Proof. destruct succeeded; reflexivity. Qed.

Lemma failed_image_overall (sr : SpecRiskInfo.t) (succeeded isNew : bool) (image : string) :
  In (SpecRiskInfo.Level sr) ["low"; "medium"; "high"] ->
  OverallRiskInfo.Level (infra.determineOverallRisk sr (infra.analyzeImageRisk true succeeded isNew image))
    = "high".
Proof.
  intros Hl. destruct sr as [lvl msg a b c d e]. cbn [SpecRiskInfo.Level] in Hl.
  destruct Hl as [<- | [<- | [<- | []]]]; destruct succeeded, isNew; reflexivity.
Qed.

Lemma specLevel_in (fic sic tf ts : Z) (rate : Q) :
  In (SpecRiskInfo.Level (infra.analyzeSpecRisk fic sic tf ts rate)) ["low"; "medium"; "high"].
Proof.
  rewrite analyzeSpecRisk_level.
  destruct (10 <=? fic)%Z; [cbn; tauto | ].
  destruct (5 <=? fic)%Z; [cbn; tauto | ].
  destruct ((3 <=? fic)%Z && (sic =? 0)%Z); [cbn; tauto | ].
  destruct (Qle_bool (8 # 10) rate); [cbn; tauto | ].
  destruct (Qle_bool (5 # 10) rate); cbn; tauto.
Qed.

Lemma failed_image_high (specId image : string) (st : kvstore) (l : ProvisioningLog.t) :
  st !! infra.generateProvisioningLogKey specId = Some (Encoded l) ->
  int_add (ProvisioningLog.FailureCount l) (ProvisioningLog.SuccessCount l) <> 0 ->
  infra.contains (ProvisioningLog.FailureImages l) image = true ->
  exists msg, infra.AnalyzeProvisioningRisk specId image st = (Ok ("high", msg), st).
Proof.
  intros E Hatt Hin.
  unfold infra.AnalyzeProvisioningRisk, catch.
  rewrite (analysis_of_log specId image st l E Hatt). cbn [RiskAnalysis.OverallRisk].
  rewrite Hin. rewrite failed_image_overall by apply specLevel_in.
  eexists. reflexivity.
Qed.

(** X6: when the stored log of a spec lists the requested image among
    its failed images and counts at least one attempt,
    [AnalyzeProvisioningRisk] answers level ["high"], however many
    successes the log records, and leaves the store as it is. *)
Theorem failed_image_is_high_risk (specId image : string) (st : kvstore) (l : ProvisioningLog.t)
    (Hstored : st !! infra.generateProvisioningLogKey specId = Some (Encoded l))
    (Hattempts : int_add (ProvisioningLog.FailureCount l) (ProvisioningLog.SuccessCount l) <> 0)
    (Hfailed : In image (ProvisioningLog.FailureImages l)) :
  exists msg, infra.AnalyzeProvisioningRisk specId image st = (Ok ("high", msg), st).
Proof. apply (failed_image_high specId image st l Hstored Hattempts). now apply contains_In. Qed.

Lemma verdict_shape (sr : SpecRiskInfo.t) (failed succeeded : bool) (image : string) :
  In (SpecRiskInfo.Level sr) ["low"; "medium"; "high"] ->
  let ir := infra.analyzeImageRisk failed succeeded (negb failed && negb succeeded) image in
  let o := infra.determineOverallRisk sr ir in
  let r := RiskAnalysis.mk sr ir o (infra.generateRecommendations sr ir o) in
  In (SpecRiskInfo.Level (RiskAnalysis.SpecRisk r)) ["low"; "medium"; "high"] /\
  In (ImageRiskInfo.Level (RiskAnalysis.ImageRisk r)) ["low"; "high"] /\
  In (OverallRiskInfo.Level (RiskAnalysis.OverallRisk r)) ["low"; "medium"; "high"] /\
  In (OverallRiskInfo.PrimaryRiskFactor (RiskAnalysis.OverallRisk r))
     ["spec"; "image"; "combination"; "none"] /\
  RiskAnalysis.Recommendations r <> [].
Proof.
  intros Hl. destruct sr as [lvl msg fic b c d e]. cbn [SpecRiskInfo.Level] in Hl.
  cbv zeta.
  destruct Hl as [<- | [<- | [<- | []]]]; destruct failed, succeeded;
    cbn -[String.append Z.leb]; repeat split; auto 10; try discriminate;
    destruct (5 <=? fic)%Z; discriminate.
Qed.

(** X5: [AnalyzeProvisioningRiskDetailed] never fails.  The spec level
    and the overall level are ["low"], ["medium"] or ["high"], the image
    level is ["low"] or ["high"] (never ["medium"]), the primary risk
    factor is ["spec"], ["image"], ["combination"] or ["none"], and
    there is at least one recommendation. *)
Theorem analysis_verdict_shape (specId image : string) (st : kvstore) :
  exists r,
    infra.AnalyzeProvisioningRiskDetailed specId image st = (Ok r, afterRead st specId) /\
    In (SpecRiskInfo.Level (RiskAnalysis.SpecRisk r)) ["low"; "medium"; "high"] /\
    In (ImageRiskInfo.Level (RiskAnalysis.ImageRisk r)) ["low"; "high"] /\
    In (OverallRiskInfo.Level (RiskAnalysis.OverallRisk r)) ["low"; "medium"; "high"] /\
    In (OverallRiskInfo.PrimaryRiskFactor (RiskAnalysis.OverallRisk r))
       ["spec"; "image"; "combination"; "none"] /\
    RiskAnalysis.Recommendations r <> [].
Proof.
  unfold infra.AnalyzeProvisioningRiskDetailed, catch.
  rewrite GetProvisioningLog_run.
  destruct (priorLog st specId) as [l | ].
  - destruct (int_add _ _ =? 0)%Z.
    + eexists. split; [reflexivity | ]. cbn. repeat split; auto 10; discriminate.
    + eexists. split; [reflexivity | ]. apply verdict_shape, specLevel_in.
  - eexists. split; [reflexivity | ]. cbn. repeat split; auto 10; discriminate.
Qed.

Lemma contains_snoc (l : list string) (x : string) : infra.contains (l ++ [x]) x = true.
Proof. apply contains_In, in_or_app. right. now left. Qed.

Lemma generated_key_prefix (specId : string) :
  Strings.HasPrefix (infra.generateProvisioningLogKey specId) "/log/provision/" = true.
Proof.
  unfold infra.generateProvisioningLogKey, Strings.HasPrefix.
  cbv [String.append]. cbn. now destruct (Strings.QueryEscape specId).
Qed.

Section Recording.
Context `{Catalog}.

Lemma recordFailure_fields (now : Time) (ev : ProvisioningEvent.t) (l : ProvisioningLog.t) :
  let l' := infra.setLastUpdated now (infra.addContext ev (infra.recordFailure ev l)) in
  ProvisioningLog.SpecId l' = ProvisioningLog.SpecId l /\
  ProvisioningLog.FailureCount l' = int_add (ProvisioningLog.FailureCount l) 1 /\
  ProvisioningLog.SuccessCount l' = ProvisioningLog.SuccessCount l /\
  (ProvisioningEvent.CspImageName ev <> "" ->
   infra.contains (ProvisioningLog.FailureImages l') (ProvisioningEvent.CspImageName ev) = true).
Proof.
  cbv zeta. destruct l as [sid cn pn rn fc sc fts sts fms fis sis lu ai].
  unfold infra.addContext, infra.recordFailure.
  destruct (negb (String.eqb (ProvisioningEvent.MciId ev) ""));
    cbn [infra.setLastUpdated ProvisioningLog.SpecId ProvisioningLog.FailureCount
         ProvisioningLog.SuccessCount ProvisioningLog.FailureImages];
    (split; [reflexivity | ]); (split; [reflexivity | ]); (split; [reflexivity | ]);
    intros Hne; apply String.eqb_neq in Hne; rewrite Hne; cbn [negb andb];
    destruct (infra.contains fis (ProvisioningEvent.CspImageName ev)) eqn:Ec; cbn [negb];
    try exact Ec; apply contains_snoc.
Qed.

(** X7: once a failure event with a non-empty image name has been
    recorded, the analysis of that spec and image answers ["high"].
    The stored log, if there was one, is assumed to carry the spec id it
    is stored under and counters between 0 and 2^62. *)
Theorem recorded_failure_is_high (now : Time) (ev : ProvisioningEvent.t) (st st1 : kvstore)
    (Hrun : infra.RecordProvisioningEvent now ev st = (Ok tt, st1))
    (Hfail : ProvisioningEvent.IsSuccess ev = false)
    (Himage : ProvisioningEvent.CspImageName ev <> "")
    (Hsane : forall l, priorLog st (ProvisioningEvent.SpecId ev) = Some l ->
               ProvisioningLog.SpecId l = ProvisioningEvent.SpecId ev /\
               0 <= ProvisioningLog.FailureCount l < 2 ^ 62 /\
               0 <= ProvisioningLog.SuccessCount l < 2 ^ 62) :
  exists msg,
    infra.AnalyzeProvisioningRisk (ProvisioningEvent.SpecId ev) (ProvisioningEvent.CspImageName ev) st1
      = (Ok ("high", msg), st1).
Proof.
  pose proof (RecordProvisioningEvent_run now ev st) as R. cbv zeta in R.
  rewrite R in Hrun. clear R. rewrite Hfail in Hrun.
  assert (Hgo : forall l,
             ProvisioningLog.SpecId l = ProvisioningEvent.SpecId ev ->
             0 <= ProvisioningLog.FailureCount l < 2 ^ 62 ->
             0 <= ProvisioningLog.SuccessCount l < 2 ^ 62 ->
             st1 = <[infra.generateProvisioningLogKey (ProvisioningLog.SpecId l) :=
                       Encoded (infra.setLastUpdated now (infra.addContext ev (infra.recordFailure ev l)))]>
                     (afterRead st (ProvisioningEvent.SpecId ev)) ->
             exists msg,
               infra.AnalyzeProvisioningRisk (ProvisioningEvent.SpecId ev)
                 (ProvisioningEvent.CspImageName ev) st1 = (Ok ("high", msg), st1)).
  { intros l Hid Hfc Hsc ->. rewrite Hid.
    destruct (recordFailure_fields now ev l) as (_ & Hf & Hs & Hc).
    eapply failed_image_high.
    - apply lookup_insert_eq.
    - rewrite Hf, Hs. rewrite (int_add_small (ProvisioningLog.FailureCount l) 1) by lia.
      rewrite int_add_small by lia. lia.
    - now apply Hc. }
  destruct (priorLog st (ProvisioningEvent.SpecId ev)) as [l | ] eqn:Ep.
  - destruct (Hsane l eq_refl) as (Hid & Hfc & Hsc).
    injection Hrun as Hst. now apply (Hgo l).
  - destruct (GetSpec _ _ _) as [specInfo | e]; [ | discriminate].
    injection Hrun as Hst. apply (Hgo (infra.newLog ev specInfo)); cbn; try lia; auto.
Qed.

(** One recording changes keys under ["/log/provision/"] only. *)
Lemma RecordProvisioningEvent_frame (now : Time) (ev : ProvisioningEvent.t) (st : kvstore) (k : string) :
  Strings.HasPrefix k "/log/provision/" = false ->
  snd (infra.RecordProvisioningEvent now ev st) !! k = st !! k.
Proof.
  intros Hk.
  assert (Hne : forall s, k <> infra.generateProvisioningLogKey s).
  { intros s ->. rewrite generated_key_prefix in Hk. discriminate. }
  assert (Hread : afterRead st (ProvisioningEvent.SpecId ev) !! k = st !! k).
  { destruct (afterRead_lookup st (ProvisioningEvent.SpecId ev) k) as [E | (E & _)]; [exact E | ].
    now contradiction (Hne (ProvisioningEvent.SpecId ev)). }
  pose proof (RecordProvisioningEvent_run now ev st) as R. cbv zeta in R. rewrite R. clear R.
  destruct (match priorLog st (ProvisioningEvent.SpecId ev) with Some l => _ | None => _ end)
    as [l | e]; [ | exact Hread].
  destruct (ProvisioningEvent.IsSuccess ev); [destruct (0 <? _)%Z | ]; cbn [snd];
    try exact Hread; rewrite lookup_insert_ne by (apply not_eq_sym, Hne); exact Hread.
Qed.

Lemma recordEvents_frame (clock : nat -> Time * Time) (mciInfo : model.TbMciInfo.t)
    (vms : list model.TbVmInfo.t) (i : nat) (n : Z) (st : kvstore) :
  exists n',
    fst (infra.recordEvents clock mciInfo i vms n st) = Ok n' /\
    forall k, Strings.HasPrefix k "/log/provision/" = false ->
              snd (infra.recordEvents clock mciInfo i vms n st) !! k = st !! k.
Proof.
  revert i n st. induction vms as [ | vm rest IH]; intros i n st.
  - exists n. split; [reflexivity | ]. intros; reflexivity.
  - cbn [infra.recordEvents]. unfold catch.
    pose proof (RecordProvisioningEvent_frame (snd (clock i))
                  (infra.eventOfVm mciInfo vm (fst (clock i))) st) as Hone.
    destruct (infra.RecordProvisioningEvent _ _ st) as [[[] | e] st1]; cbn [snd] in Hone.
    + destruct (IH (S i) (int_add n 1) st1) as (n' & Hok & Hfr).
      exists n'. split; [exact Hok | ]. intros k Hk. rewrite Hfr by exact Hk. now apply Hone.
    + destruct (IH (S i) n st1) as (n' & Hok & Hfr).
      exists n'. split; [exact Hok | ]. intros k Hk. rewrite Hfr by exact Hk. now apply Hone.
Qed.

(** X8: [RecordProvisioningEventsFromMci] always returns (a failed
    recording of one VM does not stop the loop), and it changes no key
    outside ["/log/provision/"]. *)
Theorem events_from_mci_frame (clock : nat -> Time * Time) (nsId : string)
    (mciInfo : model.TbMciInfo.t) (st : kvstore) :
  exists eventCount,
    fst (infra.RecordProvisioningEventsFromMci clock nsId mciInfo st) = Ok eventCount /\
    forall k, Strings.HasPrefix k "/log/provision/" = false ->
              snd (infra.RecordProvisioningEventsFromMci clock nsId mciInfo st) !! k = st !! k.
Proof. apply recordEvents_frame. Qed.

Lemma running_vm_writes_nothing (now : Time) (mciInfo : model.TbMciInfo.t) (vm : model.TbVmInfo.t)
    (t : Time) (st : kvstore) :
  model.TbVmInfo.Status vm = model.StatusRunning ->
  noFailureHistory st (model.TbVmInfo.SpecId vm) ->
  snd (infra.RecordProvisioningEvent now (infra.eventOfVm mciInfo vm t) st) = st.
Proof.
  intros Hrun Hclean.
  assert (Hs : ProvisioningEvent.IsSuccess (infra.eventOfVm mciInfo vm t) = true).
  { unfold infra.eventOfVm. cbn [ProvisioningEvent.IsSuccess]. rewrite Hrun. apply String.eqb_refl. }
  assert (Hid : ProvisioningEvent.SpecId (infra.eventOfVm mciInfo vm t) = model.TbVmInfo.SpecId vm)
    by reflexivity.
  pose proof (RecordProvisioningEvent_run now (infra.eventOfVm mciInfo vm t) st) as R.
  cbv zeta in R. rewrite R. clear R. rewrite Hs, Hid.
  unfold noFailureHistory in Hclean. unfold priorLog, afterRead.
  destruct (st !! infra.generateProvisioningLogKey (model.TbVmInfo.SpecId vm))
    as [[ | raw | raw | l] | ]; try contradiction; cbn [corrupted].
  - destruct (GetSpec _ _ _); reflexivity.
  - apply Z.ltb_ge in Hclean. rewrite Hclean. reflexivity.
  - destruct (GetSpec _ _ _); reflexivity.
Qed.

(** X9: recording the events of an MCI whose VMs all run, for specs
    that have no failure history, leaves the store exactly as it was:
    successes are not recorded before the first failure of a spec. *)
Theorem running_mci_without_failures_writes_nothing (clock : nat -> Time * Time) (nsId : string)
    (mciInfo : model.TbMciInfo.t) (st : kvstore)
    (Hrunning : Forall (fun vm => model.TbVmInfo.Status vm = model.StatusRunning)
                  (model.TbMciInfo.Vm mciInfo))
    (Hclean : Forall (fun vm => noFailureHistory st (model.TbVmInfo.SpecId vm))
                (model.TbMciInfo.Vm mciInfo)) :
  snd (infra.RecordProvisioningEventsFromMci clock nsId mciInfo st) = st.
Proof.
  unfold infra.RecordProvisioningEventsFromMci.
  generalize 0%nat as i, 0%Z as n.
  induction (model.TbMciInfo.Vm mciInfo) as [ | vm rest IH]; intros i n; [reflexivity | ].
  apply Forall_cons_1 in Hrunning as [Hr Hrs]. apply Forall_cons_1 in Hclean as [Hc Hcs].
  cbn [infra.recordEvents]. unfold catch.
  pose proof (running_vm_writes_nothing (snd (clock i)) mciInfo vm (fst (clock i)) st Hr Hc) as Hone.
  destruct (infra.RecordProvisioningEvent _ _ st) as [[[] | e] st1]; cbn [snd] in Hone; subst st1;
    now apply IH.
Qed.

End Recording.

Lemma cleanupKeys_run (keys : list (string * Stored)) (n : Z) (st : kvstore) :
  (exists n', fst (infra.cleanupKeys keys n st) = Ok n') /\
  forall k,
    snd (infra.cleanupKeys keys n st) !! k =
      match st !! k with
      | Some v => if existsb (String.eqb k) (map fst keys) && unreadable v then None else Some v
      | None => None
      end.
Proof.
  revert n st. induction keys as [ | [ka va] rest IH]; intros n st.
  - split; [eexists; reflexivity | ]. intros k. cbn. now destruct (st !! k).
  - cbn [infra.cleanupKeys fst]. unfold catch, kv.GetKv, kv.Delete.
    assert (Hkeep : forall m,
               match st !! ka with Some v => unreadable v = false | None => True end ->
               (exists n', fst (infra.cleanupKeys rest m st) = Ok n') /\
               forall k,
                 snd (infra.cleanupKeys rest m st) !! k =
                   match st !! k with
                   | Some v => if existsb (String.eqb k) (map fst ((ka, va) :: rest)) && unreadable v
                               then None else Some v
                   | None => None
                   end).
    { intros m Hka. destruct (IH m st) as [Hok Hl]. split; [exact Hok | ].
      intros k. rewrite Hl. cbn [map fst existsb].
      destruct (String.eqb_spec k ka) as [-> | Hne]; [ | reflexivity].
      destruct (st !! ka) as [v | ]; [ | reflexivity]. rewrite Hka, !andb_false_r. reflexivity. }
    assert (Hdrop : forall m v,
               st !! ka = Some v -> unreadable v = true ->
               (exists n', fst (infra.cleanupKeys rest m (delete ka st)) = Ok n') /\
               forall k,
                 snd (infra.cleanupKeys rest m (delete ka st)) !! k =
                   match st !! k with
                   | Some v => if existsb (String.eqb k) (map fst ((ka, va) :: rest)) && unreadable v
                               then None else Some v
                   | None => None
                   end).
    { intros m v Hka Hv. destruct (IH m (delete ka st)) as [Hok Hl]. split; [exact Hok | ].
      intros k. rewrite Hl. cbn [map fst existsb].
      destruct (String.eqb_spec k ka) as [-> | Hne].
      - rewrite lookup_delete_eq, Hka, Hv. reflexivity.
      - rewrite lookup_delete_ne by congruence. reflexivity. }
    destruct (st !! ka) as [[ | raw | raw | l] | ] eqn:Eka.
    + now apply (Hdrop _ Blank).
    + now apply (Hdrop _ (Garbage raw)).
    + now apply (Hdrop _ (Misfit raw)).
    + now apply Hkeep.
    + now apply Hkeep.
Qed.

Lemma listed_keys (keyPrefix k : string) (st : kvstore) :
  existsb (String.eqb k)
    (map fst (List.filter (fun kv => Strings.HasPrefix (fst kv) keyPrefix) (map_to_list st))) =
  Strings.HasPrefix k keyPrefix && bool_decide (is_Some (st !! k)).
Proof.
  apply eq_true_iff_eq. rewrite existsb_exists, andb_true_iff, bool_decide_eq_true.
  split.
  - intros (x & Hin & Heq). apply String.eqb_eq in Heq. subst x.
    apply in_map_iff in Hin. destruct Hin as ([k' v] & Hk & Hin). cbn in Hk. subst k'.
    apply filter_In in Hin. destruct Hin as [Hin Hp]. cbn in Hp.
    apply list_elem_of_In, elem_of_map_to_list in Hin. split; [exact Hp | eauto].
  - intros [Hp [v Hv]]. exists k. split; [ | apply String.eqb_refl].
    apply in_map_iff. exists (k, v). split; [reflexivity | ].
    apply filter_In. split; [ | exact Hp].
    now apply list_elem_of_In, elem_of_map_to_list.
Qed.

(** X10: [CleanupCorruptedProvisioningLogs] returns without an error;
    it removes exactly the records under ["/log/provision/"] whose text
    is empty or does not decode into a log, and keeps every other key
    with its value.  After it, no read of a provisioning log changes
    the store. *)
Theorem cleanup_removes_unreadable_logs (st : kvstore) :
  exists st',
    infra.CleanupCorruptedProvisioningLogs st = (Ok tt, st') /\
    (forall k,
       st' !! k = match st !! k with
                  | Some v => if Strings.HasPrefix k "/log/provision/" && unreadable v
                              then None else Some v
                  | None => None
                  end) /\
    (forall specId, snd (infra.GetProvisioningLog specId st') = st').
Proof.
  unfold infra.CleanupCorruptedProvisioningLogs, catch at 1, kv.GetKvList.
  set (keys := List.filter _ (map_to_list st)).
  destruct (cleanupKeys_run keys 0 st) as [[n Hok] Hl].
  unfold catch. destruct (infra.cleanupKeys keys 0 st) as [r st'] eqn:Erun.
  cbn [fst snd] in Hok, Hl. subst r.
  exists st'. split; [reflexivity | ].
  assert (Hall : forall k,
             st' !! k = match st !! k with
                        | Some v => if Strings.HasPrefix k "/log/provision/" && unreadable v
                                    then None else Some v
                        | None => None
                        end).
  { intros k. rewrite Hl. unfold keys. rewrite listed_keys.
    destruct (st !! k) as [v | ] eqn:E; [ | reflexivity].
    rewrite bool_decide_eq_true_2 by eauto. now rewrite andb_true_r. }
  split; [exact Hall | ].
  intros specId. rewrite GetProvisioningLog_run. cbn [snd]. unfold afterRead.
  rewrite Hall.
  destruct (st !! infra.generateProvisioningLogKey specId) as [v | ]; [ | reflexivity].
  rewrite generated_key_prefix. cbn [andb].
  destruct v; reflexivity.
Qed.

(** X11: [ValidateProvisioningLogIntegrity] returns without an error and
    changes nothing when the spec has no record; it deletes a record
    that is empty or does not decode.  For an empty record this differs
    from [GetProvisioningLog], which keeps it. *)
Theorem validate_removes_unreadable (now : Time) (specId : string) (st : kvstore) :
  let key := infra.generateProvisioningLogKey specId in
  (st !! key = None ->
     infra.ValidateProvisioningLogIntegrity now specId st = (Returned (Ok tt), st)) /\
  (forall v, st !! key = Some v -> unreadable v = true ->
     infra.ValidateProvisioningLogIntegrity now specId st = (Returned (Ok tt), delete key st) /\
     snd (infra.GetProvisioningLog specId st) !! key = if corrupted v then None else Some v).
Proof.
  cbv zeta. unfold infra.ValidateProvisioningLogIntegrity, kv.GetKv, kv.Delete.
  split.
  - intros ->. reflexivity.
  - intros v Hv Hu. rewrite Hv. rewrite GetProvisioningLog_run. cbn [snd]. unfold afterRead. rewrite Hv.
    destruct v as [ | raw | raw | l]; try discriminate; cbn [corrupted];
      (split; [reflexivity | ]); try apply lookup_delete_eq; exact Hv.
Qed.

Lemma sliceTo_ok {A : Type} (s : list A) (n : Z) :
  0 <= n -> n < len s -> infra.sliceTo s n = Some (take (Z.to_nat n) s).
Proof.
  intros H0 Hn. unfold infra.sliceTo.
  destruct (Z.leb_spec 0 n); [ | lia]. destruct (Z.leb_spec n (len s)); [reflexivity | lia].
Qed.

Lemma trimmed {A : Type} (s : list A) (n : Z) :
  0 <= n ->
  exists s',
    (if (n <? len s)%Z then infra.sliceTo s n else Some s) = Some s' /\
    s' = take (Z.to_nat n) s /\ len s' <= n.
Proof.
  intros H0. unfold len. destruct (Z.ltb_spec n (Z.of_nat (length s))) as [Hlt | Hge].
  - rewrite sliceTo_ok by (unfold len; lia). eexists. split; [reflexivity | ]. split; [reflexivity | ].
    rewrite length_take. lia.
  - exists s. split; [reflexivity | ]. split; [ | lia].
    symmetry. apply take_ge. lia.
Qed.

(** X12: for a stored log with non-negative counters,
    [ValidateProvisioningLogIntegrity] returns without an error; when
    the counters and the numbers of timestamps add up to the same total
    it changes nothing, otherwise it cuts each timestamp list down to
    its counter and saves the log under the key of the log's own spec
    id.  In the saved log no timestamp list is longer than its counter,
    and the counters are the old ones. *)
Theorem validate_repairs_timestamps (now : Time) (specId : string) (st : kvstore)
    (l : ProvisioningLog.t)
    (Hstored : st !! infra.generateProvisioningLogKey specId = Some (Encoded l))
    (Hfc : 0 <= ProvisioningLog.FailureCount l)
    (Hsc : 0 <= ProvisioningLog.SuccessCount l) :
  let consistent :=
    (int_add (ProvisioningLog.FailureCount l) (ProvisioningLog.SuccessCount l) =?
     int_add (len (ProvisioningLog.FailureTimestamps l)) (len (ProvisioningLog.SuccessTimestamps l)))%Z in
  let repaired :=
    infra.setLastUpdated now
      (infra.setTimestamps
         (take (Z.to_nat (ProvisioningLog.FailureCount l)) (ProvisioningLog.FailureTimestamps l))
         (take (Z.to_nat (ProvisioningLog.SuccessCount l)) (ProvisioningLog.SuccessTimestamps l)) l) in
  infra.ValidateProvisioningLogIntegrity now specId st =
    (Returned (Ok tt),
     if consistent then st
     else <[infra.generateProvisioningLogKey (ProvisioningLog.SpecId l) := Encoded repaired]> st) /\
  len (ProvisioningLog.FailureTimestamps repaired) <= ProvisioningLog.FailureCount repaired /\
  len (ProvisioningLog.SuccessTimestamps repaired) <= ProvisioningLog.SuccessCount repaired /\
  ProvisioningLog.FailureCount repaired = ProvisioningLog.FailureCount l /\
  ProvisioningLog.SuccessCount repaired = ProvisioningLog.SuccessCount l.
Proof.
  cbv zeta.
  destruct (trimmed (ProvisioningLog.FailureTimestamps l) (ProvisioningLog.FailureCount l) Hfc)
    as (fts & Ef & -> & Hlf).
  destruct (trimmed (ProvisioningLog.SuccessTimestamps l) (ProvisioningLog.SuccessCount l) Hsc)
    as (sts & Es & -> & Hls).
  split.
  - unfold infra.ValidateProvisioningLogIntegrity, kv.GetKv. rewrite Hstored.
    destruct (_ =? _)%Z; cbn [negb]; [reflexivity | ].
    rewrite Ef, Es. unfold infra.SaveProvisioningLog, catch, kv.Put.
    destruct l; reflexivity.
  - destruct l; cbn in *. repeat split; assumption.
Qed.

(** X13: a stored log with a negative failure or success counter whose
    totals differ makes [ValidateProvisioningLogIntegrity] panic (slice
    bound out of range); nothing has been written at that point. *)
Theorem validate_panics_on_negative_count (now : Time) (specId : string) (st : kvstore)
    (l : ProvisioningLog.t)
    (Hstored : st !! infra.generateProvisioningLogKey specId = Some (Encoded l))
    (Hdiffer : int_add (ProvisioningLog.FailureCount l) (ProvisioningLog.SuccessCount l) <>
               int_add (len (ProvisioningLog.FailureTimestamps l))
                       (len (ProvisioningLog.SuccessTimestamps l)))
    (Hneg : ProvisioningLog.FailureCount l < 0 \/ ProvisioningLog.SuccessCount l < 0) :
  infra.ValidateProvisioningLogIntegrity now specId st = (Panicked, st).
Proof.
  unfold infra.ValidateProvisioningLogIntegrity, kv.GetKv. rewrite Hstored.
  apply Z.eqb_neq in Hdiffer. rewrite Hdiffer. cbn [negb].
  assert (Hcut : forall (s : list Time) n, n < 0 ->
             (if (n <? len s)%Z then infra.sliceTo s n else Some s) = None).
  { intros s n Hn. unfold len, infra.sliceTo.
    destruct (Z.ltb_spec n (Z.of_nat (length s))); [ | lia].
    destruct (Z.leb_spec 0 n); [lia | reflexivity]. }
  destruct (Z.neg_nonneg_cases (ProvisioningLog.FailureCount l)) as [Hf | Hf].
  - now rewrite Hcut.
  - destruct Hneg as [Hneg | Hneg]; [lia | ].
    destruct (trimmed (ProvisioningLog.FailureTimestamps l) (ProvisioningLog.FailureCount l) Hf)
      as (fts & -> & _).
    now rewrite Hcut.
Qed.

(** Sample runs of the properties that have preconditions. *)
Lemma log_keys_do_not_collide_witness :
  infra.generateProvisioningLogKey "aws+x" <> infra.generateProvisioningLogKey "aws x".
Proof. apply (log_keys_do_not_collide "aws+x" "aws x"). discriminate. Defined.

Lemma failed_image_is_high_risk_witness :
  exists msg,
    infra.AnalyzeProvisioningRisk Samples.s5spec Samples.s5image Samples.s5store
      = (Ok ("high", msg), Samples.s5store).
Proof.
  apply (failed_image_is_high_risk Samples.s5spec Samples.s5image Samples.s5store Samples.s5log);
    [reflexivity | discriminate | now left].
Defined.

Lemma recorded_failure_is_high_witness :
  exists st1 msg,
    infra.RecordProvisioningEvent (H := Samples.s5catalog) 1700000101
      (Samples.failureEvent "debian12" "quota exceeded") Samples.s5store = (Ok tt, st1) /\
    infra.AnalyzeProvisioningRisk Samples.s5spec "debian12" st1 = (Ok ("high", msg), st1).
Proof.
  eexists.
  assert (Hrun : infra.RecordProvisioningEvent (H := Samples.s5catalog) 1700000101
                   (Samples.failureEvent "debian12" "quota exceeded") Samples.s5store
                 = (Ok tt, snd (infra.RecordProvisioningEvent (H := Samples.s5catalog) 1700000101
                                  (Samples.failureEvent "debian12" "quota exceeded") Samples.s5store)))
    by reflexivity.
  destruct (recorded_failure_is_high (H := Samples.s5catalog) 1700000101
              (Samples.failureEvent "debian12" "quota exceeded") Samples.s5store _ Hrun
              eq_refl ltac:(discriminate)) as [msg Hmsg].
  - intros l Hl. vm_compute in Hl. injection Hl as <-.
    repeat split; try reflexivity; cbn; lia.
  - exists msg. split; [exact Hrun | exact Hmsg].
Defined.

Lemma running_mci_without_failures_witness :
  snd (infra.RecordProvisioningEventsFromMci (H := Samples.s5catalog) (fun _ => (1700000300, 1700000301))
         "default" runningMci ∅) = ∅.
Proof.
  apply (running_mci_without_failures_writes_nothing (H := Samples.s5catalog)).
  - repeat constructor.
  - repeat constructor.
Defined.

Lemma validate_repairs_timestamps_witness :
  infra.ValidateProvisioningLogIntegrity 1700000400 Samples.s5spec (storeOf overlongLog) =
    (Returned (Ok tt),
     <[infra.generateProvisioningLogKey Samples.s5spec :=
         Encoded (infra.setLastUpdated 1700000400
                    (infra.setTimestamps [1700000000] [] overlongLog))]> (storeOf overlongLog)).
Proof.
  destruct (validate_repairs_timestamps 1700000400 Samples.s5spec (storeOf overlongLog) overlongLog)
    as [Hrun _]; [reflexivity | cbn; lia | cbn; lia | ].
  exact Hrun.
Defined.

Lemma validate_panics_witness :
  infra.ValidateProvisioningLogIntegrity 1700000400 Samples.s5spec (storeOf negativeLog) =
    (Panicked, storeOf negativeLog).
Proof.
  apply (validate_panics_on_negative_count 1700000400 Samples.s5spec (storeOf negativeLog) negativeLog);
    [reflexivity | discriminate | left; cbn; lia].
Defined.

End HistoryExtras.

(** ** MCIS status, VM records and the reconciler: further properties *)

Module McisExtras.

Import mcis StatusViews McisViews McisExtraViews StatusFacts ReconcileFacts DeleteFacts.
Local Open Scope list_scope.
Local Open Scope nat_scope.

Lemma known_In (s : string) : known s = true <-> In s statusFlagStr.
Proof.
  unfold known. rewrite existsb_exists. split.
  - intros (x & Hin & Heq). apply String.eqb_eq in Heq. now subst.
  - intros Hin. exists s. split; [exact Hin | apply String.eqb_refl].
Qed.

Lemma known_cases (s : string) :
  known s = true ->
  s = StatusFailed \/ s = StatusSuspended \/ s = StatusRunning \/ s = StatusTerminated \/
  s = StatusCreating \/ s = StatusSuspending \/ s = StatusResuming \/ s = StatusRebooting \/
  s = StatusTerminating \/ s = StatusUndefined.
Proof.
  intros Hk. apply known_In in Hk. cbn in Hk.
  repeat (destruct Hk as [Hk | Hk]; [symmetry in Hk; tauto | ]). contradiction.
Qed.

Lemma known_not_empty (s : string) : known s = true -> s <> "".
Proof. intros Hk ->. discriminate. Qed.

Lemma ltb_asym (a b : string) : String.ltb a b = true -> String.ltb b a = false.
Proof.
  unfold String.ltb. rewrite (String.compare_antisym a b).
  destruct (String.compare b a); cbn; congruence.
Qed.

Section WithEnv.
Context {C : Type} `{Env C}.

Lemma correctStatus_known (targetAction tempStatus ownStatus status : string) :
  known status = true -> known (correctStatus targetAction tempStatus ownStatus status) = true.
Proof.
  intros Hk. unfold correctStatus.
  destruct (String.eqb targetAction ActionCreate), (String.eqb targetAction ActionTerminate),
    (String.eqb targetAction ActionResume), (String.eqb targetAction ActionReboot),
    (String.eqb tempStatus StatusFailed), (String.eqb ownStatus StatusTerminated);
    apply known_cases in Hk;
    repeat (destruct Hk as [Hk | Hk]; [subst status; reflexivity | ]); subst status; reflexivity.
Qed.

Lemma filtered_known (nativeStatus : string) :
  known (if validStatuses nativeStatus then nativeStatus else StatusUndefined) = true.
Proof.
  destruct (validStatuses nativeStatus) eqn:E; [ | reflexivity].
  unfold validStatuses in E. apply existsb_exists in E. destruct E as (x & Hin & Heq).
  apply String.eqb_eq in Heq. subst x. apply known_In. cbn in Hin |- *. tauto.
Qed.

Lemma finalizeVmStatus_status (nsId mcisId cspVmId : string) (errorInfo : TbVmStatusInfo.t)
    (temp : TbVmInfo.t) (vmStatusTmp : TbVmStatusInfo.t) (w : World C) :
  known (TbVmStatusInfo.Status vmStatusTmp) = true ->
  snd (fst (finalizeVmStatus nsId mcisId cspVmId errorInfo temp vmStatusTmp w)) = None ->
  known (TbVmStatusInfo.Status (fst (fst (finalizeVmStatus nsId mcisId cspVmId errorInfo temp
                                            vmStatusTmp w)))) = true.
Proof.
  intros Hk. destruct vmStatusTmp as [a b c st ts ta g h i j k l m n].
  cbn [TbVmStatusInfo.Status] in Hk.
  unfold finalizeVmStatus.
  cbn [TbVmStatusInfo.TargetStatus TbVmStatusInfo.Status TbVmStatusInfo.set_SystemMessage
       TbVmStatusInfo.set_TargetStatus TbVmStatusInfo.set_TargetAction TbVmStatusInfo.set_Status
       TbVmStatusInfo.set_PublicIp TbVmStatusInfo.set_SSHPort].
  destruct (String.eqb ts st).
  - destruct (negb (String.eqb ts StatusTerminated)).
    + destruct (GetVmCurrentPublicIp nsId mcisId (TbVmInfo.Id temp) w) as [[info | e] w'];
        cbn [fst snd]; [intros _; exact Hk | discriminate].
    + intros _. reflexivity.
  - intros _. exact Hk.
Qed.

(** A status that [FetchVmStatus] returns without an error is one of
    the ten names. *)
Lemma FetchVmStatus_status (nsId mcisId vmId : string) (w : World C) :
  snd (fst (FetchVmStatus nsId mcisId vmId w)) = None ->
  known (TbVmStatusInfo.Status (fst (fst (FetchVmStatus nsId mcisId vmId w)))) = true.
Proof.
  unfold FetchVmStatus.
  destruct (GetVmObject nsId mcisId vmId w) as [temp | e]; [ | discriminate].
  destruct (negb _ && negb _ && String.eqb _ ""); [discriminate | ].
  destruct (negb _ && negb _).
  - destruct (pollVmStatus 2 _ _ _ (csp w)) as [[status sysMsg] c'].
    destruct (GetVmObject nsId mcisId vmId (mkWorld (kvs w) c')) as [temp' | e]; [ | discriminate].
    apply finalizeVmStatus_status. apply correctStatus_known, filtered_known.
  - destruct (GetVmObject nsId mcisId vmId (mkWorld (kvs w) (csp w))) as [temp' | e]; [ | discriminate].
    apply finalizeVmStatus_status. apply correctStatus_known, filtered_known.
Qed.

Lemma not_zero (v : TbVmStatusInfo.t) :
  known (TbVmStatusInfo.Status v) = true -> TbVmStatusInfo.eqb v TbVmStatusInfo.zero = false.
Proof.
  intros Hk. apply known_not_empty, String.eqb_neq in Hk.
  unfold TbVmStatusInfo.eqb. cbn [TbVmStatusInfo.Status TbVmStatusInfo.zero].
  rewrite Hk. now rewrite !andb_false_r.
Qed.

(** A worker with proper ids adds exactly one entry, with a known status. *)
Lemma FetchVmStatusAsync_adds (nsId mcisId vmId : string) (results : list TbVmStatusInfo.t)
    (w : World C) :
  nsId <> "" -> mcisId <> "" -> vmId <> "" ->
  exists v, fst (FetchVmStatusAsync nsId mcisId vmId results w) = results ++ [v] /\
            known (TbVmStatusInfo.Status v) = true.
Proof.
  intros Hn Hm Hv. unfold FetchVmStatusAsync.
  apply String.eqb_neq in Hn, Hm, Hv. rewrite Hn, Hm, Hv. cbn [negb andb].
  pose proof (FetchVmStatus_status nsId mcisId vmId w) as Hs.
  destruct (FetchVmStatus nsId mcisId vmId w) as [[vmStatusTmp [e | ]] w']; cbn [fst snd] in Hs.
  - assert (Hk : known (TbVmStatusInfo.Status
                          (TbVmStatusInfo.set_SystemMessage e
                             (TbVmStatusInfo.set_Status StatusFailed vmStatusTmp))) = true)
      by (destruct vmStatusTmp; reflexivity).
    rewrite (not_zero _ Hk). cbn [negb fst]. eauto.
  - specialize (Hs eq_refl). rewrite (not_zero _ Hs). cbn [negb fst]. eauto.
Qed.

Lemma FetchVmStatusAsync_known (nsId mcisId vmId : string) (results : list TbVmStatusInfo.t)
    (w : World C) :
  Forall (fun v => known (TbVmStatusInfo.Status v) = true) results ->
  Forall (fun v => known (TbVmStatusInfo.Status v) = true)
    (fst (FetchVmStatusAsync nsId mcisId vmId results w)).
Proof.
  intros Hall. unfold FetchVmStatusAsync.
  destruct (negb _ && negb _ && negb _); [ | exact Hall].
  pose proof (FetchVmStatus_status nsId mcisId vmId w) as Hs.
  destruct (FetchVmStatus nsId mcisId vmId w) as [[vmStatusTmp [e | ]] w']; cbn [fst snd] in Hs.
  - destruct (negb (TbVmStatusInfo.eqb _ _)); [ | exact Hall].
    cbn [fst]. apply Forall_app. split; [exact Hall | ].
    constructor; [ | constructor]. destruct vmStatusTmp; reflexivity.
  - destruct (negb (TbVmStatusInfo.eqb _ _)); [ | exact Hall].
    cbn [fst]. apply Forall_app. split; [exact Hall | ].
    constructor; [ | constructor]. now apply Hs.
Qed.

Lemma fetchAll_known (nsId mcisId : string) (vmList : list string)
    (results : list TbVmStatusInfo.t) (w : World C) :
  Forall (fun v => known (TbVmStatusInfo.Status v) = true) results ->
  Forall (fun v => known (TbVmStatusInfo.Status v) = true)
    (fst (fetchAll nsId mcisId vmList results w)).
Proof.
  revert results w. induction vmList as [ | v rest IH]; intros results w Hall; [exact Hall | ].
  cbn [fetchAll].
  pose proof (FetchVmStatusAsync_known nsId mcisId v results w Hall) as Hone.
  destruct (FetchVmStatusAsync nsId mcisId v results w) as [results' w'].
  destruct (AppendLands (csp w')) as [[ | ] c]; now apply IH.
Qed.

(** A worker adds at most one entry. *)
Lemma FetchVmStatusAsync_length (nsId mcisId vmId : string) (results : list TbVmStatusInfo.t)
    (w : World C) :
  length (fst (FetchVmStatusAsync nsId mcisId vmId results w)) <= S (length results).
Proof.
  unfold FetchVmStatusAsync.
  destruct (negb _ && negb _ && negb _); [ | cbn [fst]; lia].
  destruct (FetchVmStatus nsId mcisId vmId w) as [[vmStatusTmp err] w'].
  destruct (negb (TbVmStatusInfo.eqb _ _)); cbn [fst]; [ | lia].
  rewrite length_app. cbn [length]. lia.
Qed.

Lemma fetchAll_length_le (nsId mcisId : string) (vmList : list string)
    (results : list TbVmStatusInfo.t) (w : World C) :
  length (fst (fetchAll nsId mcisId vmList results w)) <= length results + length vmList.
Proof.
  revert results w.
  induction vmList as [ | v rest IH]; intros results w; cbn [fetchAll length fst]; [lia | ].
  pose proof (FetchVmStatusAsync_length nsId mcisId v results w) as Hone.
  destruct (FetchVmStatusAsync nsId mcisId v results w) as [results' w']. cbn [fst] in Hone.
  destruct (AppendLands (csp w')) as [[ | ] c].
  - etransitivity; [apply IH | ]. lia.
  - etransitivity; [apply IH | ]. lia.
Qed.

Lemma fetchAll_length (nsId mcisId : string) (vmList : list string)
    (results : list TbVmStatusInfo.t) (w : World C) :
  nsId <> "" -> mcisId <> "" -> Forall (fun v => v <> "") vmList ->
  (forall c, fst (AppendLands c) = true) ->
  length (fst (fetchAll nsId mcisId vmList results w)) = length results + length vmList.
Proof.
  intros Hn Hm Hids Hlands. revert results w Hids.
  induction vmList as [ | v rest IH]; intros results w Hids; cbn [fetchAll length fst]; [lia | ].
  apply Forall_cons_1 in Hids as [Hv Hrest].
  destruct (FetchVmStatusAsync_adds nsId mcisId v results w Hn Hm Hv) as (x & Hx & _).
  destruct (FetchVmStatusAsync nsId mcisId v results w) as [results' w']. cbn [fst] in Hx.
  pose proof (Hlands (csp w')) as Hl.
  destruct (AppendLands (csp w')) as [lands c]. cbn [fst] in Hl. subst lands.
  rewrite IH by exact Hrest. subst results'. rewrite length_app. cbn [length]. lia.
Qed.

Lemma insertById_perm (x : TbVmStatusInfo.t) (l : list TbVmStatusInfo.t) :
  Permutation (insertById x l) (x :: l).
Proof.
  induction l as [ | y rest IH]; cbn [insertById]; [reflexivity | ].
  destruct (String.ltb _ _); [ | reflexivity].
  rewrite IH. apply perm_swap.
Qed.

Lemma sortById_perm (l : list TbVmStatusInfo.t) : Permutation (sortById l) l.
Proof.
  unfold sortById. induction l as [ | x rest IH]; cbn [fold_right]; [reflexivity | ].
  rewrite insertById_perm. now constructor.
Qed.

(** What [GetMcisStatus] returns: the empty record, or the record built
    from the sorted list of the fetched VM statuses. *)
Lemma GetMcisStatus_cases (nsId mcisId : string) (w : World C) :
  let st := fst (fst (GetMcisStatus nsId mcisId w)) in
  st = McisStatusInfo.zero \/
  exists vmList cell,
    CheckString nsId = None /\ CheckString mcisId = None /\
    kvs w !! GenMcisKey nsId mcisId "" = Some cell /\
    ListVmId nsId mcisId w = Ok vmList /\ vmList <> [] /\
    McisStatusInfo.Vm st = sortById (fst (fetchAll nsId mcisId vmList [] w)) /\
    McisStatusInfo.StatusCount st =
      statusCountOf (countStatus (McisStatusInfo.Vm st)) (length (McisStatusInfo.Vm st)).
Proof.
  cbv zeta. unfold GetMcisStatus.
  destruct (CheckString nsId); [now left | ].
  destruct (CheckString mcisId); [now left | ].
  destruct (kvs w !! GenMcisKey nsId mcisId "") as [cell | ]; [ | now left].
  destruct (ListVmId nsId mcisId w) as [vmList | e]; [ | now left].
  destruct vmList as [ | v0 rest]; [now left | ]. cbn [length Nat.eqb].
  right. exists (v0 :: rest), cell.
  cbn [statusInfoOfRecord McisStatusInfo.Vm].
  destruct (fetchAll nsId mcisId (v0 :: rest) [] w) as [vms w1].
  repeat split; try reflexivity. discriminate.
Qed.

Lemma insertById_head (x : TbVmStatusInfo.t) (l : list TbVmStatusInfo.t) :
  exists h t, insertById x l = h :: t /\ (h = x \/ exists t', l = h :: t').
Proof.
  destruct l as [ | y rest]; cbn [insertById]; [eauto | ].
  destruct (String.ltb _ _); eauto 6.
Qed.

Lemma insertById_ascending (x : TbVmStatusInfo.t) (l : list TbVmStatusInfo.t) :
  ascendingById l -> ascendingById (insertById x l).
Proof.
  induction l as [ | y rest IH]; intros Hs; [cbn; tauto | ].
  cbn [insertById].
  destruct (String.ltb (TbVmStatusInfo.Id y) (TbVmStatusInfo.Id x)) eqn:E.
  - destruct Hs as [Hy Hrest]. specialize (IH Hrest).
    destruct (insertById_head x rest) as (h & t & Eh & Hh). rewrite Eh in *.
    split; [ | exact IH].
    destruct Hh as [-> | [t' ->]]; [now apply ltb_asym | exact Hy].
  - split; [exact E | exact Hs].
Qed.

Lemma sortById_ascending (l : list TbVmStatusInfo.t) : ascendingById (sortById l).
Proof.
  unfold sortById. induction l as [ | x rest IH]; cbn [fold_right]; [exact I | ].
  now apply insertById_ascending.
Qed.

Lemma GetMcisStatus_counts (nsId mcisId : string) (w : World C) :
  let st := fst (fst (GetMcisStatus nsId mcisId w)) in
  let c := McisStatusInfo.StatusCount st in
  StatusCountInfo.CountTotal c = length (McisStatusInfo.Vm st) /\
  StatusCountInfo.CountFailed c + StatusCountInfo.CountSuspended c + StatusCountInfo.CountRunning c +
  StatusCountInfo.CountTerminated c + StatusCountInfo.CountCreating c +
  StatusCountInfo.CountSuspending c + StatusCountInfo.CountResuming c +
  StatusCountInfo.CountRebooting c + StatusCountInfo.CountTerminating c +
  StatusCountInfo.CountUndefined c = StatusCountInfo.CountTotal c.
Proof.
  cbv zeta. destruct (GetMcisStatus_cases nsId mcisId w) as [-> | (vmList & cell & Hrest)].
  - split; reflexivity.
  - destruct Hrest as (_ & _ & _ & _ & _ & _ & ->).
    cbn [statusCountOf StatusCountInfo.CountTotal StatusCountInfo.CountFailed
         StatusCountInfo.CountSuspended StatusCountInfo.CountRunning StatusCountInfo.CountTerminated
         StatusCountInfo.CountCreating StatusCountInfo.CountSuspending StatusCountInfo.CountResuming
         StatusCountInfo.CountRebooting StatusCountInfo.CountTerminating
         StatusCountInfo.CountUndefined].
    split; [reflexivity | ].
    rewrite !countStatus_nth. apply slotCount_total.
Qed.

(** X14: in every status that [GetMcisStatus] returns, [CountTotal] is
    the number of VM entries of the status, and the ten per-state
    counters add up to [CountTotal]. *)
Theorem status_counts_add_up (nsId mcisId : string) (w : World C) :
  let st := fst (fst (GetMcisStatus nsId mcisId w)) in
  let c := McisStatusInfo.StatusCount st in
  StatusCountInfo.CountTotal c = length (McisStatusInfo.Vm st) /\
  StatusCountInfo.CountFailed c + StatusCountInfo.CountSuspended c + StatusCountInfo.CountRunning c +
  StatusCountInfo.CountTerminated c + StatusCountInfo.CountCreating c +
  StatusCountInfo.CountSuspending c + StatusCountInfo.CountResuming c +
  StatusCountInfo.CountRebooting c + StatusCountInfo.CountTerminating c +
  StatusCountInfo.CountUndefined c = StatusCountInfo.CountTotal c.
Proof. apply GetMcisStatus_counts. Qed.

(** X15: in every status that [GetMcisStatus] returns, each VM entry
    carries one of the ten status names of [statusFlagStr] (a VM whose
    fetch failed is entered as [Failed]), and the entries are ordered by
    id: no entry has a smaller id than the entry before it. *)
Theorem status_vm_list_shape (nsId mcisId : string) (w : World C) :
  let st := fst (fst (GetMcisStatus nsId mcisId w)) in
  Forall (fun v => In (TbVmStatusInfo.Status v) statusFlagStr) (McisStatusInfo.Vm st) /\
  ascendingById (McisStatusInfo.Vm st).
Proof.
  cbv zeta. destruct (GetMcisStatus_cases nsId mcisId w) as [-> | (vmList & cell & Hrest)].
  - split; [constructor | exact I].
  - destruct Hrest as (_ & _ & _ & _ & _ & -> & _).
    split; [ | apply sortById_ascending].
    eapply Permutation_Forall; [symmetry; apply sortById_perm | ].
    eapply Forall_impl; [apply fetchAll_known; constructor | ].
    intros v Hv. now apply known_In.
Qed.

(** X16: the workers that gather the VM entries are not synchronised,
    so the status can list fewer VMs than [ListVmId] does, but never
    more: the number of entries, which is [CountTotal], is at most the
    number of listed ids.  When the MCIS record exists, the ids are not
    empty and the scheduler lets every append land, every listed id
    yields exactly one entry, also when the record of that VM cannot be
    read or Spider fails. *)
Theorem status_lists_at_most_the_listed_vms (nsId mcisId : string) (w : World C)
    (vmList : list string)
    (Hlist : ListVmId nsId mcisId w = Ok vmList) :
  let st := fst (fst (GetMcisStatus nsId mcisId w)) in
  length (McisStatusInfo.Vm st) <= length vmList /\
  StatusCountInfo.CountTotal (McisStatusInfo.StatusCount st) = length (McisStatusInfo.Vm st) /\
  (CheckString nsId = None -> CheckString mcisId = None ->
   nsId <> "" -> mcisId <> "" -> Forall (fun v => v <> "") vmList ->
   (exists cell, kvs w !! GenMcisKey nsId mcisId "" = Some cell) ->
   (forall c, fst (AppendLands c) = true) ->
   length (McisStatusInfo.Vm st) = length vmList).
Proof.
  cbv zeta. split; [ | split; [apply GetMcisStatus_counts | ]].
  - unfold GetMcisStatus.
    destruct (CheckString nsId); [cbn; lia | ].
    destruct (CheckString mcisId); [cbn; lia | ].
    destruct (kvs w !! GenMcisKey nsId mcisId "") as [cell | ]; [ | cbn; lia].
    rewrite Hlist.
    destruct vmList as [ | v0 rest]; [cbn; lia | ]. cbn [length Nat.eqb].
    cbn [statusInfoOfRecord McisStatusInfo.Vm].
    pose proof (fetchAll_length_le nsId mcisId (v0 :: rest) [] w) as Hl.
    destruct (fetchAll nsId mcisId (v0 :: rest) [] w) as [vms w1]. cbn [fst] in Hl.
    cbn [fst McisStatusInfo.Vm]. rewrite (Permutation_length (sortById_perm vms)). exact Hl.
  - intros Hns Hid Hn Hm Hids [cell Hrecord] Hlands.
    unfold GetMcisStatus. rewrite Hns, Hid, Hrecord, Hlist.
    destruct vmList as [ | v0 rest]; [reflexivity | ]. cbn [length Nat.eqb].
    cbn [statusInfoOfRecord McisStatusInfo.Vm].
    pose proof (fetchAll_length nsId mcisId (v0 :: rest) [] w Hn Hm Hids Hlands) as Hl.
    destruct (fetchAll nsId mcisId (v0 :: rest) [] w) as [vms w1]. cbn [fst] in Hl.
    cbn [fst McisStatusInfo.Vm]. rewrite (Permutation_length (sortById_perm vms)). exact Hl.
Qed.


(** X18: for a stored VM with a CSP id, [UpdateVmPublicIp] called with
    the stored record makes [GetVmIp] return the public IP and the SSH
    port that Spider reports (the private IP stays the stored one) and
    changes no other key; when Spider fails, the error is returned and
    the store is as it was. *)
Theorem update_public_ip_then_get_ip (nsId mcisId : string) (v : TbVmInfo.t) (w : World C)
    (Hstored : kvs w !! GenMcisKey nsId mcisId (TbVmInfo.Id v) = Some (VmCell v))
    (Hcsp : TbVmInfo.CspVmNameId v <> "") :
  (forall publicIP privateIP sshAccessPoint c',
     SpiderVm (TbVmInfo.CspVmNameId v) (TbVmInfo.ConnectionName v) (csp w)
       = (Ok (publicIP, privateIP, sshAccessPoint), c') ->
     exists w',
       UpdateVmPublicIp nsId mcisId v w = (None, w') /\
       csp w' = c' /\
       GetVmIp nsId mcisId (TbVmInfo.Id v) w'
         = Ok (publicIP, TbVmInfo.PrivateIP v, TrimIP sshAccessPoint) /\
       forall k, k <> GenMcisKey nsId mcisId (TbVmInfo.Id v) -> kvs w' !! k = kvs w !! k) /\
  (forall e c',
     SpiderVm (TbVmInfo.CspVmNameId v) (TbVmInfo.ConnectionName v) (csp w) = (Err e, c') ->
     UpdateVmPublicIp nsId mcisId v w = (Some e, mkWorld (kvs w) c')).
Proof.
  apply String.eqb_neq in Hcsp.
  split.
  - intros pub priv ssh c' Hs.
    unfold UpdateVmPublicIp, GetVmCurrentPublicIp. rewrite Hstored, Hcsp, Hs.
    cbn [TbVmStatusInfo.PublicIp TbVmStatusInfo.SSHPort].
    destruct (negb (String.eqb (TbVmInfo.PublicIP v) pub)
              || negb (String.eqb (TbVmInfo.SSHPort v) (TrimIP ssh))) eqn:Ed.
    + eexists. split; [reflexivity | ].
      set (v' := TbVmInfo.set_SSHPort (TrimIP ssh) (TbVmInfo.set_PublicIP pub v)).
      assert (Hid : TbVmInfo.Id v' = TbVmInfo.Id v) by (destruct v; reflexivity).
      assert (Hst : kvs (mkWorld (kvs w) c') !! GenMcisKey nsId mcisId (TbVmInfo.Id v') = Some (VmCell v))
        by (rewrite Hid; exact Hstored).
      split; [apply UpdateVmInfo_csp | ].
      split.
      * unfold GetVmIp, GetVmObject. rewrite <- Hid.
        rewrite UpdateVmInfo_lookup; [destruct v; reflexivity | rewrite Hst; eauto | | ];
          rewrite Hst; congruence.
      * intros k Hk. rewrite UpdateVmInfo_other by (rewrite Hid; exact Hk). reflexivity.
    + apply orb_false_elim in Ed as [Ep Es].
      apply negb_false_iff, String.eqb_eq in Ep. apply negb_false_iff, String.eqb_eq in Es.
      eexists. split; [reflexivity | ]. split; [reflexivity | ].
      split; [ | intros; reflexivity].
      unfold GetVmIp, GetVmObject. cbn [kvs]. rewrite Hstored, Ep, Es. reflexivity.
  - intros e c' Hs. unfold UpdateVmPublicIp, GetVmCurrentPublicIp. rewrite Hstored, Hcsp, Hs.
    reflexivity.
Qed.

Lemma stored_vm_object (nsId mcisId vmId : string) (w : World C) (temp : TbVmInfo.t) :
  kvs w !! GenMcisKey nsId mcisId vmId = Some (VmCell temp) ->
  GetVmObject nsId mcisId vmId w = Ok temp.
Proof. intros E. unfold GetVmObject. now rewrite E. Qed.

(** X19: a VM stored as [Terminated] with target status [Terminated]
    and target action [Terminate] stays so: [FetchVmStatus] reports
    [Terminated], asks the cloud nothing, and the stored record keeps
    status, target status and target action. *)
Theorem terminated_vm_stays_terminated (nsId mcisId : string) (w : World C) (temp : TbVmInfo.t)
    (Hstored : kvs w !! GenMcisKey nsId mcisId (TbVmInfo.Id temp) = Some (VmCell temp))
    (Hstatus : TbVmInfo.Status temp = StatusTerminated)
    (Htarget : TbVmInfo.TargetStatus temp = StatusTerminated)
    (Haction : TbVmInfo.TargetAction temp = ActionTerminate) :
  exists r w' stored,
    FetchVmStatus nsId mcisId (TbVmInfo.Id temp) w = ((r, None), w') /\
    TbVmStatusInfo.Status r = StatusTerminated /\
    TbVmStatusInfo.TargetStatus r = StatusTerminated /\
    TbVmStatusInfo.TargetAction r = ActionTerminate /\
    csp w' = csp w /\
    (forall k, k <> GenMcisKey nsId mcisId (TbVmInfo.Id temp) -> kvs w' !! k = kvs w !! k) /\
    kvs w' !! GenMcisKey nsId mcisId (TbVmInfo.Id temp) = Some (VmCell stored) /\
    TbVmInfo.Status stored = StatusTerminated /\
    TbVmInfo.TargetStatus stored = StatusTerminated /\
    TbVmInfo.TargetAction stored = ActionTerminate.
Proof.
  pose proof (stored_vm_object _ _ _ _ _ Hstored) as Hget.
  assert (Hgate : withoutCspId temp = false).
  { unfold withoutCspId. rewrite Haction. reflexivity. }
  destruct (FetchVmStatus_run nsId mcisId (TbVmInfo.Id temp) w temp Hget Hgate) as (errorInfo & ->).
  assert (Hp : polled temp (csp w) = (StatusUndefined, csp w)).
  { unfold polled. rewrite Hstatus. reflexivity. }
  rewrite Hp. cbn [fst snd].
  assert (Hr : reconciledStatus temp StatusUndefined = StatusTerminated).
  { unfold reconciledStatus. rewrite Haction, Hstatus. reflexivity. }
  rewrite Hr. unfold finalizeVmStatus.
  cbn [TbVmStatusInfo.TargetStatus TbVmStatusInfo.Status]. rewrite Htarget.
  cbn [String.eqb Ascii.eqb Bool.eqb andb negb StatusTerminated].
  rewrite ?String.eqb_refl. cbn [negb].
  cbn [TbVmStatusInfo.Status TbVmStatusInfo.TargetStatus TbVmStatusInfo.TargetAction
       TbVmStatusInfo.set_PublicIp TbVmStatusInfo.set_SSHPort TbVmStatusInfo.set_SystemMessage
       TbVmStatusInfo.set_Status TbVmStatusInfo.set_TargetAction TbVmStatusInfo.set_TargetStatus].
  set (temp' := TbVmInfo.set_SystemMessage _ _).
  assert (Hid : TbVmInfo.Id temp' = TbVmInfo.Id temp) by (destruct temp; reflexivity).
  assert (Hfields : TbVmInfo.Status temp' = StatusTerminated /\
                    TbVmInfo.TargetStatus temp' = StatusTerminated /\
                    TbVmInfo.TargetAction temp' = ActionTerminate)
    by (destruct temp; repeat split; reflexivity).
  destruct (negb (String.eqb (TbVmInfo.CspVmNameId temp) "")).
  - eexists. eexists. exists temp'. split; [reflexivity | ].
    split; [reflexivity | ]. split; [reflexivity | ]. split; [reflexivity | ].
    split; [rewrite UpdateVmInfo_csp; reflexivity | ].
    split; [intros k Hk; rewrite UpdateVmInfo_other by (rewrite Hid; exact Hk); reflexivity | ].
    split; [ | exact Hfields].
    rewrite <- Hid. apply UpdateVmInfo_lookup; rewrite Hid; cbn [kvs]; rewrite Hstored;
      [eauto | congruence | congruence].
  - eexists. eexists. exists temp. split; [reflexivity | ].
    split; [reflexivity | ]. split; [reflexivity | ]. split; [reflexivity | ].
    split; [reflexivity | ]. split; [intros; reflexivity | ].
    split; [exact Hstored | ]. repeat split; assumption.
Qed.

(** X20: the test of [vmStatusTmp.Status] against [Terminated] comes
    before that field is assigned, so it never holds.  A VM stored as
    [Terminated] whose target action is none of create, terminate,
    resume and reboot is therefore reported as [Undefined], and, having
    a CSP id, is stored as [Undefined]. *)
Theorem terminated_vm_with_other_action_turns_undefined (nsId mcisId : string) (w : World C)
    (temp : TbVmInfo.t)
    (Hstored : kvs w !! GenMcisKey nsId mcisId (TbVmInfo.Id temp) = Some (VmCell temp))
    (Hstatus : TbVmInfo.Status temp = StatusTerminated)
    (Hcsp : TbVmInfo.CspVmNameId temp <> "")
    (Haction : ~ In (TbVmInfo.TargetAction temp) [ActionCreate; ActionTerminate; ActionResume; ActionReboot])
    (Htarget : TbVmInfo.TargetStatus temp <> StatusUndefined) :
  exists r w' stored,
    FetchVmStatus nsId mcisId (TbVmInfo.Id temp) w = ((r, None), w') /\
    TbVmStatusInfo.Status r = StatusUndefined /\
    csp w' = csp w /\
    kvs w' !! GenMcisKey nsId mcisId (TbVmInfo.Id temp) = Some (VmCell stored) /\
    TbVmInfo.Status stored = StatusUndefined.
Proof.
  pose proof (stored_vm_object _ _ _ _ _ Hstored) as Hget.
  apply String.eqb_neq in Hcsp.
  assert (Hgate : withoutCspId temp = false).
  { unfold withoutCspId. rewrite Hcsp. apply andb_false_r. }
  destruct (FetchVmStatus_run nsId mcisId (TbVmInfo.Id temp) w temp Hget Hgate) as (errorInfo & ->).
  assert (Hp : polled temp (csp w) = (StatusUndefined, csp w)).
  { unfold polled. rewrite Hstatus. reflexivity. }
  rewrite Hp. cbn [fst snd].
  assert (Hr : reconciledStatus temp StatusUndefined = StatusUndefined).
  { unfold reconciledStatus, correctStatus.
    cbn [In] in Haction.
    destruct (String.eqb_spec (TbVmInfo.TargetAction temp) ActionCreate) as [e | _];
      [exfalso; apply Haction; rewrite e; auto 10 | ].
    destruct (String.eqb_spec (TbVmInfo.TargetAction temp) ActionTerminate) as [e | _];
      [exfalso; apply Haction; rewrite e; auto 10 | ].
    destruct (String.eqb_spec (TbVmInfo.TargetAction temp) ActionResume) as [e | _];
      [exfalso; apply Haction; rewrite e; auto 10 | ].
    destruct (String.eqb_spec (TbVmInfo.TargetAction temp) ActionReboot) as [e | _];
      [exfalso; apply Haction; rewrite e; auto 10 | ].
    reflexivity. }
  rewrite Hr. unfold finalizeVmStatus.
  cbn [TbVmStatusInfo.TargetStatus TbVmStatusInfo.Status].
  apply String.eqb_neq in Htarget. rewrite Htarget. rewrite Hcsp. cbn [negb].
  cbn [TbVmStatusInfo.Status TbVmStatusInfo.TargetStatus TbVmStatusInfo.TargetAction
       TbVmStatusInfo.SystemMessage
       TbVmStatusInfo.set_PublicIp TbVmStatusInfo.set_SSHPort TbVmStatusInfo.set_SystemMessage
       TbVmStatusInfo.set_Status TbVmStatusInfo.set_TargetAction TbVmStatusInfo.set_TargetStatus].
  set (temp' := TbVmInfo.set_SystemMessage _ _).
  assert (Hid : TbVmInfo.Id temp' = TbVmInfo.Id temp) by (destruct temp; reflexivity).
  assert (Hst : TbVmInfo.Status temp' = StatusUndefined) by (destruct temp; reflexivity).
  eexists. eexists. exists temp'. split; [reflexivity | ].
  split; [reflexivity | ].
  split; [rewrite UpdateVmInfo_csp; reflexivity | ].
  split; [ | exact Hst].
  rewrite <- Hid. apply UpdateVmInfo_lookup; rewrite Hid; cbn [kvs]; rewrite Hstored;
    [eauto | congruence | congruence].
Qed.

(** X21: with option [force] (in any letter case) [DelMcis] of an
    existing MCIS never refuses on account of the status: after the
    status read it goes on to the deletion itself. *)
Theorem forced_deletion_skips_the_gate (fuel : nat) (nsId mcisId option : string) (w : World C)
    (Hns : CheckString nsId = None) (Hid : CheckString mcisId = None)
    (Hexists : CheckMcis nsId mcisId w = true)
    (Hforce : Strings.ToLower option = "force") :
  DelMcis (S fuel) nsId mcisId option w =
    deleteAll (DelMcis fuel) nsId mcisId "force" (snd (GetMcisStatus nsId mcisId w)).
Proof.
  cbn [DelMcis]. rewrite Hns, Hid, Hexists, Hforce. cbn [negb].
  unfold deletionGate.
  destruct (GetMcisStatus nsId mcisId w) as [[st err] w1]. cbn [snd].
  assert (Hnt : Strings.EqualFold "force" ActionTerminate = false) by reflexivity.
  rewrite Hnt.
  destruct (negb (isTerminatedStatus (McisStatusInfo.Status st)));
    destruct (negb (String.eqb (McisStatusInfo.Id st) "")
              && negb (isDeletableStatus (McisStatusInfo.Status st))); reflexivity.
Qed.

(** X29: a VM whose record has no CSP id and whose target action is
    neither create nor terminate makes [FetchVmStatus] return the error
    ["cspVmId is empty (VmId: <id>)"] without asking the cloud and
    without touching the store; [FetchVmStatusAsync] enters it in the
    status list as a [Failed] VM with that message. *)
Theorem vm_without_csp_id_is_reported_failed (nsId mcisId vmId : string)
    (results : list TbVmStatusInfo.t) (w : World C) (temp : TbVmInfo.t)
    (Hns : nsId <> "") (Hmcis : mcisId <> "") (Hvm : vmId <> "")
    (Hget : GetVmObject nsId mcisId vmId w = Ok temp)
    (Hcsp : TbVmInfo.CspVmNameId temp = "")
    (Haction : TbVmInfo.TargetAction temp <> ActionCreate /\
               TbVmInfo.TargetAction temp <> ActionTerminate) :
  let msg := "cspVmId is empty (VmId: " +:+ vmId +:+ ")" in
  exists v,
    fst (FetchVmStatus nsId mcisId vmId w) = (v, Some msg) /\
    snd (FetchVmStatus nsId mcisId vmId w) = w /\
    FetchVmStatusAsync nsId mcisId vmId results w =
      (results ++ [TbVmStatusInfo.set_SystemMessage msg (TbVmStatusInfo.set_Status StatusFailed v)], w) /\
    TbVmStatusInfo.Id v = TbVmInfo.Id temp /\
    TbVmStatusInfo.TargetStatus v = TbVmInfo.TargetStatus temp /\
    TbVmStatusInfo.TargetAction v = TbVmInfo.TargetAction temp.
Proof.
  cbv zeta. destruct Haction as [Hc Ht].
  apply String.eqb_neq in Hns, Hmcis, Hvm, Hc, Ht.
  unfold FetchVmStatusAsync. rewrite Hns, Hmcis, Hvm. cbn [negb andb].
  unfold FetchVmStatus. rewrite Hget, Hc, Ht, Hcsp. cbn [negb andb String.eqb].
  eexists. split; [reflexivity | ]. split; [reflexivity | ].
  split; [ | repeat split; reflexivity].
  cbn [fst snd]. rewrite not_zero by reflexivity. reflexivity.
Qed.

End WithEnv.

(** Sample runs of the properties that have preconditions. *)
Lemma status_lists_at_most_the_listed_vms_witness :
  length (McisStatusInfo.Vm
            (fst (fst (GetMcisStatus (H := McisSamples.cloud "Running") "demo" "m1"
                         McisSamples.runningWorld)))) = 1.
Proof.
  destruct (status_lists_at_most_the_listed_vms (H := McisSamples.cloud "Running") "demo" "m1"
              McisSamples.runningWorld ["vm1"] eq_refl) as (_ & _ & Hall).
  apply Hall;
    [reflexivity | reflexivity | discriminate | discriminate
    | repeat constructor; discriminate | eexists; reflexivity | intros []; reflexivity].
Defined.

(** What a lost append does: when the append of the worker of the
    running [vm1] is lost and that of the terminated [vm2] lands, the
    status lists [vm2] only and reads as terminated, and a plain
    deletion removes the MCIS together with the record of [vm1]; when
    both appends land, the status lists both VMs and the deletion is
    refused. *)
Lemma lost_append_hides_a_vm :
  (let st := fst (fst (GetMcisStatus (H := racyCloud) "demo" "m1" (twoVmWorld [false; true]))) in
   map TbVmStatusInfo.Id (McisStatusInfo.Vm st) = ["vm2"] /\
   McisStatusInfo.Status st = "Terminated:1 (R:0/1)" /\
   exists w',
     DelMcis (H := racyCloud) 2 "demo" "m1" "" (twoVmWorld [false; true])
       = Some ((["[Done] VM: vm1"; "[Done] VM: vm2"; "[Done] MCIS: m1"], None), w') /\
     kvs w' !! McisSamples.keyOf "demo" "m1" "vm1" = None) /\
  (let st := fst (fst (GetMcisStatus (H := racyCloud) "demo" "m1" (twoVmWorld [true; true]))) in
   map TbVmStatusInfo.Id (McisStatusInfo.Vm st) = ["vm1"; "vm2"] /\
   McisStatusInfo.Status st = "Partial-Running:1 (R:1/2)" /\
   exists msg w',
     DelMcis (H := racyCloud) 2 "demo" "m1" "" (twoVmWorld [true; true])
       = Some (([], Some msg), w')).
Proof.
  cbv zeta. split.
  - split; [vm_compute; reflexivity | ]. split; [vm_compute; reflexivity | ].
    eexists. split; [vm_compute; reflexivity | reflexivity].
  - split; [vm_compute; reflexivity | ]. split; [vm_compute; reflexivity | ].
    eexists. eexists. vm_compute. reflexivity.
Qed.

Lemma update_public_ip_witness :
  exists w',
    UpdateVmPublicIp (H := McisSamples.cloud "Running") "demo" "m1"
      (McisSamples.vm1 "Creating" "Running" "Create") McisSamples.creatingWorld = (None, w') /\
    GetVmIp (H := McisSamples.cloud "Running") "demo" "m1" "vm1" w' = Ok ("3.35.1.7", "10.0.0.4", "22").
Proof.
  destruct (update_public_ip_then_get_ip (H := McisSamples.cloud "Running") "demo" "m1"
              (McisSamples.vm1 "Creating" "Running" "Create") McisSamples.creatingWorld
              eq_refl ltac:(discriminate)) as [Hok _].
  destruct (Hok "3.35.1.7" "10.0.0.4" "3.35.1.7:22" tt eq_refl) as (w' & Hrun & _ & Hip & _).
  exists w'. split; [exact Hrun | exact Hip].
Defined.

Lemma terminated_vm_stays_terminated_witness :
  exists r w',
    FetchVmStatus (H := McisSamples.cloud "Running") "demo" "m1" "vm1" terminatedWorld = ((r, None), w') /\
    TbVmStatusInfo.Status r = "Terminated".
Proof.
  destruct (terminated_vm_stays_terminated (H := McisSamples.cloud "Running") "demo" "m1"
              terminatedWorld (McisSamples.vm1 "Terminated" "Terminated" "Terminate")
              eq_refl eq_refl eq_refl eq_refl) as (r & w' & stored & Hrun & Hst & _).
  exists r, w'. split; [exact Hrun | exact Hst].
Defined.

Lemma stray_terminated_vm_witness :
  exists r w' stored,
    FetchVmStatus (H := McisSamples.cloud "Running") "demo" "m1" "vm1" strayTerminatedWorld
      = ((r, None), w') /\
    TbVmStatusInfo.Status r = "Undefined" /\
    kvs w' !! McisSamples.keyOf "demo" "m1" "vm1" = Some (VmCell stored) /\
    TbVmInfo.Status stored = "Undefined".
Proof.
  destruct (terminated_vm_with_other_action_turns_undefined (H := McisSamples.cloud "Running")
              "demo" "m1" strayTerminatedWorld (McisSamples.vm1 "Terminated" "None" "None")
              eq_refl eq_refl ltac:(discriminate)
              ltac:(cbn; intros [Hc | [Hc | [Hc | [Hc | []]]]]; discriminate)
              ltac:(discriminate))
    as (r & w' & stored & Hrun & Hst & _ & Hkv & Hstored).
  exists r, w', stored. repeat split; assumption.
Defined.

Lemma forced_deletion_witness :
  DelMcis (H := McisSamples.cloud "Running") 2 "demo" "m1" "Force" McisSamples.runningWorld =
    deleteAll (H := McisSamples.cloud "Running") (DelMcis (H := McisSamples.cloud "Running") 1)
      "demo" "m1" "force"
      (snd (GetMcisStatus (H := McisSamples.cloud "Running") "demo" "m1" McisSamples.runningWorld)).
Proof.
  exact (forced_deletion_skips_the_gate (H := McisSamples.cloud "Running") 1 "demo" "m1" "Force"
           McisSamples.runningWorld eq_refl eq_refl eq_refl eq_refl).
Defined.

Lemma vm_without_csp_id_witness :
  exists v,
    FetchVmStatusAsync (H := McisSamples.cloud "Running") "demo" "m1" "vm1" [] unprovisionedWorld
      = ([v], unprovisionedWorld) /\
    TbVmStatusInfo.Status v = "Failed" /\
    TbVmStatusInfo.SystemMessage v = "cspVmId is empty (VmId: vm1)".
Proof.
  destruct (vm_without_csp_id_is_reported_failed (H := McisSamples.cloud "Running") "demo" "m1" "vm1"
              [] unprovisionedWorld unprovisionedVm
              ltac:(discriminate) ltac:(discriminate) ltac:(discriminate) eq_refl eq_refl
              ltac:(split; discriminate)) as (v & _ & _ & Hrun & _).
  eexists. split; [exact Hrun | ]. destruct v; split; reflexivity.
Defined.

End McisExtras.

(** ** Review of a dynamic request: verdicts *)

Module ReviewExtras.

Import Views ReviewViews HistoryFacts ReviewFacts HistoryExtras.
Local Open Scope list_scope.

Section Review.
Context `{Catalog} `{infra.ReviewDeps}.

Ltac review_cases st :=
  repeat (cbv beta iota zeta;
          match goal with
          | |- context [match infra.LookupImage ?a ?b with _ => _ end] =>
              destruct (infra.LookupImage a b) as [[? ?] | ?]
          | |- context [infra.AnalyzeProvisioningRisk ?a ?b st] =>
              destruct (infra.AnalyzeProvisioningRisk a b st) as [[[? ?] | ?] ?]
          | |- context [if String.eqb ?l "high" then _ else _] => destruct (String.eqb l "high")
          | |- context [if String.eqb ?l "medium" then _ else _] => destruct (String.eqb l "medium")
          | |- context [if String.eqb ?l "low" then _ else _] => destruct (String.eqb l "low")
          | |- context [match ?x with (_, _) => _ end] =>
              lazymatch x with
              | (if (0 <? _)%nat then _ else _) => destruct x eqn:?
              | _ => destruct x
              end
          end).

Lemma reviewVm_consistent (vmRequest : infra.TbVmDynamicReq.t) (st : kvstore) :
  let res := fst (infra.reviewVm vmRequest st) in
  let r := infra.VmReviewResult.vmReview res in
  infra.VmReviewResult.viable res = infra.ReviewVmDynamicReqInfo.CanCreate r /\
  (infra.ReviewVmDynamicReqInfo.CanCreate r = true <-> infra.ReviewVmDynamicReqInfo.Errors r = []) /\
  infra.ReviewVmDynamicReqInfo.Status r =
    if (0 <? length (infra.ReviewVmDynamicReqInfo.Errors r))%nat then "Error"
    else if (0 <? length (infra.ReviewVmDynamicReqInfo.Warnings r))%nat then "Warning"
    else "Ready".
Proof.
  cbv zeta. unfold infra.reviewVm.
  destruct (GetSpec st SystemCommonNs (infra.TbVmDynamicReq.CommonSpec vmRequest)) as [specInfo | e];
    [destruct (infra.LookupSpec (TbSpecInfo.ConnectionName specInfo) (TbSpecInfo.CspSpecName specInfo)) | ];
    review_cases st;
    cbn [fst infra.VmReviewResult.vmReview infra.VmReviewResult.viable
         infra.ReviewVmDynamicReqInfo.CanCreate infra.ReviewVmDynamicReqInfo.Errors
         infra.ReviewVmDynamicReqInfo.Warnings infra.ReviewVmDynamicReqInfo.Status app];
    (split; [reflexivity | ]);
    (split; [split; intros; try reflexivity; discriminate | ]);
    match goal with
    | E : _ = (?status, _) |- ?status = _ =>
        apply (f_equal fst) in E; cbn [app fst] in E; rewrite <- E;
        repeat match goal with |- context [if ?c then _ else _] => destruct c end; reflexivity
    end.
Qed.

(** X22: in the review of one VM request, [CanCreate] holds exactly
    when the review lists no error, and the status is ["Error"] when
    there is an error, else ["Warning"] when there is a warning, else
    ["Ready"]. *)
Theorem vm_review_consistent (vmRequest : infra.TbVmDynamicReq.t) (st : kvstore) :
  let r := infra.VmReviewResult.vmReview (fst (infra.reviewVm vmRequest st)) in
  (infra.ReviewVmDynamicReqInfo.CanCreate r = true <-> infra.ReviewVmDynamicReqInfo.Errors r = []) /\
  infra.ReviewVmDynamicReqInfo.Status r =
    if (0 <? length (infra.ReviewVmDynamicReqInfo.Errors r))%nat then "Error"
    else if (0 <? length (infra.ReviewVmDynamicReqInfo.Warnings r))%nat then "Warning"
    else "Ready".
Proof. apply reviewVm_consistent. Qed.

Lemma reviewVms_results (vms : list infra.TbVmDynamicReq.t) (st : kvstore) :
  length (fst (infra.reviewVms vms st)) = length vms /\
  infra.allViableOf (fst (infra.reviewVms vms st)) =
    forallb infra.ReviewVmDynamicReqInfo.CanCreate
      (map infra.VmReviewResult.vmReview (fst (infra.reviewVms vms st))).
Proof.
  revert st. induction vms as [ | vmRequest rest IH]; intros st; [split; reflexivity | ].
  cbn [infra.reviewVms].
  destruct (reviewVm_consistent vmRequest st) as (Hv & _). cbv zeta in Hv.
  destruct (infra.reviewVm vmRequest st) as [r st1]. cbn [fst] in Hv.
  destruct (IH st1) as [Hl Ha].
  destruct (infra.reviewVms rest st1) as [rs st2]. cbn [fst] in *.
  split; [cbn [length]; now rewrite Hl | ].
  unfold infra.allViableOf in *. cbn [forallb map]. now rewrite Hv, Ha.
Qed.

(** X23: in every review that [ReviewMciDynamicReq] returns, the
    overall status is ["Error"], ["Warning"] or ["Ready"]; it is
    ["Error"] exactly when [CreationViable] is false; [CreationViable]
    holds exactly when there is at least one VM review and every one of
    them has [CanCreate]; and there is either no VM review (the MCI
    exists already, or no VM was requested) or one per requested VM. *)
Theorem review_verdict (reqID nsId : string) (req : infra.TbMciDynamicReq.t)
    (deployOption : string) (st : kvstore) (r : infra.ReviewMciDynamicReqInfo.t)
    (Hrun : fst (infra.ReviewMciDynamicReq reqID nsId req deployOption st) = Ok r) :
  In (infra.ReviewMciDynamicReqInfo.OverallStatus r) ["Error"; "Warning"; "Ready"] /\
  (infra.ReviewMciDynamicReqInfo.OverallStatus r = "Error" <->
   infra.ReviewMciDynamicReqInfo.CreationViable r = false) /\
  (infra.ReviewMciDynamicReqInfo.CreationViable r = true <->
   infra.ReviewMciDynamicReqInfo.VmReviews r <> [] /\
   forallb infra.ReviewVmDynamicReqInfo.CanCreate (infra.ReviewMciDynamicReqInfo.VmReviews r) = true) /\
  (infra.ReviewMciDynamicReqInfo.VmReviews r = [] \/
   length (infra.ReviewMciDynamicReqInfo.VmReviews r) = length (infra.TbMciDynamicReq.Vm req)).
Proof.
  revert Hrun. unfold infra.ReviewMciDynamicReq.
  destruct (infra.CheckString nsId); [discriminate | ].
  destruct (infra.CheckMci st nsId (infra.TbMciDynamicReq.Name req)) as [[ | ] | e];
    [ | | discriminate].
  - intros [= <-]. cbn. split; [tauto | ]. split; [tauto | ]. split; [ | now left].
    split; [discriminate | intros [Hne _]; now contradiction Hne].
  - destruct (infra.TbMciDynamicReq.Vm req) as [ | vm0 rest] eqn:Evm.
    + intros [= <-]. cbn. split; [tauto | ]. split; [tauto | ]. split; [ | now left].
      split; [discriminate | intros [Hne _]; now contradiction Hne].
    + cbn [length Nat.eqb].
      destruct (reviewVms_results (vm0 :: rest) st) as [Hl Ha].
      destruct (infra.reviewVms (vm0 :: rest) st) as [results st1]. cbn [fst] in Hl, Ha.
      repeat (cbv beta iota zeta;
              match goal with
              | |- context [match ?x with (_, _) => _ end] =>
                  lazymatch x with
                  | (if negb (infra.allViableOf _) then _ else _) => destruct x eqn:?
                  | _ => destruct x
                  end
              end).
      cbn [fst]. intros [= <-].
      cbn [infra.ReviewMciDynamicReqInfo.OverallStatus infra.ReviewMciDynamicReqInfo.CreationViable
           infra.ReviewMciDynamicReqInfo.VmReviews].
      match goal with
      | E : _ = (?a, _, _) |- _ =>
          assert (Hs : a = if negb (infra.allViableOf results) then "Error"
                           else if infra.hasWarningsOf results then "Warning" else "Ready")
            by (apply (f_equal (fun t => fst (fst t))) in E; cbn [fst] in E; rewrite <- E;
                destruct (negb (infra.allViableOf results)); [reflexivity | ];
                destruct (infra.hasWarningsOf results); reflexivity);
          clear E
      end.
      rewrite Hs, Ha. rewrite Ha in Hs.
      assert (Hne : map infra.VmReviewResult.vmReview results <> []).
      { destruct results; [discriminate | discriminate]. }
      rewrite length_map.
      destruct (forallb _ _); cbn [negb].
      * destruct (infra.hasWarningsOf results); cbn; (split; [tauto | ]); (split; [split; discriminate | ]);
          (split; [tauto | now right]).
      * cbn. split; [tauto | ]. split; [tauto | ]. split; [ | now right].
        split; [discriminate | intros [_ ?]; discriminate].
Qed.

(** X24: when the catalog knows the spec of a VM request and the stored
    log of that spec lists the requested image among its failed images
    (with at least one attempt counted), the review of that request has
    [CanCreate] false and status ["Error"], lists the high-risk error,
    and leaves the store as it is. *)
Theorem failed_image_blocks_vm (vmRequest : infra.TbVmDynamicReq.t) (st : kvstore)
    (specInfo : TbSpecInfo.t) (l : ProvisioningLog.t)
    (Hspec : GetSpec st SystemCommonNs (infra.TbVmDynamicReq.CommonSpec vmRequest) = Ok specInfo)
    (Hstored : st !! infra.generateProvisioningLogKey (infra.TbVmDynamicReq.CommonSpec vmRequest)
               = Some (Encoded l))
    (Hattempts : int_add (ProvisioningLog.FailureCount l) (ProvisioningLog.SuccessCount l) <> 0)
    (Hfailed : In (infra.TbVmDynamicReq.CommonImage vmRequest) (ProvisioningLog.FailureImages l)) :
  let r := infra.VmReviewResult.vmReview (fst (infra.reviewVm vmRequest st)) in
  infra.ReviewVmDynamicReqInfo.CanCreate r = false /\
  infra.ReviewVmDynamicReqInfo.Status r = "Error" /\
  (exists msg, In ("High provisioning failure risk: " +:+ msg) (infra.ReviewVmDynamicReqInfo.Errors r)) /\
  snd (infra.reviewVm vmRequest st) = st.
Proof.
  cbv zeta.
  destruct (failed_image_high _ (infra.TbVmDynamicReq.CommonImage vmRequest) st l Hstored Hattempts
              (proj2 (contains_In _ _) Hfailed)) as [msg Hrisk].
  split; [ | split; [ | split]].
  4: { rewrite reviewVm_store, Hspec. now apply afterRead_encoded with l. }
  all: unfold infra.reviewVm; rewrite Hspec, Hrisk;
    destruct (infra.LookupSpec (TbSpecInfo.ConnectionName specInfo) (TbSpecInfo.CspSpecName specInfo));
    repeat (cbv beta iota zeta;
            match goal with
            | |- context [String.eqb "high" "high"] => change (String.eqb "high" "high") with true
            | |- context [match infra.LookupImage ?a ?b with _ => _ end] =>
                destruct (infra.LookupImage a b) as [[? ?] | ?]
            | |- context [match ?x with (_, _) => _ end] =>
                lazymatch x with
                | (if (0 <? _)%nat then _ else _) => fail
                | _ => destruct x
                end
            end);
    cbn -[String.append Strings.Itoa]; try reflexivity; eexists; eauto 6.
Qed.

End Review.

(** Sample runs of the properties that have preconditions. *)
Lemma review_verdict_witness :
  match fst (infra.ReviewMciDynamicReq (H := Samples.s5catalog) (H0 := ReviewSamples.permissive)
               "req-1" "default" ReviewSamples.s5request "" Samples.s5store) with
  | Ok r =>
      infra.ReviewMciDynamicReqInfo.OverallStatus r = "Error" <->
      infra.ReviewMciDynamicReqInfo.CreationViable r = false
  | Err _ => False
  end.
Proof.
  destruct (fst (infra.ReviewMciDynamicReq (H := Samples.s5catalog) (H0 := ReviewSamples.permissive)
                   "req-1" "default" ReviewSamples.s5request "" Samples.s5store)) as [r | e] eqn:E.
  - apply (review_verdict (H := Samples.s5catalog) (H0 := ReviewSamples.permissive)
             "req-1" "default" ReviewSamples.s5request "" Samples.s5store r E).
  - vm_compute in E. discriminate.
Defined.

Lemma failed_image_blocks_vm_witness :
  infra.ReviewVmDynamicReqInfo.CanCreate
    (infra.VmReviewResult.vmReview
       (fst (infra.reviewVm (H := Samples.s5catalog) (H0 := ReviewSamples.permissive)
               (infra.TbVmDynamicReq.mk "v" "1" Samples.s5spec Samples.s5image "" "" "")
               Samples.s5store))) = false.
Proof.
  apply (failed_image_blocks_vm (H := Samples.s5catalog) (H0 := ReviewSamples.permissive)
           (infra.TbVmDynamicReq.mk "v" "1" Samples.s5spec Samples.s5image "" "" "")
           Samples.s5store
           (TbSpecInfo.mk Samples.s5spec "gcp-europe-north1" "gcp" "europe-north1" "f1-micro" (1 # 100))
           Samples.s5log eq_refl eq_refl ltac:(discriminate) ltac:(now left)).
Defined.

End ReviewExtras.

(** ** Checks of dynamic requests *)

Module CheckExtras.

Local Open Scope list_scope.

Lemma append_not_empty (s t : string) : t <> "" -> s +:+ t <> "".
Proof. intros Ht. destruct s; [exact Ht | discriminate]. Qed.

Section Checks.
Context {SpecInfo RegionDetail : Type}.
Context (ProviderName RegionName InfraType : SpecInfo -> string).
Context (SystemCommonNs DefaultCredentialHolder StrK8s StrKubernetes : string).
Context (GetConnConfigList : string -> bool -> bool -> Result (list infra.ConnConfig.t)).
Context (GetSpec : string -> string -> SpecInfo * option string).
Context (GetRegion : string -> string -> RegionDetail * option string).
Context (GetImagesByRegion : string -> string -> string -> list infra.TbImageInfo.t * option string).

Local Abbreviation checkCommonSpec :=
  (infra.checkCommonSpec ProviderName RegionName SystemCommonNs GetSpec GetRegion GetImagesByRegion).
Local Abbreviation CheckMciDynamicReq :=
  (infra.CheckMciDynamicReq ProviderName RegionName SystemCommonNs DefaultCredentialHolder
     GetConnConfigList GetSpec GetRegion GetImagesByRegion).
Local Abbreviation CheckK8sClusterDynamicReq :=
  (infra.CheckK8sClusterDynamicReq ProviderName RegionName InfraType SystemCommonNs
     DefaultCredentialHolder StrK8s StrKubernetes GetConnConfigList GetSpec GetRegion
     GetImagesByRegion).
Local Abbreviation isK8sInfra := (infra.isK8sInfra StrK8s StrKubernetes).
Local Abbreviation nodeOf := (CheckViews.nodeOf (SpecInfo := SpecInfo) (RegionDetail := RegionDetail)
                                StrK8s StrKubernetes).

Lemma checkCommonSpec_fields (cfgs : list infra.ConnConfig.t) (k : string) :
  let r := checkCommonSpec cfgs k in
  let specInfo := fst (GetSpec SystemCommonNs k) in
  infra.CheckVmDynamicReqInfo.Spec r = specInfo /\
  infra.CheckVmDynamicReqInfo.Image r =
    fst (GetImagesByRegion SystemCommonNs (ProviderName specInfo) (RegionName specInfo)) /\
  (forall name, In name (infra.CheckVmDynamicReqInfo.ConnectionConfigCandidates r) ->
     exists c, In c cfgs /\ infra.ConnConfig.ConfigName c = name /\
               infra.ConnConfig.ProviderName c = ProviderName specInfo) /\
  (infra.CheckVmDynamicReqInfo.SystemMessage r = "" <->
   snd (GetSpec SystemCommonNs k) = None /\
   snd (GetRegion (ProviderName specInfo) (RegionName specInfo)) = None /\
   snd (GetImagesByRegion SystemCommonNs (ProviderName specInfo) (RegionName specInfo)) = None).
Proof.
  cbv zeta. unfold infra.checkCommonSpec.
  destruct (GetSpec SystemCommonNs k) as [specInfo e1]. cbn [fst snd].
  destruct (GetRegion (ProviderName specInfo) (RegionName specInfo)) as [regionInfo e2].
  destruct (GetImagesByRegion SystemCommonNs (ProviderName specInfo) (RegionName specInfo))
    as [images e3].
  cbn [fst snd infra.CheckVmDynamicReqInfo.Spec infra.CheckVmDynamicReqInfo.Image
       infra.CheckVmDynamicReqInfo.ConnectionConfigCandidates
       infra.CheckVmDynamicReqInfo.SystemMessage].
  split; [reflexivity | ]. split; [reflexivity | ].
  split.
  - intros name Hin. apply in_map_iff in Hin. destruct Hin as (c & Hc & Hin).
    apply filter_In in Hin. destruct Hin as [Hin Hp].
    apply andb_true_iff in Hp. destruct Hp as [Hp _]. apply String.eqb_eq in Hp.
    exists c. repeat split; assumption.
  - destruct e1 as [e1 | ], e2 as [e2 | ], e3 as [e3 | ];
      (split; [intros Hm | intros (H1 & H2 & H3); try discriminate; reflexivity]);
      try (repeat split; reflexivity);
      exfalso; revert Hm; apply append_not_empty; discriminate.
Qed.

(** X25: when the connection list loads, [CheckMciDynamicReq] returns
    no error, whatever the lookups of the single specs do: it returns
    one entry per requested spec, in the order of the request, carrying
    the spec that [GetSpec] returned; every connection candidate of an
    entry is a listed connection of the spec's provider; and the
    [SystemMessage] of every entry is empty exactly when the spec, the
    region and the image lookups succeeded for every spec.  When the
    connection list does not load, the result is empty with the error
    ["cannot load ConnectionConfigList in MCI dynamic request check"]. *)
Theorem check_mci_dynamic_req_shape (commonSpecs : list string) :
  (forall cfgs,
     GetConnConfigList DefaultCredentialHolder true true = Ok cfgs ->
     snd (CheckMciDynamicReq commonSpecs) = None /\
     map infra.CheckVmDynamicReqInfo.Spec (fst (CheckMciDynamicReq commonSpecs)) =
       map (fun k => fst (GetSpec SystemCommonNs k)) commonSpecs /\
     Forall (fun r =>
               forall name, In name (infra.CheckVmDynamicReqInfo.ConnectionConfigCandidates r) ->
                 exists c, In c cfgs /\ infra.ConnConfig.ConfigName c = name /\
                           infra.ConnConfig.ProviderName c =
                             ProviderName (infra.CheckVmDynamicReqInfo.Spec r))
       (fst (CheckMciDynamicReq commonSpecs)) /\
     (Forall (fun r => infra.CheckVmDynamicReqInfo.SystemMessage r = "")
        (fst (CheckMciDynamicReq commonSpecs)) <->
      Forall (fun k =>
                let specInfo := fst (GetSpec SystemCommonNs k) in
                snd (GetSpec SystemCommonNs k) = None /\
                snd (GetRegion (ProviderName specInfo) (RegionName specInfo)) = None /\
                snd (GetImagesByRegion SystemCommonNs (ProviderName specInfo) (RegionName specInfo))
                  = None)
        commonSpecs)) /\
  (forall e,
     GetConnConfigList DefaultCredentialHolder true true = Err e ->
     CheckMciDynamicReq commonSpecs =
       ([], Some "cannot load ConnectionConfigList in MCI dynamic request check")).
Proof.
  unfold infra.CheckMciDynamicReq.
  split.
  - intros cfgs ->. cbn [fst snd]. split; [reflexivity | ].
    split.
    { rewrite map_map. apply map_ext. intros k. apply checkCommonSpec_fields. }
    split.
    { apply Forall_forall. intros r Hr. apply list_elem_of_In, in_map_iff in Hr.
      destruct Hr as (k & <- & _).
      destruct (checkCommonSpec_fields cfgs k) as (Hs & _ & Hc & _). cbv zeta in Hc, Hs.
      rewrite Hs. exact Hc. }
    rewrite !Forall_forall. split.
    + intros Hall k Hk.
      destruct (checkCommonSpec_fields cfgs k) as (_ & _ & _ & Hm). cbv zeta in Hm.
      apply Hm, Hall. apply list_elem_of_In, in_map_iff. exists k. split; [reflexivity | ].
      now apply list_elem_of_In.
    + intros Hall r Hr. apply list_elem_of_In, in_map_iff in Hr. destruct Hr as (k & <- & Hk).
      destruct (checkCommonSpec_fields cfgs k) as (_ & _ & _ & Hm). cbv zeta in Hm.
      apply Hm, Hall. now apply list_elem_of_In.
  - intros e ->. reflexivity.
Qed.

Lemma filter_fold (reqCheck : list (infra.CheckVmDynamicReqInfo.t SpecInfo RegionDetail))
    (acc : list (infra.CheckNodeDynamicReqInfo.t SpecInfo RegionDetail)) :
  fold_left
    (fun acc k =>
       if isK8sInfra (InfraType (infra.CheckVmDynamicReqInfo.Spec k)) then acc ++ [nodeOf k] else acc)
    reqCheck acc =
  acc ++ map nodeOf
           (List.filter (fun k => isK8sInfra (InfraType (infra.CheckVmDynamicReqInfo.Spec k))) reqCheck).
Proof.
  revert acc. induction reqCheck as [ | k rest IH]; intros acc; cbn [fold_left List.filter map].
  - now rewrite app_nil_r.
  - rewrite IH. destruct (isK8sInfra _); [ | reflexivity].
    cbn [map]. now rewrite <- app_assoc.
Qed.

Lemma filter_run (reqCheck : list (infra.CheckVmDynamicReqInfo.t SpecInfo RegionDetail)) :
  infra.filterCheckMciDynamicReqInfoToCheckK8sClusterDynamicReqInfo InfraType StrK8s StrKubernetes
    (Some reqCheck) =
  map nodeOf
    (List.filter (fun k => isK8sInfra (InfraType (infra.CheckVmDynamicReqInfo.Spec k))) reqCheck).
Proof.
  unfold infra.filterCheckMciDynamicReqInfoToCheckK8sClusterDynamicReqInfo.
  change (fold_left _ reqCheck [])
    with (fold_left
            (fun acc k =>
               if isK8sInfra (InfraType (infra.CheckVmDynamicReqInfo.Spec k))
               then acc ++ [nodeOf k] else acc) reqCheck []).
  now rewrite filter_fold.
Qed.

Lemma nodeOf_image (k : infra.CheckVmDynamicReqInfo.t SpecInfo RegionDetail) :
  infra.CheckNodeDynamicReqInfo.Image (nodeOf k) <> [] /\
  (infra.CheckNodeDynamicReqInfo.Image (nodeOf k) = [infra.TbImageInfo.mk "default" "default" ""] \/
   Forall (fun i => isK8sInfra (infra.TbImageInfo.InfraType i) = true /\
                    In i (infra.CheckVmDynamicReqInfo.Image k))
     (infra.CheckNodeDynamicReqInfo.Image (nodeOf k))).
Proof.
  unfold CheckViews.nodeOf. cbn [infra.CheckNodeDynamicReqInfo.Image].
  destruct (List.filter _ (infra.CheckVmDynamicReqInfo.Image k)) as [ | i0 imgs] eqn:Ef.
  - cbn. split; [discriminate | now left].
  - cbn [length Nat.ltb Nat.leb]. split; [discriminate | right].
    rewrite <- Ef. apply Forall_forall. intros i Hi.
    apply list_elem_of_In, filter_In in Hi. tauto.
Qed.

(** X26: [filterCheckMciDynamicReqInfoToCheckK8sClusterDynamicReqInfo]
    keeps, in order, exactly the entries whose spec has a Kubernetes
    infra type; the image list of a kept entry is never empty: it holds
    the Kubernetes images of the entry, or the single image
    ["default"] when the entry has none. *)
Theorem filter_keeps_k8s_entries
    (mciDReqInfo : option (list (infra.CheckVmDynamicReqInfo.t SpecInfo RegionDetail))) :
  let reqCheck := match mciDReqInfo with Some l => l | None => [] end in
  let nodes :=
    infra.filterCheckMciDynamicReqInfoToCheckK8sClusterDynamicReqInfo InfraType StrK8s StrKubernetes
      mciDReqInfo in
  map infra.CheckNodeDynamicReqInfo.Spec nodes =
    List.filter (fun s => isK8sInfra (InfraType s)) (map infra.CheckVmDynamicReqInfo.Spec reqCheck) /\
  Forall2 (fun n k =>
             infra.CheckNodeDynamicReqInfo.Image n <> [] /\
             (infra.CheckNodeDynamicReqInfo.Image n = [infra.TbImageInfo.mk "default" "default" ""] \/
              Forall (fun i => isK8sInfra (infra.TbImageInfo.InfraType i) = true /\
                               In i (infra.CheckVmDynamicReqInfo.Image k))
                (infra.CheckNodeDynamicReqInfo.Image n)))
    nodes
    (List.filter (fun k => isK8sInfra (InfraType (infra.CheckVmDynamicReqInfo.Spec k))) reqCheck).
Proof.
  cbv zeta. destruct mciDReqInfo as [reqCheck | ]; [ | split; [reflexivity | constructor]].
  rewrite filter_run. split.
  - induction reqCheck as [ | k rest IH]; [reflexivity | ].
    cbn [List.filter map]. destruct (isK8sInfra _); cbn [map]; now rewrite IH.
  - induction (List.filter _ reqCheck) as [ | k rest IH]; cbn [map]; constructor;
      [apply nodeOf_image | exact IH].
Qed.

(** X27: [CheckK8sClusterDynamicReq] returns at most one node entry;
    an entry it returns has a Kubernetes spec and at least one image;
    the error ["Only one CommonSpec should be defined."] is returned
    exactly when the request does not name exactly one spec; and with
    any error the result has no entry. *)
Theorem check_k8s_cluster_req_shape (commonSpecs : list string) :
  let nodes := fst (CheckK8sClusterDynamicReq commonSpecs) in
  let err := snd (CheckK8sClusterDynamicReq commonSpecs) in
  (length nodes <= 1)%nat /\
  Forall (fun n =>
            isK8sInfra (InfraType (infra.CheckNodeDynamicReqInfo.Spec n)) = true /\
            infra.CheckNodeDynamicReqInfo.Image n <> [])
    nodes /\
  (length commonSpecs <> 1%nat <-> err = Some "Only one CommonSpec should be defined.") /\
  (err <> None -> nodes = []).
Proof.
  cbv zeta. unfold infra.CheckK8sClusterDynamicReq.
  destruct commonSpecs as [ | k [ | k' rest]]; cbn [length Nat.eqb negb fst snd].
  - split; [lia | ]. split; [constructor | ]. split; [split; [reflexivity | intros _; lia] | reflexivity].
  - unfold infra.CheckMciDynamicReq.
    destruct (GetConnConfigList DefaultCredentialHolder true true) as [cfgs | e].
    + rewrite filter_run. cbn [map List.filter fst snd].
      destruct (isK8sInfra (InfraType (infra.CheckVmDynamicReqInfo.Spec (checkCommonSpec cfgs k))))
        eqn:Ek; cbn [map length].
      * split; [lia | ]. split; [constructor; [ | constructor] | ].
        { split; [exact Ek | apply nodeOf_image]. }
        split; [split; [intros Hc; now contradiction Hc | discriminate] | ].
        intros Hc. now contradiction Hc.
      * split; [lia | ]. split; [constructor | ].
        split; [split; [intros Hc; now contradiction Hc | discriminate] | reflexivity].
    + cbn [fst snd]. split; [cbn; lia | ]. split; [constructor | ].
      split; [split; [intros Hc; now contradiction Hc | discriminate] | reflexivity].
  - split; [lia | ]. split; [constructor | ].
    split; [split; [reflexivity | intros _; cbn; lia] | reflexivity].
Qed.

End Checks.

End CheckExtras.

(** ** Kubernetes version recommendation: a request without digits *)

Module K8sExtras.

Import infra K8sViews K8sFacts.
Local Open Scope list_scope.

Section WithK8sCommon.
Context `{K8sCommon}.


End WithK8sCommon.


End K8sExtras.
